(** * videojs-xr: session lifecycle and frame scheduling of the [Xr] plugin

    A shallow embedding of [src/plugin.js].  The plugin instance is a record
    of the fields the methods read and write; the collaborators it talks to
    (host player, window, WebXR runtime, rendering engine) are a second
    record holding what they remember on the plugin's behalf: pending frame
    callbacks, pending promises, registered listeners, player children.
    Every method is a computation in a state-and-exception monad over the
    pair.  The calls on the clocks, the controls, the renderer's session
    manager, the WebXR runtime, the console and the event targets are
    appended to a trace, in program order, together with the writes to
    [initialized_]; a promise chain and a frame callback run when the host
    settles the promise or fires the frame. *)

From Stdlib Require Import List String Bool Arith Lia.
Import ListNotations.
Open Scope string_scope.
Open Scope list_scope.

(** ** Values handed out by the host *)

Definition XRSession := nat.
Definition XRReferenceSpace := nat.
Definition XRFrame := nat.
Definition FrameHandle := nat.

(** The two scheduling primitives behind [requestAnimationFrame]. *)
Inductive Clock : Type :=
| PlayerClock
| SessionClock (s : XRSession).

(** The bound methods of the plugin that are handed out as callbacks. *)
Inductive Handler : Type :=
| H_init
| H_handleResize_
| H_handleVrDisplayActivate_
| H_handleVrDisplayDeactivate_.

(** A JavaScript error object, reduced to its [name]. *)
Record JsError := mkJsError { name : string }.

Definition InvalidStateError : JsError := mkJsError "InvalidStateError".

(** Exceptions raised by the plugin's own code: property access on
    [null] / [undefined]. *)
Inductive Exn : Type :=
| TypeError (what : string).

(** ** Objects owned by the plugin *)

(** Modelled from the spec: [OrbitOrientationControls]
    (orbit-orientation-controls.js is not part of the sources at hand).  The
    spec's ControlsHandle is "disabled (not destroyed) while immersive
    session is active, re-enabled on deactivation": the object carries one
    flag, set by [enable()] and cleared by [disable()]; a new instance is
    enabled. *)
Record OrbitOrientationControls := mkControls { enabled : bool }.

Inductive CanvasPlayerControls : Type := mkCanvasPlayerControls.
Inductive PerspectiveCamera : Type := mkPerspectiveCamera.
(** The renderer's canvas element; [has_parentNode] tells whether it is in
    the document, that is whether its [parentNode] is not null. *)
Record Canvas : Type := mkCanvas { has_parentNode : bool }.

(** [THREE.WebGLRenderer], reduced to its [xr] manager. *)
Record WebGLRenderer := mkRenderer {
  xr_enabled : bool;
  xr_session : option XRSession
}.

Record VideoTexture := mkVideoTexture { needsUpdate : bool }.

(** The value stored by [xrFrame.getViewerPose(this.xrReferenceSpace)]. *)
Record XRPose := mkPose {
  pose_frame : XRFrame;
  pose_space : option XRReferenceSpace
}.

(** ** The plugin instance: the fields of [this] *)

Record Xr := mkXr {
  initialized_ : bool;
  xrSupported : bool;
  xrActive : bool;
  currentSession : option XRSession;
  xrReferenceSpace : option XRReferenceSpace;
  xrPose : option XRPose;
  animationFrameId_ : option FrameHandle;
  controls3d : option OrbitOrientationControls;
  canvasPlayerControls : option CanvasPlayerControls;
  renderer : option WebGLRenderer;
  camera : option PerspectiveCamera;
  videoTexture : option VideoTexture;
  renderedCanvas : option Canvas
}.

(** ** The collaborators *)

(** The [then] / [catch] chains the plugin attaches to host promises. *)
Inductive Cont : Type :=
| K_isSessionSupported      (* init, lines 238-246 *)
| K_requestSession          (* handleVrDisplayActivate_, lines 64-80 *)
| K_requestReferenceSpace   (* handleVrDisplayActivate_, lines 73-79 *)
| K_end.                    (* handleVrDisplayDeactivate_, lines 91-102 *)

Record Host := mkHost {
  navigator_xr : bool;                          (* is window.navigator.xr truthy *)
  frames : list (Clock * FrameHandle);          (* scheduled animate_ callbacks *)
  next_handle : FrameHandle;
  promises : list (nat * Cont);                 (* unsettled promises *)
  next_promise : nat;
  window_listeners : list (string * Handler);
  player_listeners : list (string * Handler);
  session_end_listeners : list XRSession;
  player_children : list string;
  controlBar_children : list string
}.

(** What the plugin does to its collaborators, in program order. *)
Inductive Action : Type :=
| A_player_raf (h : FrameHandle)                  (* this.player.requestAnimationFrame *)
| A_session_raf (s : XRSession) (h : FrameHandle) (* this.currentSession.requestAnimationFrame *)
| A_player_caf (h : FrameHandle)                  (* this.player.cancelAnimationFrame *)
| A_session_caf (s : XRSession) (h : FrameHandle) (* this.currentSession.cancelAnimationFrame *)
| A_controls_disable
| A_controls_enable
| A_controls_update
| A_controls_dispose
| A_canvasPlayerControls_dispose
| A_isSessionSupported
| A_requestSession
| A_session_on_end (s : XRSession)
| A_renderer_setSession (o : option XRSession)
| A_requestReferenceSpace (s : XRSession)
| A_session_end (s : XRSession)
| A_trigger (e : string)
| A_console_log (msg : string)
| A_console_log_error (e : JsError)
| A_player_on (e : string) (h : Handler)
| A_window_add (e : string) (h : Handler)
| A_window_remove (e : string) (h : Handler)
| A_assign_initialized (b : bool)                 (* this.initialized_ = b *)
| A_call (what : string)                          (* a call with no modelled effect *)
| A_uncaught (e : Exn)                            (* reported by the host: a callback threw *)
| A_unhandled_rejection (e : JsError).            (* reported by the host: no handler *)

Record World := mkWorld {
  xr : Xr;
  host : Host;
  trace : list Action
}.

(** ** Field updates: [set_f v x] is [x] after the assignment [x.f = v] *)

Definition set_initialized_ (v : bool) (x : Xr) : Xr :=
  {| initialized_ := v;
     xrSupported := xrSupported x;
     xrActive := xrActive x;
     currentSession := currentSession x;
     xrReferenceSpace := xrReferenceSpace x;
     xrPose := xrPose x;
     animationFrameId_ := animationFrameId_ x;
     controls3d := controls3d x;
     canvasPlayerControls := canvasPlayerControls x;
     renderer := renderer x;
     camera := camera x;
     videoTexture := videoTexture x;
     renderedCanvas := renderedCanvas x |}.

Definition set_xrSupported (v : bool) (x : Xr) : Xr :=
  {| initialized_ := initialized_ x;
     xrSupported := v;
     xrActive := xrActive x;
     currentSession := currentSession x;
     xrReferenceSpace := xrReferenceSpace x;
     xrPose := xrPose x;
     animationFrameId_ := animationFrameId_ x;
     controls3d := controls3d x;
     canvasPlayerControls := canvasPlayerControls x;
     renderer := renderer x;
     camera := camera x;
     videoTexture := videoTexture x;
     renderedCanvas := renderedCanvas x |}.

Definition set_xrActive (v : bool) (x : Xr) : Xr :=
  {| initialized_ := initialized_ x;
     xrSupported := xrSupported x;
     xrActive := v;
     currentSession := currentSession x;
     xrReferenceSpace := xrReferenceSpace x;
     xrPose := xrPose x;
     animationFrameId_ := animationFrameId_ x;
     controls3d := controls3d x;
     canvasPlayerControls := canvasPlayerControls x;
     renderer := renderer x;
     camera := camera x;
     videoTexture := videoTexture x;
     renderedCanvas := renderedCanvas x |}.

Definition set_currentSession (v : option XRSession) (x : Xr) : Xr :=
  {| initialized_ := initialized_ x;
     xrSupported := xrSupported x;
     xrActive := xrActive x;
     currentSession := v;
     xrReferenceSpace := xrReferenceSpace x;
     xrPose := xrPose x;
     animationFrameId_ := animationFrameId_ x;
     controls3d := controls3d x;
     canvasPlayerControls := canvasPlayerControls x;
     renderer := renderer x;
     camera := camera x;
     videoTexture := videoTexture x;
     renderedCanvas := renderedCanvas x |}.

Definition set_xrReferenceSpace (v : option XRReferenceSpace) (x : Xr) : Xr :=
  {| initialized_ := initialized_ x;
     xrSupported := xrSupported x;
     xrActive := xrActive x;
     currentSession := currentSession x;
     xrReferenceSpace := v;
     xrPose := xrPose x;
     animationFrameId_ := animationFrameId_ x;
     controls3d := controls3d x;
     canvasPlayerControls := canvasPlayerControls x;
     renderer := renderer x;
     camera := camera x;
     videoTexture := videoTexture x;
     renderedCanvas := renderedCanvas x |}.

Definition set_xrPose (v : option XRPose) (x : Xr) : Xr :=
  {| initialized_ := initialized_ x;
     xrSupported := xrSupported x;
     xrActive := xrActive x;
     currentSession := currentSession x;
     xrReferenceSpace := xrReferenceSpace x;
     xrPose := v;
     animationFrameId_ := animationFrameId_ x;
     controls3d := controls3d x;
     canvasPlayerControls := canvasPlayerControls x;
     renderer := renderer x;
     camera := camera x;
     videoTexture := videoTexture x;
     renderedCanvas := renderedCanvas x |}.

Definition set_animationFrameId_ (v : option FrameHandle) (x : Xr) : Xr :=
  {| initialized_ := initialized_ x;
     xrSupported := xrSupported x;
     xrActive := xrActive x;
     currentSession := currentSession x;
     xrReferenceSpace := xrReferenceSpace x;
     xrPose := xrPose x;
     animationFrameId_ := v;
     controls3d := controls3d x;
     canvasPlayerControls := canvasPlayerControls x;
     renderer := renderer x;
     camera := camera x;
     videoTexture := videoTexture x;
     renderedCanvas := renderedCanvas x |}.

Definition set_controls3d (v : option OrbitOrientationControls) (x : Xr) : Xr :=
  {| initialized_ := initialized_ x;
     xrSupported := xrSupported x;
     xrActive := xrActive x;
     currentSession := currentSession x;
     xrReferenceSpace := xrReferenceSpace x;
     xrPose := xrPose x;
     animationFrameId_ := animationFrameId_ x;
     controls3d := v;
     canvasPlayerControls := canvasPlayerControls x;
     renderer := renderer x;
     camera := camera x;
     videoTexture := videoTexture x;
     renderedCanvas := renderedCanvas x |}.

Definition set_canvasPlayerControls (v : option CanvasPlayerControls) (x : Xr) : Xr :=
  {| initialized_ := initialized_ x;
     xrSupported := xrSupported x;
     xrActive := xrActive x;
     currentSession := currentSession x;
     xrReferenceSpace := xrReferenceSpace x;
     xrPose := xrPose x;
     animationFrameId_ := animationFrameId_ x;
     controls3d := controls3d x;
     canvasPlayerControls := v;
     renderer := renderer x;
     camera := camera x;
     videoTexture := videoTexture x;
     renderedCanvas := renderedCanvas x |}.

Definition set_renderer (v : option WebGLRenderer) (x : Xr) : Xr :=
  {| initialized_ := initialized_ x;
     xrSupported := xrSupported x;
     xrActive := xrActive x;
     currentSession := currentSession x;
     xrReferenceSpace := xrReferenceSpace x;
     xrPose := xrPose x;
     animationFrameId_ := animationFrameId_ x;
     controls3d := controls3d x;
     canvasPlayerControls := canvasPlayerControls x;
     renderer := v;
     camera := camera x;
     videoTexture := videoTexture x;
     renderedCanvas := renderedCanvas x |}.

Definition set_camera (v : option PerspectiveCamera) (x : Xr) : Xr :=
  {| initialized_ := initialized_ x;
     xrSupported := xrSupported x;
     xrActive := xrActive x;
     currentSession := currentSession x;
     xrReferenceSpace := xrReferenceSpace x;
     xrPose := xrPose x;
     animationFrameId_ := animationFrameId_ x;
     controls3d := controls3d x;
     canvasPlayerControls := canvasPlayerControls x;
     renderer := renderer x;
     camera := v;
     videoTexture := videoTexture x;
     renderedCanvas := renderedCanvas x |}.

Definition set_videoTexture (v : option VideoTexture) (x : Xr) : Xr :=
  {| initialized_ := initialized_ x;
     xrSupported := xrSupported x;
     xrActive := xrActive x;
     currentSession := currentSession x;
     xrReferenceSpace := xrReferenceSpace x;
     xrPose := xrPose x;
     animationFrameId_ := animationFrameId_ x;
     controls3d := controls3d x;
     canvasPlayerControls := canvasPlayerControls x;
     renderer := renderer x;
     camera := camera x;
     videoTexture := v;
     renderedCanvas := renderedCanvas x |}.

Definition set_renderedCanvas (v : option Canvas) (x : Xr) : Xr :=
  {| initialized_ := initialized_ x;
     xrSupported := xrSupported x;
     xrActive := xrActive x;
     currentSession := currentSession x;
     xrReferenceSpace := xrReferenceSpace x;
     xrPose := xrPose x;
     animationFrameId_ := animationFrameId_ x;
     controls3d := controls3d x;
     canvasPlayerControls := canvasPlayerControls x;
     renderer := renderer x;
     camera := camera x;
     videoTexture := videoTexture x;
     renderedCanvas := v |}.

Definition set_frames (v : list (Clock * FrameHandle)) (h : Host) : Host :=
  {| navigator_xr := navigator_xr h;
     frames := v;
     next_handle := next_handle h;
     promises := promises h;
     next_promise := next_promise h;
     window_listeners := window_listeners h;
     player_listeners := player_listeners h;
     session_end_listeners := session_end_listeners h;
     player_children := player_children h;
     controlBar_children := controlBar_children h |}.

Definition set_next_handle (v : FrameHandle) (h : Host) : Host :=
  {| navigator_xr := navigator_xr h;
     frames := frames h;
     next_handle := v;
     promises := promises h;
     next_promise := next_promise h;
     window_listeners := window_listeners h;
     player_listeners := player_listeners h;
     session_end_listeners := session_end_listeners h;
     player_children := player_children h;
     controlBar_children := controlBar_children h |}.

Definition set_promises (v : list (nat * Cont)) (h : Host) : Host :=
  {| navigator_xr := navigator_xr h;
     frames := frames h;
     next_handle := next_handle h;
     promises := v;
     next_promise := next_promise h;
     window_listeners := window_listeners h;
     player_listeners := player_listeners h;
     session_end_listeners := session_end_listeners h;
     player_children := player_children h;
     controlBar_children := controlBar_children h |}.

Definition set_next_promise (v : nat) (h : Host) : Host :=
  {| navigator_xr := navigator_xr h;
     frames := frames h;
     next_handle := next_handle h;
     promises := promises h;
     next_promise := v;
     window_listeners := window_listeners h;
     player_listeners := player_listeners h;
     session_end_listeners := session_end_listeners h;
     player_children := player_children h;
     controlBar_children := controlBar_children h |}.

Definition set_window_listeners (v : list (string * Handler)) (h : Host) : Host :=
  {| navigator_xr := navigator_xr h;
     frames := frames h;
     next_handle := next_handle h;
     promises := promises h;
     next_promise := next_promise h;
     window_listeners := v;
     player_listeners := player_listeners h;
     session_end_listeners := session_end_listeners h;
     player_children := player_children h;
     controlBar_children := controlBar_children h |}.

Definition set_player_listeners (v : list (string * Handler)) (h : Host) : Host :=
  {| navigator_xr := navigator_xr h;
     frames := frames h;
     next_handle := next_handle h;
     promises := promises h;
     next_promise := next_promise h;
     window_listeners := window_listeners h;
     player_listeners := v;
     session_end_listeners := session_end_listeners h;
     player_children := player_children h;
     controlBar_children := controlBar_children h |}.

Definition set_session_end_listeners (v : list XRSession) (h : Host) : Host :=
  {| navigator_xr := navigator_xr h;
     frames := frames h;
     next_handle := next_handle h;
     promises := promises h;
     next_promise := next_promise h;
     window_listeners := window_listeners h;
     player_listeners := player_listeners h;
     session_end_listeners := v;
     player_children := player_children h;
     controlBar_children := controlBar_children h |}.

Definition set_player_children (v : list string) (h : Host) : Host :=
  {| navigator_xr := navigator_xr h;
     frames := frames h;
     next_handle := next_handle h;
     promises := promises h;
     next_promise := next_promise h;
     window_listeners := window_listeners h;
     player_listeners := player_listeners h;
     session_end_listeners := session_end_listeners h;
     player_children := v;
     controlBar_children := controlBar_children h |}.

Definition set_controlBar_children (v : list string) (h : Host) : Host :=
  {| navigator_xr := navigator_xr h;
     frames := frames h;
     next_handle := next_handle h;
     promises := promises h;
     next_promise := next_promise h;
     window_listeners := window_listeners h;
     player_listeners := player_listeners h;
     session_end_listeners := session_end_listeners h;
     player_children := player_children h;
     controlBar_children := v |}.

(** ** The monad: state, and exceptions that keep the state reached *)

Inductive Res (A : Type) : Type :=
| Ok (a : A)
| Throw (e : Exn).

Arguments Ok {A} a.
Arguments Throw {A} e.

Definition M (A : Type) : Type := World -> World * Res A.

Definition ret {A : Type} (a : A) : M A := fun w => (w, Ok a).

Definition throw {A : Type} (e : Exn) : M A := fun w => (w, Throw e).

Definition bind {A B : Type} (m : M A) (k : A -> M B) : M B :=
  fun w =>
    match m w with
    | (w', Ok a) => k a w'
    | (w', Throw e) => (w', Throw e)
    end.

Declare Scope xr_scope.
Delimit Scope xr_scope with xr.
Notation "x <- m ;; k" := (bind m (fun x => k))
  (at level 61, m at next level, right associativity) : xr_scope.
Notation "m ;; k" := (bind m (fun _ => k))
  (at level 61, right associativity) : xr_scope.
Open Scope xr_scope.

(** Reading and writing [this], asking and telling the collaborators. *)
Definition this {A : Type} (f : Xr -> A) : M A := fun w => (w, Ok (f (xr w))).

Definition assign (f : Xr -> Xr) : M unit :=
  fun w => (mkWorld (f (xr w)) (host w) (trace w), Ok tt).

Definition ask {A : Type} (f : Host -> A) : M A := fun w => (w, Ok (f (host w))).

Definition tell (f : Host -> Host) : M unit :=
  fun w => (mkWorld (xr w) (f (host w)) (trace w), Ok tt).

Definition emit (a : Action) : M unit :=
  fun w => (mkWorld (xr w) (host w) (trace w ++ [a]), Ok tt).

(** ** The collaborators' operations *)

Definition clock_eqb (c d : Clock) : bool :=
  match c, d with
  | PlayerClock, PlayerClock => true
  | SessionClock s, SessionClock t => Nat.eqb s t
  | _, _ => false
  end.

Definition frame_eqb (a b : Clock * FrameHandle) : bool :=
  clock_eqb (fst a) (fst b) && Nat.eqb (snd a) (snd b).

Definition handler_eqb (a b : Handler) : bool :=
  match a, b with
  | H_init, H_init
  | H_handleResize_, H_handleResize_
  | H_handleVrDisplayActivate_, H_handleVrDisplayActivate_
  | H_handleVrDisplayDeactivate_, H_handleVrDisplayDeactivate_ => true
  | _, _ => false
  end.

Definition listener_eqb (a b : string * Handler) : bool :=
  String.eqb (fst a) (fst b) && handler_eqb (snd a) (snd b).

Definition raf_action (c : Clock) (h : FrameHandle) : Action :=
  match c with
  | PlayerClock => A_player_raf h
  | SessionClock s => A_session_raf s h
  end.

Definition caf_action (c : Clock) (h : FrameHandle) : Action :=
  match c with
  | PlayerClock => A_player_caf h
  | SessionClock s => A_session_caf s h
  end.

(** The scheduling primitive of clock [c]: the callback (always [animate_],
    the only function the plugin ever schedules) becomes pending under a
    fresh, non-zero handle. *)
Definition clock_requestAnimationFrame (c : Clock) : M FrameHandle :=
  h <- ask next_handle ;;
  fs <- ask frames ;;
  tell (set_frames (fs ++ [(c, h)])) ;;
  tell (set_next_handle (S h)) ;;
  emit (raf_action c h) ;;
  ret h.

Definition clock_cancelAnimationFrame (c : Clock) (h : FrameHandle) : M unit :=
  fs <- ask frames ;;
  tell (set_frames (filter (fun e => negb (frame_eqb (c, h) e)) fs)) ;;
  emit (caf_action c h).

(** A host call that returns a promise, with the chain [k] attached. *)
Definition promise (k : Cont) : M unit :=
  p <- ask next_promise ;;
  ps <- ask promises ;;
  tell (set_promises (ps ++ [(p, k)])) ;;
  tell (set_next_promise (S p)).

Definition getChild (n : string) (children : list string) : bool :=
  existsb (String.eqb n) children.

Definition player_addChild (n : string) : M unit :=
  cs <- ask player_children ;;
  tell (set_player_children (cs ++ [n])).

Definition player_removeChild (n : string) : M unit :=
  cs <- ask player_children ;;
  tell (set_player_children (filter (fun c => negb (String.eqb n c)) cs)).

(** [window.addEventListener(e, h, true)]: a listener already present is
    not added again. *)
Definition add_listener (l : string * Handler) (ls : list (string * Handler))
  : list (string * Handler) :=
  if existsb (listener_eqb l) ls then ls else ls ++ [l].

Definition window_addEventListener (e : string) (h : Handler) : M unit :=
  ls <- ask window_listeners ;;
  tell (set_window_listeners (add_listener (e, h) ls)) ;;
  emit (A_window_add e h).

Definition window_removeEventListener (e : string) (h : Handler) : M unit :=
  ls <- ask window_listeners ;;
  tell (set_window_listeners (filter (fun l => negb (listener_eqb (e, h) l)) ls)) ;;
  emit (A_window_remove e h).

(** [this.on(this.player, e, h)] *)
Definition player_on (e : string) (h : Handler) : M unit :=
  ls <- ask player_listeners ;;
  tell (set_player_listeners (ls ++ [(e, h)])) ;;
  emit (A_player_on e h).

(** ** Calls through fields of [this] that may be [null] *)

Definition controls3d_call (a : Action)
  (after : OrbitOrientationControls -> OrbitOrientationControls) : M unit :=
  c <- this controls3d ;;
  match c with
  | Some c => emit a ;; assign (set_controls3d (Some (after c)))
  | None => throw (TypeError "this.controls3d is null")
  end.

Definition controls3d_disable : M unit :=
  controls3d_call A_controls_disable (fun _ => mkControls false).

Definition controls3d_enable : M unit :=
  controls3d_call A_controls_enable (fun _ => mkControls true).

Definition controls3d_update : M unit :=
  controls3d_call A_controls_update (fun c => c).

Definition renderer_call (a : Action) (after : WebGLRenderer -> WebGLRenderer) : M unit :=
  r <- this renderer ;;
  match r with
  | Some r => emit a ;; assign (set_renderer (Some (after r)))
  | None => throw (TypeError "this.renderer is undefined")
  end.

Definition renderer_xr_setSession (s : option XRSession) : M unit :=
  renderer_call (A_renderer_setSession s) (fun r => mkRenderer (xr_enabled r) s).

Definition camera_call (what : string) : M unit :=
  c <- this camera ;;
  match c with
  | Some _ => emit (A_call what)
  | None => throw (TypeError "this.camera is undefined")
  end.

(** ** The methods of [Xr] *)

(** [requestAnimationFrame(fn)], lines 105-110; [fn] is [this.animate_] at
    every call site and is not a parameter here. *)
Definition requestAnimationFrame : M FrameHandle :=
  active <- this xrActive ;;
  if active then
    s <- this currentSession ;;
    match s with
    | Some s => clock_requestAnimationFrame (SessionClock s)
    | None => throw (TypeError "this.currentSession is null")
    end
  else clock_requestAnimationFrame PlayerClock.

(** [cancelAnimationFrame(id)], lines 112-117. *)
Definition cancelAnimationFrame (id : FrameHandle) : M unit :=
  active <- this xrActive ;;
  if active then
    s <- this currentSession ;;
    match s with
    | Some s => clock_cancelAnimationFrame (SessionClock s) id
    | None => throw (TypeError "this.currentSession is null")
    end
  else clock_cancelAnimationFrame PlayerClock id.

(** [if (this.animationFrameId_) this.cancelAnimationFrame(this.animationFrameId_)]:
    [undefined] and [0] are falsy. *)
Definition cancel_if_scheduled : M unit :=
  id <- this animationFrameId_ ;;
  match id with
  | Some (S n) => cancelAnimationFrame (S n)
  | _ => ret tt
  end.

(** [this.animationFrameId_ = this.requestAnimationFrame(this.animate_)] *)
Definition schedule_animate_ : M unit :=
  h <- requestAnimationFrame ;;
  assign (set_animationFrameId_ (Some h)).

(** The callback of [requestReferenceSpace('local').then], lines 74-79. *)
Definition on_referenceSpace (referenceSpace : XRReferenceSpace) : M unit :=
  assign (set_xrReferenceSpace (Some referenceSpace)) ;;
  assign (set_xrActive true) ;;
  emit (A_trigger "xrSessionActivated") ;;
  schedule_animate_.

(** The callback of [requestSession(...).then], lines 64-80. *)
Definition on_session (session : XRSession) : M unit :=
  ls <- ask session_end_listeners ;;
  tell (set_session_end_listeners (ls ++ [session])) ;;
  emit (A_session_on_end session) ;;
  renderer_xr_setSession (Some session) ;;
  assign (set_currentSession (Some session)) ;;
  emit (A_requestReferenceSpace session) ;;
  promise K_requestReferenceSpace.

(** [handleVrDisplayActivate_()], lines 54-81. *)
Definition handleVrDisplayActivate_ : M unit :=
  supported <- this xrSupported ;;
  if negb supported then ret tt
  else
    cancel_if_scheduled ;;
    controls3d_disable ;;
    nav <- ask navigator_xr ;;
    if nav then emit A_requestSession ;; promise K_requestSession
    else throw (TypeError "navigator.xr is undefined").

(** The [catch] callback of [end()], lines 91-95. *)
Definition on_end_catch (e : JsError) : M unit :=
  if String.eqb (name e) "InvalidStateError" then ret tt
  else emit (A_console_log_error e).

(** The [then] callback that follows it, lines 95-102. *)
Definition on_end_then : M unit :=
  assign (set_xrActive false) ;;
  assign (set_currentSession None) ;;
  renderer_xr_setSession None ;;
  controls3d_enable ;;
  emit (A_trigger "xrSessionDeactivated") ;;
  schedule_animate_.

(** [handleVrDisplayDeactivate_()], lines 83-103. *)
Definition handleVrDisplayDeactivate_ : M unit :=
  supported <- this xrSupported ;;
  if negb supported then ret tt
  else
    cancel_if_scheduled ;;
    s <- this currentSession ;;
    match s with
    | Some s => emit (A_session_end s) ;; promise K_end
    | None => throw (TypeError "this.currentSession is null")
    end.

(** [animate_(xrTimestamp, xrFrame)], lines 127-149.  [enough] is the
    host's answer to [readyState === HAVE_ENOUGH_DATA]. *)
Definition animate_ (enough : bool) (xrFrame : option XRFrame) : M unit :=
  initialized <- this initialized_ ;;
  if negb initialized then ret tt
  else
    (if enough then
       t <- this videoTexture ;;
       match t with
       | Some _ => assign (set_videoTexture (Some (mkVideoTexture true)))
       | None => ret tt
       end
     else ret tt) ;;
    camera_call "camera.getWorldDirection" ;;
    schedule_animate_ ;;
    active <- this xrActive ;;
    (if negb active then controls3d_update else ret tt) ;;
    active <- this xrActive ;;
    match active, xrFrame with
    | true, Some f =>
        space <- this xrReferenceSpace ;;
        assign (set_xrPose (Some (mkPose f space))) ;;
        emit (A_trigger "xrCameraUpdate")
    | _, _ => ret tt
    end ;;
    renderer_call (A_call "renderer.render") (fun r => r).

(** [handleResize_()], lines 151-158; the sizes themselves are not kept. *)
Definition handleResize_ : M unit :=
  renderer_call (A_call "renderer.setSize") (fun r => r) ;;
  camera_call "camera.updateProjectionMatrix".

(** [this.initialized_ = b]; the write is recorded in the trace so that
    its place among the calls can be read off. *)
Definition assign_initialized_ (b : bool) : M unit :=
  assign (set_initialized_ b) ;;
  emit (A_assign_initialized b).

(** [completeInitialization()], lines 263-266. *)
Definition completeInitialization : M unit :=
  assign_initialized_ true ;;
  emit (A_trigger "initialized").

(** [addCardboardButton_()], lines 268-272. *)
Definition addCardboardButton_ : M unit :=
  cs <- ask controlBar_children ;;
  if negb (getChild "CardboardButton" cs)
  then tell (set_controlBar_children (cs ++ ["CardboardButton"]))
  else ret tt.

(** The callback of [isSessionSupported('immersive-vr').then], lines 238-246. *)
Definition on_isSessionSupported (supported : bool) : M unit :=
  if supported then
    assign (set_xrSupported true) ;;
    addCardboardButton_ ;;
    emit (A_console_log "webxr session supported")
  else emit (A_console_log "web xr device not found, using orbit controls").

(** [reset()], lines 278-328, in the order of the source: the controls
    (283-291), the window listeners (293-296), the player's buttons
    (298-310), the video element and the canvas (312-321), the scheduled
    frame (323-325), the flag (327). *)
Definition reset_controls : M unit :=
  c <- this controls3d ;;
  match c with
  | Some _ => emit A_controls_dispose ;; assign (set_controls3d None)
  | None => ret tt
  end ;;
  cp <- this canvasPlayerControls ;;
  match cp with
  | Some _ => emit A_canvasPlayerControls_dispose ;; assign (set_canvasPlayerControls None)
  | None => ret tt
  end.

(** The window listeners left by lines 293-296. *)
Definition unsubscribed (ls : list (string * Handler)) : list (string * Handler) :=
  filter (fun l => negb (listener_eqb ("vrdisplaydeactivate", H_handleVrDisplayDeactivate_) l))
    (filter (fun l => negb (listener_eqb ("vrdisplayactivate", H_handleVrDisplayActivate_) l))
       (filter (fun l => negb (listener_eqb ("vrdisplaypresentchange", H_handleResize_) l))
          (filter (fun l => negb (listener_eqb ("resize", H_handleResize_) l)) ls))).

Definition reset_listeners : M unit :=
  window_removeEventListener "resize" H_handleResize_ ;;
  window_removeEventListener "vrdisplaypresentchange" H_handleResize_ ;;
  window_removeEventListener "vrdisplayactivate" H_handleVrDisplayActivate_ ;;
  window_removeEventListener "vrdisplaydeactivate" H_handleVrDisplayDeactivate_.

Definition reset_player : M unit :=
  cs <- ask player_children ;;
  (if negb (getChild "BigPlayButton" cs) then player_addChild "BigPlayButton" else ret tt) ;;
  cs <- ask player_children ;;
  (if getChild "BigVrPlayButton" cs then player_removeChild "BigVrPlayButton" else ret tt) ;;
  cs <- ask player_children ;;
  if getChild "CardboardButton" cs then
    bar <- ask controlBar_children ;;
    tell (set_controlBar_children
            (filter (fun c => negb (String.eqb "CardboardButton" c)) bar))
  else ret tt.

(** Lines 312-321.  [this.renderedCanvas] is never cleared, so a canvas
    that an earlier [reset] took out of the document is still there with a
    null [parentNode], and line 320 throws on it. *)
Definition reset_surface : M unit :=
  emit (A_call "videoElStyle.zIndex = ''; videoElStyle.opacity = ''") ;;
  cv <- this renderedCanvas ;;
  match cv with
  | Some c =>
      if has_parentNode c then
        emit (A_call "renderedCanvas.parentNode.removeChild") ;;
        assign (set_renderedCanvas (Some (mkCanvas false)))
      else throw (TypeError "this.renderedCanvas.parentNode is null")
  | None => ret tt
  end.

(** The plugin holds a canvas that is not in the document. *)
Definition canvas_detached (x : Xr) : bool :=
  match renderedCanvas x with
  | Some c => negb (has_parentNode c)
  | None => false
  end.

(** The plugin once line 320 has taken its canvas out of the document. *)
Definition detached (x : Xr) : Xr :=
  set_renderedCanvas
    (match renderedCanvas x with
     | Some _ => Some (mkCanvas false)
     | None => None
     end) x.

Definition reset : M unit :=
  initialized <- this initialized_ ;;
  if negb initialized then ret tt
  else
    reset_controls ;;
    reset_listeners ;;
    reset_player ;;
    reset_surface ;;
    cancel_if_scheduled ;;
    assign_initialized_ false.

(** [init()], lines 160-261, after its call of [reset]: the rendering
    pipeline (163-218), the controls (220-232), the capability probe
    (234-249), [completeInitialization] (251), the first frame (253), the
    subscriptions (255-259). *)
Definition init_pipeline : M unit :=
  assign (set_xrSupported false) ;;
  emit (A_call "new THREE.PerspectiveCamera") ;;
  assign (set_camera (Some mkPerspectiveCamera)) ;;
  emit (A_call "new THREE.Scene") ;;
  emit (A_call "new THREE.VideoTexture") ;;
  assign (set_videoTexture (Some (mkVideoTexture false))) ;;
  emit (A_call "scene.remove(movieScreen)") ;;
  emit (A_call "new THREE.Mesh") ;;
  emit (A_call "scene.add(movieScreen)") ;;
  player_removeChild "BigPlayButton" ;;
  player_addChild "BigVrPlayButton" ;;
  emit (A_call "new THREE.WebGLRenderer") ;;
  assign (set_renderer (Some (mkRenderer false None))) ;;
  emit (A_call "renderer.setSize") ;;
  assign (set_renderedCanvas (Some (mkCanvas false))) ;;
  emit (A_call "insertBefore(renderedCanvas)") ;;
  assign (set_renderedCanvas (Some (mkCanvas true))) ;;
  emit (A_call "videoElStyle.zIndex = '-1'; videoElStyle.opacity = '0'") ;;
  assign (set_xrActive false).

Definition init_controls : M unit :=
  c <- this controls3d ;;
  match c with
  | None =>
      emit (A_call "new OrbitOrientationControls") ;;
      assign (set_controls3d (Some (mkControls true))) ;;
      emit (A_call "new CanvasPlayerControls") ;;
      assign (set_canvasPlayerControls (Some mkCanvasPlayerControls))
  | Some _ => ret tt
  end.

(** [var self] is hoisted to the function: it is bound to [this] only
    inside the [if (window.navigator.xr)] branch and is [undefined] at line
    251 otherwise.  The result says whether it was bound. *)
Definition init_probe : M bool :=
  nav <- ask navigator_xr ;;
  if nav then
    renderer_call (A_call "renderer.xr.enabled = true")
      (fun r => mkRenderer true (xr_session r)) ;;
    emit A_isSessionSupported ;;
    promise K_isSessionSupported ;;
    ret true
  else
    emit (A_console_log "web xr not available") ;;
    ret false.

Definition init_subscriptions : M unit :=
  player_on "fullscreenchange" H_handleResize_ ;;
  window_addEventListener "vrdisplaypresentchange" H_handleResize_ ;;
  window_addEventListener "resize" H_handleResize_ ;;
  window_addEventListener "vrdisplayactivate" H_handleVrDisplayActivate_ ;;
  window_addEventListener "vrdisplaydeactivate" H_handleVrDisplayDeactivate_.

Definition init : M unit :=
  reset ;;
  init_pipeline ;;
  init_controls ;;
  self <- init_probe ;;
  (if self then completeInitialization
   else throw (TypeError "self is undefined")) ;;
  schedule_animate_ ;;
  init_subscriptions.

(** [dispose()], lines 330-333. *)
Definition dispose : M unit :=
  reset ;;
  emit (A_call "super.dispose").

(** The plugin right after its constructor (lines 31-52) on a page where
    [navigator.xr] is present or not ([nav], taken after the polyfill had
    its chance): no field set but [currentSession = null], one subscription,
    the player's 'loadedmetadata'. *)
Definition constructed (nav : bool) : World :=
  {| xr := {| initialized_ := false; xrSupported := false; xrActive := false;
              currentSession := None; xrReferenceSpace := None; xrPose := None;
              animationFrameId_ := None; controls3d := None;
              canvasPlayerControls := None; renderer := None; camera := None;
              videoTexture := None; renderedCanvas := None |};
     host := {| navigator_xr := nav; frames := []; next_handle := 1;
                promises := []; next_promise := 0;
                window_listeners := [];
                player_listeners := [("loadedmetadata", H_init)];
                session_end_listeners := [];
                player_children := ["BigPlayButton"];
                controlBar_children := [] |};
     trace := [] |}.

(** ** The event loop *)

(** What a promise settles to. *)
Inductive Value : Type :=
| V_bool (b : bool)
| V_session (s : XRSession)
| V_space (r : XRReferenceSpace)
| V_undefined.

Inductive Outcome : Type :=
| Fulfilled (v : Value)
| Rejected (e : JsError).

(** What the host can do to the plugin. *)
Inductive Input : Type :=
| I_player_event (e : string)       (* 'loadedmetadata', 'fullscreenchange' *)
| I_window_event (e : string)       (* dispatched on window *)
| I_session_end (s : XRSession)     (* the 'end' event of a session *)
| I_frame (c : Clock) (h : FrameHandle) (enough : bool) (xrFrame : option XRFrame)
| I_settle (p : nat) (o : Outcome)
| I_dispose.

Definition handler_body (h : Handler) : M unit :=
  match h with
  | H_init => init
  | H_handleResize_ => handleResize_
  | H_handleVrDisplayActivate_ => handleVrDisplayActivate_
  | H_handleVrDisplayDeactivate_ => handleVrDisplayDeactivate_
  end.

(** The host runs a callback of the plugin; what it throws reaches the host. *)
Definition call (m : M unit) (w : World) : World :=
  match m w with
  | (w', Ok _) => w'
  | (w', Throw e) => fst (emit (A_uncaught e) w')
  end.

Definition listeners_for (e : string) (ls : list (string * Handler)) : list Handler :=
  map snd (filter (fun l => String.eqb e (fst l)) ls).

Definition dispatch (hs : list Handler) (w : World) : World :=
  fold_left (fun w h => call (handler_body h) w) hs w.

Definition dispatch_window (e : string) (w : World) : World :=
  dispatch (listeners_for e (window_listeners (host w))) w.

(** The listener installed at lines 66-69. *)
Definition session_end_listener : M unit :=
  emit (A_console_log "session ended") ;;
  fun w => (dispatch_window "vrdisplaydeactivate" w, Ok tt).

(** The chain attached to a promise, run on its settlement; [None] where
    the value is not one the promise can settle to.  Only [end()] has a
    rejection handler. *)
Definition continuation (k : Cont) (o : Outcome) : option (M unit) :=
  match k, o with
  | K_isSessionSupported, Fulfilled (V_bool b) => Some (on_isSessionSupported b)
  | K_requestSession, Fulfilled (V_session s) => Some (on_session s)
  | K_requestReferenceSpace, Fulfilled (V_space r) => Some (on_referenceSpace r)
  | K_end, Fulfilled V_undefined => Some on_end_then
  | K_end, Rejected e => Some (on_end_catch e ;; on_end_then)
  | K_isSessionSupported, Rejected e
  | K_requestSession, Rejected e
  | K_requestReferenceSpace, Rejected e => Some (emit (A_unhandled_rejection e))
  | _, _ => None
  end.

Definition lookup_promise (p : nat) (ps : list (nat * Cont)) : option Cont :=
  option_map snd (find (fun e => Nat.eqb p (fst e)) ps).

(** A settled promise is no longer pending; a frame that fires is no
    longer scheduled. *)
Definition without_promise (p : nat) (w : World) : World :=
  mkWorld (xr w)
    (set_promises (filter (fun e => negb (Nat.eqb p (fst e))) (promises (host w)))
       (host w))
    (trace w).

Definition without_frame (c : Clock) (h : FrameHandle) (w : World) : World :=
  mkWorld (xr w)
    (set_frames (filter (fun e => negb (frame_eqb (c, h) e)) (frames (host w)))
       (host w))
    (trace w).

Definition settle (p : nat) (o : Outcome) (w : World) : World :=
  match lookup_promise p (promises (host w)) with
  | Some k =>
      match continuation k o with
      | Some m => call m (without_promise p w)
      | None => w
      end
  | None => w
  end.

Definition fire (c : Clock) (h : FrameHandle) (enough : bool)
  (xrFrame : option XRFrame) (w : World) : World :=
  if existsb (frame_eqb (c, h)) (frames (host w)) then
    call (animate_ enough xrFrame) (without_frame c h w)
  else w.

Definition step (i : Input) (w : World) : World :=
  match i with
  | I_player_event e => dispatch (listeners_for e (player_listeners (host w))) w
  | I_window_event e => dispatch_window e w
  | I_session_end s =>
      fold_left (fun w _ => call session_end_listener w)
        (filter (Nat.eqb s) (session_end_listeners (host w))) w
  | I_frame c h enough xrFrame => fire c h enough xrFrame w
  | I_settle p o => settle p o w
  | I_dispose => call dispose w
  end.

Definition run (inputs : list Input) (w : World) : World :=
  fold_left (fun w i => step i w) inputs w.

(** The states the plugin can be in: those the host can drive it to from
    a fresh instance. *)
Inductive reachable : World -> Prop :=
| reachable_constructed (nav : bool) : reachable (constructed nav)
| reachable_step (i : Input) (w : World) : reachable w -> reachable (step i w).


(** ** Operations run to completion

    An operation together with the settlement of the promises it creates,
    before anything else happens.  The promise an operation creates first
    carries the number [next_promise] had when the operation began. *)
Inductive Op : Type :=
| Op_init (probe : Outcome)
| Op_reset
| Op_activate (session space : Outcome)
| Op_deactivate (ended : Outcome).

Definition complete (o : Op) (w : World) : World :=
  let p := next_promise (host w) in
  match o with
  | Op_init probe => settle p probe (call init w)
  | Op_reset => call reset w
  | Op_activate session space =>
      settle (S p) space (settle p session (call handleVrDisplayActivate_ w))
  | Op_deactivate ended => settle p ended (call handleVrDisplayDeactivate_ w)
  end.

Inductive completed : World -> Prop :=
| completed_constructed (nav : bool) : completed (constructed nav)
| completed_op (o : Op) (w : World) : completed w -> completed (complete o w).

(** ** Sample runs *)

(** After 'loadedmetadata' on a page with [navigator.xr], the capability
    probe having answered yes. *)
Definition supported_world : World :=
  Eval vm_compute in
    run [I_player_event "loadedmetadata"; I_settle 0 (Fulfilled (V_bool true))]
      (constructed true).

(** The same, the probe having answered no. *)
Definition desktop_world : World :=
  Eval vm_compute in
    run [I_player_event "loadedmetadata"; I_settle 0 (Fulfilled (V_bool false))]
      (constructed true).

(** An immersive session (number 7) running on top of it. *)
Definition active_world : World :=
  Eval vm_compute in
    run [I_window_event "vrdisplayactivate";
         I_settle 1 (Fulfilled (V_session 7));
         I_settle 2 (Fulfilled (V_space 3))]
      supported_world.

(** What the session state machine and the promise table come to: the
    flag, the handle, the unsettled promises and the next promise number. *)
Definition session_state (w : World)
  : bool * option XRSession * list (nat * Cont) * nat :=
  (xrActive (xr w), currentSession (xr w), promises (host w), next_promise (host w)).

(** Promise numbers are handed out in increasing order. *)
Definition fresh_promises (w : World) : Prop :=
  forall q k, In (q, k) (promises (host w)) -> q < next_promise (host w).

(** What the completed operations maintain. *)
Definition completed_inv (w : World) : Prop :=
  (xrActive (xr w) = true -> currentSession (xr w) <> None) /\ fresh_promises w.

(** ** The wiring of an initialised plugin *)

(** What [init] subscribes to on [window], lines 256-259. *)
Definition window_subscriptions : list (string * Handler) :=
  [("vrdisplaypresentchange", H_handleResize_);
   ("resize", H_handleResize_);
   ("vrdisplayactivate", H_handleVrDisplayActivate_);
   ("vrdisplaydeactivate", H_handleVrDisplayDeactivate_)].

Definition is_set {A : Type} (o : option A) : bool :=
  match o with
  | Some _ => true
  | None => false
  end.

(** The window listeners, and whether the controls and the renderer exist. *)
Definition wiring (w : World) : list (string * Handler) * bool * bool :=
  (window_listeners (host w), is_set (controls3d (xr w)), is_set (renderer (xr w))).

(** The unsettled promises and the next promise number. *)
Definition promise_table (w : World) : list (nat * Cont) * nat :=
  (promises (host w), next_promise (host w)).

(** While the deactivate handler is subscribed, the plugin has its
    controls and its renderer; the window listeners are among those of
    [init], each once; promise numbers are fresh. *)
Definition wired_inv (w : World) : Prop :=
  fresh_promises w
  /\ incl (window_listeners (host w)) window_subscriptions
  /\ NoDup (window_listeners (host w))
  /\ (In ("vrdisplaydeactivate", H_handleVrDisplayDeactivate_)
         (window_listeners (host w)) ->
      controls3d (xr w) <> None /\ renderer (xr w) <> None).

(** * The rest of the plugin *)

From Stdlib Require Import ZArith.

(** ** The constructor's play-button index, line 36

    [player.children().indexOf(player.getChild('BigPlayButton')) || 0]:
    [getChild] of a name the player does not have is [undefined], whose
    [indexOf] is -1; [x || 0] is 0 when [x] is 0 and [x] otherwise.  The
    children are the list of their names, as in [player_children]. *)
Fixpoint indexOf_from (n : string) (cs : list string) (i : Z) : Z :=
  match cs with
  | [] => (-1)%Z
  | c :: cs => if String.eqb n c then i else indexOf_from n cs (i + 1)%Z
  end.

Definition indexOf (n : string) (cs : list string) : Z := indexOf_from n cs 0%Z.

Definition or_zero (x : Z) : Z := if Z.eqb x 0 then 0%Z else x.

Definition bigPlayButtonIndex_ (cs : list string) : Z :=
  or_zero (indexOf "BigPlayButton" cs).

(** ** What [reset] leaves of the player's buttons, lines 298-310 *)

Definition restored_children (cs : list string) : list string :=
  let cs1 := if negb (getChild "BigPlayButton" cs) then cs ++ ["BigPlayButton"] else cs in
  if getChild "BigVrPlayButton" cs1
  then filter (fun c => negb (String.eqb "BigVrPlayButton" c)) cs1
  else cs1.

Definition swept_controlBar (cs bar : list string) : list string :=
  if getChild "CardboardButton" (restored_children cs)
  then filter (fun c => negb (String.eqb "CardboardButton" c)) bar
  else bar.

(** What [init] makes of them, lines 196-197. *)
Definition swapped_children (cs : list string) : list string :=
  filter (fun c => negb (String.eqb "BigPlayButton" c)) cs ++ ["BigVrPlayButton"].

(** ** A promise of [end()] settles: fulfilled, or rejected with an error *)
Definition end_outcome (err : option JsError) : Outcome :=
  match err with
  | None => Fulfilled V_undefined
  | Some e => Rejected e
  end.

(** The clock [requestAnimationFrame] goes to when it does not throw. *)
Definition active_clock (x : Xr) : Clock :=
  match xrActive x, currentSession x with
  | true, Some s => SessionClock s
  | _, _ => PlayerClock
  end.

(** ** The plugin after [n] 'loadedmetadata' events and nothing else *)
Definition media_loaded (n : nat) : World :=
  run (repeat (I_player_event "loadedmetadata") n) (constructed true).

(** ** The capability probe settles: rejected, or fulfilled with a boolean *)
Definition probe_outcome (r : JsError + bool) : Outcome :=
  match r with inl e => Rejected e | inr b => Fulfilled (V_bool b) end.

Definition probe_says_yes (r : JsError + bool) : bool :=
  match r with inr true => true | _ => false end.

(** ** What the subscriptions rely on *)

(** [init] past its [reset], lines 163-259. *)
Definition init_body : M unit :=
  init_pipeline ;; init_controls ;; self <- init_probe ;;
  (if self then completeInitialization
   else throw (TypeError "self is undefined")) ;;
  schedule_animate_ ;; init_subscriptions.

(** The parts of the state that only [init], [reset] and the probe's
    callback write: the flag, the subscriptions, whether the renderer and
    the camera exist, the buttons. *)
Definition fixtures (w : World)
  : bool * list (string * Handler) * list (string * Handler) * bool * bool
    * list string * list string :=
  (initialized_ (xr w), window_listeners (host w), player_listeners (host w),
   is_set (renderer (xr w)), is_set (camera (xr w)),
   player_children (host w), controlBar_children (host w)).

(** The subscriptions the plugin makes on the player, lines 46 and 255. *)
Definition player_subscriptions : list (string * Handler) :=
  [("loadedmetadata", H_init); ("fullscreenchange", H_handleResize_)].

(** [h] is subscribed to some event of the window or of the player. *)
Definition subscribed (h : Handler) (w : World) : Prop :=
  exists e, In (e, h) (window_listeners (host w) ++ player_listeners (host w)).

(** A plugin that is not initialised has no window subscription; the
    player's subscriptions are those of the constructor and of [init];
    while [handleResize_] is subscribed the renderer and the camera exist. *)
Definition fitted_inv (w : World) : Prop :=
  (initialized_ (xr w) = false -> window_listeners (host w) = [])
  /\ incl (player_listeners (host w)) player_subscriptions
  /\ (subscribed H_handleResize_ w ->
      renderer (xr w) <> None /\ camera (xr w) <> None).

(** ** The cardboard button *)

(** From [w] to [w'] the control bar is as it was, and the player itself
    still has no child named 'CardboardButton'. *)
Definition keeps_bar (w w' : World) : Prop :=
  getChild "CardboardButton" (player_children (host w')) = false
  /\ controlBar_children (host w') = controlBar_children (host w).

(** From [w] to [w'] the control bar is as it was, or has gained its one
    cardboard button. *)
Definition bar_grows (w w' : World) : Prop :=
  controlBar_children (host w') = controlBar_children (host w)
  \/ (getChild "CardboardButton" (controlBar_children (host w)) = false
      /\ controlBar_children (host w') =
           controlBar_children (host w) ++ ["CardboardButton"]).

(** ** A session that ended while its reference space was still awaited

    An activation whose session arrived (promise 1), a deactivation that
    ended that session (promise 3) before the reference space came, and the
    reference space arriving after that (promise 2): the callback of lines
    74-79 sets [xrActive] on a plugin that holds no session. *)
Definition orphaned_world : World :=
  Eval vm_compute in
    run [I_window_event "vrdisplayactivate";
         I_settle 1 (Fulfilled (V_session 7));
         I_window_event "vrdisplaydeactivate";
         I_settle 3 (Fulfilled V_undefined);
         I_settle 2 (Fulfilled (V_space 3))]
      supported_world.

(** ** A session running on a plugin whose [reset] has thrown

    Two activations are requested.  The first goes as in [orphaned_world];
    [dispose] then throws in its [reset] at line 324, the canvas already
    taken out of the document; after that the second session (number 8)
    and its reference space arrive. *)
Definition stranded_world : World :=
  Eval vm_compute in
    run [I_window_event "vrdisplayactivate";
         I_window_event "vrdisplayactivate";
         I_settle 1 (Fulfilled (V_session 7));
         I_window_event "vrdisplaydeactivate";
         I_settle 4 (Fulfilled V_undefined);
         I_settle 3 (Fulfilled (V_space 3));
         I_dispose;
         I_settle 2 (Fulfilled (V_session 8));
         I_settle 5 (Fulfilled (V_space 4))]
      supported_world.

(** * Properties *)

(** ** Proof tools *)

(** Unfold the monad down to functions on worlds. *)
Ltac unmonad :=
  unfold bind, ret, throw, this, assign, ask, tell, emit in *; simpl in *.

(** Open a world into its fields, so that projections compute. *)
Ltac open_world w :=
  destruct w as [[?init_ ?supported ?active ?session ?space ?pose ?frameId
                   ?controls ?canvasControls ?rend ?cam ?texture ?canvas]
                 [?nav ?pending ?nextHandle ?proms ?nextPromise ?winL ?playL
                   ?endL ?children ?barChildren]
                 ?tr];
  simpl in *.

Lemma app_singleton_assoc {A : Type} (l : list A) (a : A) (m : list A) :
  (l ++ [a]) ++ m = l ++ a :: m.
Proof. rewrite <- app_assoc. reflexivity. Qed.

Lemma filter_none_matching {A : Type} (p : A -> bool) (l : list A) :
  existsb p l = false -> filter (fun e => negb (p e)) l = l.
Proof.
  induction l as [|a l IH]; simpl; [reflexivity|].
  intros E. apply orb_false_elim in E as [Ea El].
  rewrite Ea. simpl. now rewrite IH.
Qed.

(** ** Frame scheduler *)


(** ** Render step *)

(** C2.  When [initialized_] is false, [animate_] returns at once: the
    whole state, collaborators and trace included, is what it was, so no
    frame has been scheduled.  In the event loop, a frame that fires in such
    a state only leaves the pending set: nothing replaces it. *)
Theorem C2_animate_uninitialized_is_noop
  (w : World) (enough : bool) (xrFrame : option XRFrame)
  (H : initialized_ (xr w) = false) :
  animate_ enough xrFrame w = (w, Ok tt)
  /\ forall (c : Clock) (h : FrameHandle),
       let w' := step (I_frame c h enough xrFrame) w in
       xr w' = xr w
       /\ trace w' = trace w
       /\ frames (host w') =
            filter (fun e => negb (frame_eqb (c, h) e)) (frames (host w))
       /\ next_handle (host w') = next_handle (host w).
Proof.
  assert (A : forall v, initialized_ (xr v) = false ->
                        animate_ enough xrFrame v = (v, Ok tt)).
  { intros v Hv. unfold animate_, bind, this. rewrite Hv. reflexivity. }
  split; [apply A, H|].
  intros c h. simpl. unfold fire.
  destruct (existsb (frame_eqb (c, h)) (frames (host w))) eqn:E.
  - unfold call. rewrite A by exact H. simpl. auto.
  - rewrite filter_none_matching by exact E. auto.
Qed.

Lemma C2_witness :
  let torn_down := fst (reset supported_world) in
  animate_ true (Some 0) torn_down = (torn_down, Ok tt)
  /\ forall (c : Clock) (h : FrameHandle),
       let w' := step (I_frame c h true (Some 0)) torn_down in
       xr w' = xr torn_down
       /\ trace w' = trace torn_down
       /\ frames (host w') =
            filter (fun e => negb (frame_eqb (c, h) e)) (frames (host torn_down))
       /\ next_handle (host w') = next_handle (host torn_down).
Proof.
  apply (C2_animate_uninitialized_is_noop (fst (reset supported_world)) true (Some 0)).
  reflexivity.
Defined.

(** ** Session state machine: the capability guard *)

(** C10.  With [xrSupported] false, the activate handler and the
    deactivate handler both return at once and leave the whole state as it
    was: plugin fields, pending frames, promises, listeners and trace. *)
Theorem C10_handlers_guarded_by_xrSupported (w : World)
  (H : xrSupported (xr w) = false) :
  handleVrDisplayActivate_ w = (w, Ok tt)
  /\ handleVrDisplayDeactivate_ w = (w, Ok tt).
Proof.
  unfold handleVrDisplayActivate_, handleVrDisplayDeactivate_, bind, this.
  rewrite H. split; reflexivity.
Qed.

Lemma C10_witness :
  handleVrDisplayActivate_ desktop_world = (desktop_world, Ok tt)
  /\ handleVrDisplayDeactivate_ desktop_world = (desktop_world, Ok tt).
Proof.
  apply (C10_handlers_guarded_by_xrSupported desktop_world). reflexivity.
Defined.

(** ** Settling a promise *)

Lemma settle_pending (p : nat) (o : Outcome) (w : World) (k : Cont) (m : M unit) :
  lookup_promise p (promises (host w)) = Some k ->
  continuation k o = Some m ->
  settle p o w = call m (without_promise p w).
Proof. intros Hk Hm. unfold settle. rewrite Hk, Hm. reflexivity. Qed.

Lemma lookup_promise_app_fresh (p : nat) (k : Cont) (ps : list (nat * Cont)) :
  lookup_promise p ps = None -> lookup_promise p (ps ++ [(p, k)]) = Some k.
Proof.
  unfold lookup_promise. induction ps as [|[q c] ps IH]; simpl.
  - now rewrite Nat.eqb_refl.
  - destruct (Nat.eqb p q); [discriminate|exact IH].
Qed.

Lemma filter_fresh_promise (p : nat) (ps : list (nat * Cont)) :
  lookup_promise p ps = None ->
  filter (fun e => negb (Nat.eqb p (fst e))) ps = ps.
Proof.
  unfold lookup_promise. induction ps as [|[q c] ps IH]; simpl; [reflexivity|].
  destruct (Nat.eqb p q); simpl; [discriminate|].
  intros H. now rewrite IH.
Qed.

Lemma filter_app_fresh_promise (p : nat) (k : Cont) (ps : list (nat * Cont)) :
  lookup_promise p ps = None ->
  filter (fun e => negb (Nat.eqb p (fst e))) (ps ++ [(p, k)]) = ps.
Proof.
  intros H. rewrite filter_app, filter_fresh_promise by exact H.
  simpl. rewrite Nat.eqb_refl. simpl. apply app_nil_r.
Qed.

(** ** Listener lists *)

Lemma handler_eqb_eq (a b : Handler) : handler_eqb a b = true <-> a = b.
Proof. destruct a, b; simpl; split; intros H; try reflexivity; discriminate H. Qed.

Lemma listener_eqb_eq (a b : string * Handler) : listener_eqb a b = true <-> a = b.
Proof.
  destruct a as [e h], b as [e' h']. unfold listener_eqb. simpl.
  rewrite andb_true_iff, String.eqb_eq, handler_eqb_eq.
  split; [intros [-> ->]; reflexivity|intros H; injection H as -> ->; auto].
Qed.

Lemma add_listener_incl (l : string * Handler) (ls sup : list (string * Handler)) :
  In l sup -> incl ls sup -> incl (add_listener l ls) sup.
Proof.
  intros Hl H. unfold add_listener.
  destruct (existsb (listener_eqb l) ls); [exact H|].
  apply incl_app; [exact H|]. intros x [<-|[]]. exact Hl.
Qed.

Lemma add_listener_NoDup (l : string * Handler) (ls : list (string * Handler)) :
  NoDup ls -> NoDup (add_listener l ls).
Proof.
  intros H. unfold add_listener.
  destruct (existsb (listener_eqb l) ls) eqn:E; [exact H|].
  apply NoDup_app; [exact H|repeat constructor; intros []|].
  intros x Hx [<-|[]].
  assert (T : existsb (listener_eqb l) ls = true).
  { apply existsb_exists. exists l. split; [exact Hx|]. now apply listener_eqb_eq. }
  rewrite T in E. discriminate E.
Qed.

Lemma filter_incl_trans {A : Type} (p : A -> bool) (ls sup : list A) :
  incl ls sup -> incl (filter p ls) sup.
Proof. intros H x Hx. apply filter_In in Hx as [Hx _]. exact (H x Hx). Qed.

Lemma listeners_for_absent (ls : list (string * Handler)) :
  incl ls window_subscriptions ->
  ~ In ("vrdisplaydeactivate", H_handleVrDisplayDeactivate_) ls ->
  listeners_for "vrdisplaydeactivate" ls = [].
Proof.
  induction ls as [|x ls IH]; intros I N; [reflexivity|].
  assert (Hx : In x window_subscriptions) by (apply I; now left).
  assert (Hls : listeners_for "vrdisplaydeactivate" ls = [])
    by (apply IH; [intros y Hy; apply I; now right|intros Hin; apply N; now right]).
  unfold listeners_for in *. simpl.
  destruct Hx as [<-|[<-|[<-|[<-|[]]]]]; simpl; try exact Hls.
  exfalso. apply N. now left.
Qed.

Lemma listeners_for_deactivate (ls : list (string * Handler)) :
  incl ls window_subscriptions -> NoDup ls ->
  In ("vrdisplaydeactivate", H_handleVrDisplayDeactivate_) ls ->
  listeners_for "vrdisplaydeactivate" ls = [H_handleVrDisplayDeactivate_].
Proof.
  induction ls as [|x ls IH]; intros I N Hin; [destruct Hin|].
  assert (Hx : In x window_subscriptions) by (apply I; now left).
  assert (Il : incl ls window_subscriptions) by (intros y Hy; apply I; now right).
  inversion N as [|? ? Nx Nl]; subst.
  destruct Hin as [->|Hin].
  - unfold listeners_for. simpl. f_equal.
    now apply listeners_for_absent.
  - assert (Hls := IH Il Nl Hin).
    unfold listeners_for in *. simpl.
    destruct Hx as [<-|[<-|[<-|[<-|[]]]]]; simpl; try exact Hls.
    contradiction.
Qed.

(** Unfold the methods down to the monad's primitives. *)
Ltac xr_unfold :=
  unfold handleVrDisplayActivate_, handleVrDisplayDeactivate_,
    on_session, on_referenceSpace, on_end_catch, on_end_then,
    on_isSessionSupported, addCardboardButton_,
    completeInitialization, assign_initialized_,
    schedule_animate_, cancel_if_scheduled,
    requestAnimationFrame, cancelAnimationFrame,
    clock_requestAnimationFrame, clock_cancelAnimationFrame, promise,
    controls3d_disable, controls3d_enable, controls3d_update, controls3d_call,
    renderer_xr_setSession, renderer_call, camera_call,
    player_addChild, player_removeChild, player_on,
    window_addEventListener, window_removeEventListener in *.

(** Comparisons and list traversals stay folded while a method is run
    symbolically. *)
#[local] Arguments filter : simpl never.
#[local] Arguments existsb : simpl never.
#[local] Arguments getChild : simpl never.
#[local] Arguments String.eqb : simpl never.
#[local] Arguments listener_eqb : simpl never.
#[local] Arguments frame_eqb : simpl never.

(** Open a world without simplifying, and run a long block by full
    evaluation, the list functions kept folded. *)
Ltac open_world0 w :=
  destruct w as [[?init_ ?supported ?active ?session ?space ?pose ?frameId
                   ?controls ?canvasControls ?rend ?cam ?texture ?canvas]
                 [?nav ?pending ?nextHandle ?proms ?nextPromise ?winL ?playL
                   ?endL ?children ?barChildren]
                 ?tr].

Ltac run_cbv :=
  cbv -[app filter existsb getChild add_listener String.eqb listener_eqb
       frame_eqb Nat.eqb In].

(** Run a method on an opened world, splitting on the fields and on the
    player's children it branches on. *)
Ltac split_cases :=
  repeat (simpl;
          match goal with
          | |- context [match ?x with _ => _ end] => is_var x; destruct x
          | |- context [getChild ?a ?b] => destruct (getChild a b) eqn:?
          end).

(** ** Session state machine: deactivation *)

(** When the session exists, the deactivate handler calls [end()] on it
    and leaves the chain of lines 91-102 pending on the returned promise. *)
Lemma handleVrDisplayDeactivate_calls_end (w : World) (s : XRSession) :
  xrSupported (xr w) = true ->
  currentSession (xr w) = Some s ->
  let w1 := fst (handleVrDisplayDeactivate_ w) in
  snd (handleVrDisplayDeactivate_ w) = Ok tt
  /\ promises (host w1) = promises (host w) ++ [(next_promise (host w), K_end)]
  /\ xr w1 = xr w
  /\ exists cancelled, trace w1 = trace w ++ cancelled ++ [A_session_end s].
Proof.
  intros Hs Hc. open_world w. subst. xr_unfold. unmonad.
  destruct frameId as [[|n]|]; [| destruct active |]; simpl;
    repeat split; try reflexivity.
  - exists []. reflexivity.
  - exists [A_session_caf s (S n)]. now rewrite app_singleton_assoc.
  - exists [A_player_caf (S n)]. now rewrite app_singleton_assoc.
  - exists []. reflexivity.
Qed.

(** The chain of lines 91-102 on a rejection named 'InvalidStateError',
    in any state where the controls and the renderer exist: the [catch]
    callback returns without logging and the [then] callback runs to its
    end. *)
Lemma end_rejection_already_ended
  (w : World) (p : nat) (e : JsError)
  (c : OrbitOrientationControls) (r : WebGLRenderer)
  (Hpending : lookup_promise p (promises (host w)) = Some K_end)
  (Hname : name e = "InvalidStateError")
  (Hcontrols : controls3d (xr w) = Some c)
  (Hrenderer : renderer (xr w) = Some r) :
  let w' := settle p (Rejected e) w in
  let h := next_handle (host w) in
  xrActive (xr w') = false
  /\ currentSession (xr w') = None
  /\ renderer (xr w') = Some (mkRenderer (xr_enabled r) None)
  /\ controls3d (xr w') = Some (mkControls true)
  /\ animationFrameId_ (xr w') = Some h
  /\ frames (host w') = frames (host w) ++ [(PlayerClock, h)]
  /\ trace w' = trace w ++ [A_renderer_setSession None; A_controls_enable;
                            A_trigger "xrSessionDeactivated"; A_player_raf h].
Proof.
  cbv zeta.
  rewrite (settle_pending p (Rejected e) w K_end (on_end_catch e ;; on_end_then))
    by (assumption || reflexivity).
  unfold without_promise, call. open_world w. subst.
  xr_unfold. unmonad. rewrite Hname. simpl.
  rewrite <- !app_assoc. simpl. repeat split; reflexivity.
Qed.


(** ** Session state machine: a rejected session request *)

(** C4, as stated, fails.  From the initialised, capable, inactive plugin,
    an activation whose [requestSession] promise rejects leaves the desktop
    controls disabled and writes nothing to the console. *)
Lemma C4_counterexample :
  let w1 := step (I_window_event "vrdisplayactivate") supported_world in
  let e := mkJsError "NotSupportedError" in
  let w2 := step (I_settle 1 (Rejected e)) w1 in
  let said := skipn (List.length (trace w1)) (trace w2) in
  lookup_promise 1 (promises (host w1)) = Some K_requestSession
  /\ said = [A_unhandled_rejection e]
  /\ controls3d (xr w2) = Some (mkControls false)
  /\ ~ (xrActive (xr w2) = false
        /\ currentSession (xr w2) = None
        /\ ((exists msg, In (A_console_log msg) said) \/ In (A_console_log_error e) said)
        /\ controls3d (xr w2) = Some (mkControls true)).
Proof.
  cbv zeta. repeat split; try reflexivity.
  intros (_ & _ & _ & Hc). vm_compute in Hc. discriminate Hc.
Qed.

(** C4, amended.  An activation from the inactive state whose
    [requestSession] promise rejects: the handler returns normally, having
    cancelled the scheduled frame, disabled the controls and made one
    request; no chain of the plugin handles the rejection, so the settlement
    changes no field of the plugin, schedules nothing and makes no call (the
    host is left with an unhandled rejection).  Hence [xrActive] stays false
    and [currentSession] null, nothing is thrown, nothing is logged, no
    second request is made, and the controls stay disabled. *)
Theorem C4_rejected_session_request_is_not_handled
  (w : World) (c : OrbitOrientationControls) (e : JsError)
  (Hsupported : xrSupported (xr w) = true)
  (Hinactive : xrActive (xr w) = false)
  (Hnull : currentSession (xr w) = None)
  (Hcontrols : controls3d (xr w) = Some c)
  (Hnav : navigator_xr (host w) = true)
  (Hfresh : lookup_promise (next_promise (host w)) (promises (host w)) = None) :
  let p := next_promise (host w) in
  let w1 := fst (handleVrDisplayActivate_ w) in
  let w2 := settle p (Rejected e) w1 in
  let cancelled :=
    match animationFrameId_ (xr w) with
    | Some (S n) => [A_player_caf (S n)]
    | _ => []
    end in
  snd (handleVrDisplayActivate_ w) = Ok tt
  /\ lookup_promise p (promises (host w1)) = Some K_requestSession
  /\ xr w2 = xr w1
  /\ xrActive (xr w2) = false
  /\ currentSession (xr w2) = None
  /\ controls3d (xr w2) = Some (mkControls false)
  /\ frames (host w2) = frames (host w1)
  /\ promises (host w2) = promises (host w)
  /\ trace w2 = trace w ++ cancelled ++
                [A_controls_disable; A_requestSession; A_unhandled_rejection e].
Proof.
  cbv zeta.
  assert (H1 : handleVrDisplayActivate_ w =
               (mkWorld
                  (set_controls3d (Some (mkControls false)) (xr w))
                  (set_next_promise (S (next_promise (host w)))
                     (set_promises
                        (promises (host w) ++ [(next_promise (host w), K_requestSession)])
                        (match animationFrameId_ (xr w) with
                         | Some (S n) =>
                             set_frames
                               (filter (fun e => negb (frame_eqb (PlayerClock, S n) e))
                                       (frames (host w))) (host w)
                         | _ => host w
                         end)))
                  (trace w ++
                   match animationFrameId_ (xr w) with
                   | Some (S n) => [A_player_caf (S n)]
                   | _ => []
                   end ++ [A_controls_disable; A_requestSession]),
                Ok tt)).
  { open_world w. subst. xr_unfold. unmonad.
    destruct frameId as [[|n]|]; simpl; rewrite <- ?app_assoc; reflexivity. }
  rewrite H1. simpl.
  assert (Hp : lookup_promise (next_promise (host w))
                 (promises (host w) ++ [(next_promise (host w), K_requestSession)])
               = Some K_requestSession)
    by (apply lookup_promise_app_fresh, Hfresh).
  erewrite settle_pending with (k := K_requestSession);
    [ | destruct (animationFrameId_ (xr w)) as [[|n]|]; simpl; exact Hp
      | reflexivity ].
  unfold without_promise, call. unmonad.
  assert (Hf : filter (fun e0 => negb (Nat.eqb (next_promise (host w)) (fst e0)))
                 (promises (host w) ++ [(next_promise (host w), K_requestSession)])
               = promises (host w))
    by (apply filter_app_fresh_promise, Hfresh).
  open_world w. subst.
  destruct frameId as [[|n]|]; simpl in *; rewrite Hf, ?Hp;
    rewrite <- ?app_assoc; simpl; repeat split; reflexivity.
Qed.

Lemma C4_witness :
  let w := supported_world in
  let e := mkJsError "NotSupportedError" in
  let w1 := fst (handleVrDisplayActivate_ w) in
  let w2 := settle 1 (Rejected e) w1 in
  snd (handleVrDisplayActivate_ w) = Ok tt
  /\ lookup_promise 1 (promises (host w1)) = Some K_requestSession
  /\ xr w2 = xr w1
  /\ xrActive (xr w2) = false
  /\ currentSession (xr w2) = None
  /\ controls3d (xr w2) = Some (mkControls false)
  /\ frames (host w2) = frames (host w1)
  /\ promises (host w2) = promises (host w)
  /\ trace w2 = trace w ++ [A_player_caf 1] ++
                [A_controls_disable; A_requestSession; A_unhandled_rejection e].
Proof.
  apply (C4_rejected_session_request_is_not_handled supported_world
           (mkControls true) (mkJsError "NotSupportedError"));
    reflexivity.
Defined.


(** ** Running a method block by block *)

Lemma bind_ok {A B : Type} (m : M A) (k : A -> M B) (w w' : World) (a : A) :
  m w = (w', Ok a) -> bind m k w = k a w'.
Proof. intros H. unfold bind. rewrite H. reflexivity. Qed.


(** ** Lifecycle controller: what [reset] does *)

Lemma reset_controls_eq (w : World) :
  reset_controls w =
    (mkWorld (set_canvasPlayerControls None (set_controls3d None (xr w))) (host w)
       (trace w
        ++ match controls3d (xr w) with Some _ => [A_controls_dispose] | None => [] end
        ++ match canvasPlayerControls (xr w) with
           | Some _ => [A_canvasPlayerControls_dispose]
           | None => []
           end),
     Ok tt).
Proof.
  open_world w. unfold reset_controls. unmonad.
  destruct controls, canvasControls; simpl;
    rewrite <- ?app_assoc, ?app_nil_r; reflexivity.
Qed.

Lemma reset_listeners_eq (w : World) :
  reset_listeners w =
    (mkWorld (xr w)
       (set_window_listeners
          (unsubscribed (window_listeners (host w)))
          (host w))
       (trace w
        ++ [A_window_remove "resize" H_handleResize_;
            A_window_remove "vrdisplaypresentchange" H_handleResize_;
            A_window_remove "vrdisplayactivate" H_handleVrDisplayActivate_;
            A_window_remove "vrdisplaydeactivate" H_handleVrDisplayDeactivate_]),
     Ok tt).
Proof.
  open_world w. unfold reset_listeners. xr_unfold. unmonad.
  rewrite <- !app_assoc. reflexivity.
Qed.

Lemma reset_player_eq (w : World) :
  exists cs bar,
    reset_player w =
      (mkWorld (xr w)
         (set_controlBar_children bar (set_player_children cs (host w)))
         (trace w),
       Ok tt).
Proof.
  open_world w. unfold reset_player. xr_unfold. unmonad.
  split_cases; eexists; eexists;
    unfold set_controlBar_children, set_player_children; simpl; reflexivity.
Qed.

Lemma bind_throw {A B : Type} (m : M A) (k : A -> M B) (w w' : World) (e : Exn) :
  m w = (w', Throw e) -> bind m k w = (w', Throw e).
Proof. intros H. unfold bind. rewrite H. reflexivity. Qed.

Lemma reset_surface_eq (w : World) :
  reset_surface w =
    match renderedCanvas (xr w) with
    | Some c =>
        if has_parentNode c then
          (mkWorld (set_renderedCanvas (Some (mkCanvas false)) (xr w)) (host w)
             (trace w
              ++ [A_call "videoElStyle.zIndex = ''; videoElStyle.opacity = ''";
                  A_call "renderedCanvas.parentNode.removeChild"]),
           Ok tt)
        else
          (mkWorld (xr w) (host w)
             (trace w ++ [A_call "videoElStyle.zIndex = ''; videoElStyle.opacity = ''"]),
           Throw (TypeError "this.renderedCanvas.parentNode is null"))
    | None =>
        (mkWorld (xr w) (host w)
           (trace w ++ [A_call "videoElStyle.zIndex = ''; videoElStyle.opacity = ''"]),
         Ok tt)
    end.
Proof.
  open_world w. unfold reset_surface. unmonad.
  destruct canvas as [[[|]]|]; simpl; rewrite <- ?app_assoc; reflexivity.
Qed.

(** With the canvas in the document, or no canvas, lines 312-321 return. *)
Lemma reset_surface_ok (w : World) :
  canvas_detached (xr w) = false ->
  reset_surface w =
    (mkWorld (detached (xr w)) (host w)
       (trace w
        ++ A_call "videoElStyle.zIndex = ''; videoElStyle.opacity = ''"
           :: match renderedCanvas (xr w) with
              | Some _ => [A_call "renderedCanvas.parentNode.removeChild"]
              | None => []
              end),
     Ok tt).
Proof.
  intros H. rewrite reset_surface_eq. unfold canvas_detached, detached in *.
  open_world w. destruct canvas as [[[|]]|]; try reflexivity. discriminate H.
Qed.

(** With a canvas that is out of the document, line 320 throws. *)
Lemma reset_surface_throws (w : World) :
  canvas_detached (xr w) = true ->
  reset_surface w =
    (mkWorld (xr w) (host w)
       (trace w ++ [A_call "videoElStyle.zIndex = ''; videoElStyle.opacity = ''"]),
     Throw (TypeError "this.renderedCanvas.parentNode is null")).
Proof.
  intros H. rewrite reset_surface_eq. unfold canvas_detached in *.
  destruct (renderedCanvas (xr w)) as [[[|]]|]; try discriminate H. reflexivity.
Qed.

(** The clock on which [cancel_if_scheduled] cancels: none when there is
    no handle, an exception when the session's clock is asked for and
    [currentSession] is null. *)
Lemma cancel_if_scheduled_eq (w : World) :
  cancel_if_scheduled w =
    match animationFrameId_ (xr w) with
    | Some (S n) =>
        if xrActive (xr w) then
          match currentSession (xr w) with
          | Some s => clock_cancelAnimationFrame (SessionClock s) (S n) w
          | None => (w, Throw (TypeError "this.currentSession is null"))
          end
        else clock_cancelAnimationFrame PlayerClock (S n) w
    | _ => (w, Ok tt)
    end.
Proof.
  open_world w. unfold cancel_if_scheduled, cancelAnimationFrame. unmonad.
  destruct frameId as [[|n]|]; try reflexivity.
  destruct active; [destruct session|]; reflexivity.
Qed.


(** [reset] on an initialised plugin whose canvas can be removed, up to the
    cancellation. *)
Lemma reset_eq (w : World)
  (H : initialized_ (xr w) = true) (Hc : canvas_detached (xr w) = false) :
  exists cs bar,
    let w4 :=
      mkWorld
        (detached (set_canvasPlayerControls None (set_controls3d None (xr w))))
        (set_controlBar_children bar
           (set_player_children cs
              (set_window_listeners
                 (unsubscribed (window_listeners (host w)))
                 (host w))))
        (trace w
         ++ match controls3d (xr w) with Some _ => [A_controls_dispose] | None => [] end
         ++ match canvasPlayerControls (xr w) with
            | Some _ => [A_canvasPlayerControls_dispose]
            | None => []
            end
         ++ [A_window_remove "resize" H_handleResize_;
             A_window_remove "vrdisplaypresentchange" H_handleResize_;
             A_window_remove "vrdisplayactivate" H_handleVrDisplayActivate_;
             A_window_remove "vrdisplaydeactivate" H_handleVrDisplayDeactivate_;
             A_call "videoElStyle.zIndex = ''; videoElStyle.opacity = ''"]
         ++ match renderedCanvas (xr w) with
            | Some _ => [A_call "renderedCanvas.parentNode.removeChild"]
            | None => []
            end) in
    reset w = (cancel_if_scheduled ;; assign_initialized_ false) w4.
Proof.
  unfold reset. unfold bind at 1. unfold this. rewrite H. simpl.
  erewrite bind_ok by apply reset_controls_eq.
  erewrite bind_ok by apply reset_listeners_eq.
  destruct (reset_player_eq
              (mkWorld (xr (fst (reset_listeners (fst (reset_controls w)))))
                       (host (fst (reset_listeners (fst (reset_controls w)))))
                       (trace (fst (reset_listeners (fst (reset_controls w)))))))
    as (cs & bar & Hp).
  rewrite reset_listeners_eq, reset_controls_eq in Hp. simpl in Hp.
  exists cs, bar.
  erewrite bind_ok by exact Hp.
  erewrite bind_ok by (apply reset_surface_ok; exact Hc).
  simpl. open_world w. rewrite <- !app_assoc. reflexivity.
Qed.

(** [reset] on an initialised plugin whose canvas is out of the document:
    it throws at line 320, the controls disposed of and the window
    listeners removed, the frame not cancelled and the flag not cleared. *)
Lemma reset_detached_eq (w : World)
  (H : initialized_ (xr w) = true) (Hc : canvas_detached (xr w) = true) :
  exists cs bar,
    reset w =
      (mkWorld
         (set_canvasPlayerControls None (set_controls3d None (xr w)))
         (set_controlBar_children bar
            (set_player_children cs
               (set_window_listeners
                  (unsubscribed (window_listeners (host w)))
                  (host w))))
         (trace w
          ++ match controls3d (xr w) with Some _ => [A_controls_dispose] | None => [] end
          ++ match canvasPlayerControls (xr w) with
             | Some _ => [A_canvasPlayerControls_dispose]
             | None => []
             end
          ++ [A_window_remove "resize" H_handleResize_;
              A_window_remove "vrdisplaypresentchange" H_handleResize_;
              A_window_remove "vrdisplayactivate" H_handleVrDisplayActivate_;
              A_window_remove "vrdisplaydeactivate" H_handleVrDisplayDeactivate_;
              A_call "videoElStyle.zIndex = ''; videoElStyle.opacity = ''"]),
       Throw (TypeError "this.renderedCanvas.parentNode is null")).
Proof.
  unfold reset. unfold bind at 1. unfold this. rewrite H. simpl.
  erewrite bind_ok by apply reset_controls_eq.
  erewrite bind_ok by apply reset_listeners_eq.
  destruct (reset_player_eq
              (mkWorld (xr (fst (reset_listeners (fst (reset_controls w)))))
                       (host (fst (reset_listeners (fst (reset_controls w)))))
                       (trace (fst (reset_listeners (fst (reset_controls w)))))))
    as (cs & bar & Hp).
  rewrite reset_listeners_eq, reset_controls_eq in Hp. simpl in Hp.
  exists cs, bar.
  erewrite bind_ok by exact Hp.
  erewrite bind_throw by (apply reset_surface_throws; exact Hc).
  simpl. open_world w. rewrite <- !app_assoc. reflexivity.
Qed.


Lemma frame_eqb_refl (f : Clock * FrameHandle) : frame_eqb f f = true.
Proof.
  destruct f as [[|s] h]; unfold frame_eqb; simpl; now rewrite ?Nat.eqb_refl.
Qed.

Lemma not_in_filter_out {A : Type} (eqb : A -> A -> bool) (a : A) (l : list A) :
  eqb a a = true -> ~ In a (filter (fun x => negb (eqb a x)) l).
Proof.
  intros R Hin. apply filter_In in Hin as [_ Hneg]. rewrite R in Hneg. discriminate.
Qed.






(** What every call of [reset] leaves alone, whether it returns early,
    completes or throws. *)
Lemma reset_summary (w : World) :
  exists d,
    trace (fst (reset w)) = trace w ++ d
    /\ ~ In (A_assign_initialized true) d
    /\ xrActive (xr (fst (reset w))) = xrActive (xr w)
    /\ currentSession (xr (fst (reset w))) = currentSession (xr w)
    /\ promises (host (fst (reset w))) = promises (host w)
    /\ next_promise (host (fst (reset w))) = next_promise (host w)
    /\ next_handle (host (fst (reset w))) = next_handle (host w)
    /\ navigator_xr (host (fst (reset w))) = navigator_xr (host w).
Proof.
  destruct (initialized_ (xr w)) eqn:Hi; [destruct (canvas_detached (xr w)) eqn:Hc|].
  - destruct (reset_detached_eq w Hi Hc) as (cs & bar & E). rewrite E. clear E.
    open_world w. subst.
    (eexists; split; [reflexivity|]);
      (split; [|repeat split; reflexivity]);
      destruct controls, canvasControls; simpl; intuition discriminate.
  - destruct (reset_eq w Hi Hc) as (cs & bar & E). cbv zeta in E. rewrite E. clear E.
    unfold bind at 1. rewrite cancel_if_scheduled_eq. simpl.
    open_world w. subst. unfold assign_initialized_. unmonad.
    destruct frameId as [[|n]|]; [| destruct active; [destruct session|] |];
      simpl; rewrite <- ?app_assoc; simpl;
      (eexists; split; [reflexivity|]);
      (split; [|repeat split; reflexivity]);
      destruct controls, canvasControls, canvas; simpl; intuition discriminate.
  - exists []. unfold reset, bind, this. rewrite Hi. simpl.
    rewrite app_nil_r. repeat split; try reflexivity. intros [].
Qed.


(** ** Lifecycle controller: what [init] does after its [reset] *)

Lemma init_after_reset (w : World) (Hnav : navigator_xr (host w) = true) :
  let rest :=
    init_pipeline ;;
    init_controls ;;
    self <- init_probe ;;
    (if self then completeInitialization
     else throw (TypeError "self is undefined")) ;;
    schedule_animate_ ;;
    init_subscriptions in
  exists allocation,
    snd (rest w) = Ok tt
    /\ trace (fst (rest w)) =
         trace w ++ allocation
         ++ [A_assign_initialized true;
             A_trigger "initialized";
             A_player_raf (next_handle (host w));
             A_player_on "fullscreenchange" H_handleResize_;
             A_window_add "vrdisplaypresentchange" H_handleResize_;
             A_window_add "resize" H_handleResize_;
             A_window_add "vrdisplayactivate" H_handleVrDisplayActivate_;
             A_window_add "vrdisplaydeactivate" H_handleVrDisplayDeactivate_]
    /\ In (A_call "new THREE.WebGLRenderer") allocation
    /\ In A_isSessionSupported allocation
    /\ ~ In (A_assign_initialized true) allocation
    /\ initialized_ (xr (fst (rest w))) = true
    /\ xrActive (xr (fst (rest w))) = false
    /\ currentSession (xr (fst (rest w))) = currentSession (xr w)
    /\ promises (host (fst (rest w))) =
         promises (host w) ++ [(next_promise (host w), K_isSessionSupported)]
    /\ next_promise (host (fst (rest w))) = S (next_promise (host w))
    /\ frames (host (fst (rest w))) =
         frames (host w) ++ [(PlayerClock, next_handle (host w))].
Proof.
  cbv zeta. open_world0 w. cbn [host navigator_xr] in Hnav. subst.
  exists ([A_call "new THREE.PerspectiveCamera"; A_call "new THREE.Scene";
           A_call "new THREE.VideoTexture"; A_call "scene.remove(movieScreen)";
           A_call "new THREE.Mesh"; A_call "scene.add(movieScreen)";
           A_call "new THREE.WebGLRenderer"; A_call "renderer.setSize";
           A_call "insertBefore(renderedCanvas)";
           A_call "videoElStyle.zIndex = '-1'; videoElStyle.opacity = '0'"]
          ++ match controls with
             | None => [A_call "new OrbitOrientationControls";
                        A_call "new CanvasPlayerControls"]
             | Some _ => []
             end
          ++ [A_call "renderer.xr.enabled = true"; A_isSessionSupported]).
  destruct controls; run_cbv; rewrite <- ?app_assoc; cbn [app];
    (split; [reflexivity|]; split; [reflexivity|]);
    cbn [In]; intuition discriminate.
Qed.

(** C9, as stated, fails on both counts.  In [init] the flag is written
    before the first frame is requested and before any subscription is made:
    the last thing [init] does is subscribe to 'vrdisplaydeactivate'.  In
    [reset] the flag is written last: the first thing [reset] does is
    dispose of the controls. *)
Lemma C9_counterexample :
  let init_calls := trace (fst (init (constructed true))) in
  let reset_calls :=
    skipn (List.length (trace supported_world)) (trace (fst (reset supported_world))) in
  last init_calls (A_call "") =
    A_window_add "vrdisplaydeactivate" H_handleVrDisplayDeactivate_
  /\ hd_error reset_calls = Some A_controls_dispose
  /\ last reset_calls (A_call "") = A_assign_initialized false
  /\ ~ (last init_calls (A_call "") = A_assign_initialized true
        /\ hd_error reset_calls = Some (A_assign_initialized false)).
Proof.
  cbv zeta. split; [reflexivity|]. split; [reflexivity|]. split; [reflexivity|].
  intros [H _]. vm_compute in H. discriminate H.
Qed.

(** C9, amended.  In an [init] that completes ([navigator.xr] present,
    its [reset] returning normally), the write [initialized_ = true] comes
    after the pipeline and the controls are allocated and the capability
    probe is started, and before the first frame is requested and the
    subscriptions are made: these follow it in the trace, in this order.  In
    a [reset] of an initialised plugin that completes, the write
    [initialized_ = false] is the last step, after the teardown, which
    contains no write of the flag. *)
Theorem C9_flag_written_mid_init_and_last_in_reset
  (wi wr : World)
  (Hnav : navigator_xr (host wi) = true)
  (Hreset : snd (reset wi) = Ok tt)
  (Hinit : initialized_ (xr wr) = true)
  (Hdone : snd (reset wr) = Ok tt) :
  (exists before,
      snd (init wi) = Ok tt
      /\ initialized_ (xr (fst (init wi))) = true
      /\ trace (fst (init wi)) =
           trace wi ++ before
           ++ [A_assign_initialized true;
               A_trigger "initialized";
               A_player_raf (next_handle (host wi));
               A_player_on "fullscreenchange" H_handleResize_;
               A_window_add "vrdisplaypresentchange" H_handleResize_;
               A_window_add "resize" H_handleResize_;
               A_window_add "vrdisplayactivate" H_handleVrDisplayActivate_;
               A_window_add "vrdisplaydeactivate" H_handleVrDisplayDeactivate_]
      /\ In (A_call "new THREE.WebGLRenderer") before
      /\ In A_isSessionSupported before
      /\ ~ In (A_assign_initialized true) before)
  /\ (exists teardown,
         initialized_ (xr (fst (reset wr))) = false
         /\ trace (fst (reset wr)) = trace wr ++ teardown ++ [A_assign_initialized false]
         /\ In (A_window_remove "resize" H_handleResize_) teardown
         /\ forall b, ~ In (A_assign_initialized b) teardown).
Proof.
  split.
  - destruct (reset_summary wi) as (d & Ht & Hd & _ & _ & _ & _ & Hh & Hn).
    destruct (reset wi) as [w1 r1] eqn:R. simpl in *. subst r1.
    rewrite <- Hn in Hnav.
    destruct (init_after_reset w1 Hnav)
      as (a & Hok & Htr & Hrend & Hprobe & Hno & Hi & _).
    cbv zeta in *.
    exists (d ++ a).
    unfold init. rewrite (bind_ok reset _ wi w1 tt R).
    repeat split; try assumption.
    + rewrite Htr, Ht, Hh, <- !app_assoc. reflexivity.
    + apply in_or_app. now right.
    + apply in_or_app. now right.
    + intros Hin. apply in_app_or in Hin as [Hin|Hin]; [exact (Hd Hin)|exact (Hno Hin)].
  - destruct (canvas_detached (xr wr)) eqn:Hc;
      [destruct (reset_detached_eq wr Hinit Hc) as (cs & bar & E);
       rewrite E in Hdone; discriminate Hdone|].
    destruct (reset_eq wr Hinit Hc) as (cs & bar & E). cbv zeta in E.
    rewrite E in *. clear E Hc.
    open_world0 wr. cbn [xr initialized_] in Hinit. subst.
    exists (match controls with Some _ => [A_controls_dispose] | None => [] end
            ++ match canvasControls with
               | Some _ => [A_canvasPlayerControls_dispose]
               | None => []
               end
            ++ [A_window_remove "resize" H_handleResize_;
                A_window_remove "vrdisplaypresentchange" H_handleResize_;
                A_window_remove "vrdisplayactivate" H_handleVrDisplayActivate_;
                A_window_remove "vrdisplaydeactivate" H_handleVrDisplayDeactivate_;
                A_call "videoElStyle.zIndex = ''; videoElStyle.opacity = ''"]
            ++ match canvas with
               | Some _ => [A_call "renderedCanvas.parentNode.removeChild"]
               | None => []
               end
            ++ match frameId with
               | Some (S n) =>
                   if active then
                     match session with
                     | Some s => [A_session_caf s (S n)]
                     | None => []
                     end
                   else [A_player_caf (S n)]
               | _ => []
               end).
    revert Hdone.
    destruct frameId as [[|n]|]; [| destruct active; [destruct session|] |];
      run_cbv; intros Hdone; try discriminate Hdone;
      (split; [reflexivity|]);
      (split; [rewrite <- ?app_assoc; cbn [app]; rewrite ?app_nil_r; reflexivity|]);
      destruct controls, canvasControls, canvas; cbn [app In];
      (split; [tauto|]); intros b; intuition discriminate.
Qed.

Lemma C9_witness :
  (exists before,
      snd (init (constructed true)) = Ok tt
      /\ initialized_ (xr (fst (init (constructed true)))) = true
      /\ trace (fst (init (constructed true))) =
           trace (constructed true) ++ before
           ++ [A_assign_initialized true;
               A_trigger "initialized";
               A_player_raf (next_handle (host (constructed true)));
               A_player_on "fullscreenchange" H_handleResize_;
               A_window_add "vrdisplaypresentchange" H_handleResize_;
               A_window_add "resize" H_handleResize_;
               A_window_add "vrdisplayactivate" H_handleVrDisplayActivate_;
               A_window_add "vrdisplaydeactivate" H_handleVrDisplayDeactivate_]
      /\ In (A_call "new THREE.WebGLRenderer") before
      /\ In A_isSessionSupported before
      /\ ~ In (A_assign_initialized true) before)
  /\ (exists teardown,
         initialized_ (xr (fst (reset active_world))) = false
         /\ trace (fst (reset active_world)) =
              trace active_world ++ teardown ++ [A_assign_initialized false]
         /\ In (A_window_remove "resize" H_handleResize_) teardown
         /\ forall b, ~ In (A_assign_initialized b) teardown).
Proof.
  apply (C9_flag_written_mid_init_and_last_in_reset (constructed true) active_world);
    reflexivity.
Defined.

(** ** Session state machine: the flag and the handle *)

Lemma session_state_call (m : M unit) (w : World) :
  session_state (call m w) = session_state (fst (m w)).
Proof. unfold call. destruct (m w) as [w' [a|e]]; reflexivity. Qed.

Lemma activate_session_state (w : World) :
  session_state (fst (handleVrDisplayActivate_ w)) = session_state w
  \/ session_state (fst (handleVrDisplayActivate_ w)) =
       (xrActive (xr w), currentSession (xr w),
        promises (host w) ++ [(next_promise (host w), K_requestSession)],
        S (next_promise (host w))).
Proof.
  open_world0 w.
  destruct supported, frameId as [[|n]|], active, session, controls, nav;
    run_cbv; auto.
Qed.

Lemma deactivate_session_state (w : World) :
  session_state (fst (handleVrDisplayDeactivate_ w)) = session_state w
  \/ session_state (fst (handleVrDisplayDeactivate_ w)) =
       (xrActive (xr w), currentSession (xr w),
        promises (host w) ++ [(next_promise (host w), K_end)],
        S (next_promise (host w))).
Proof.
  open_world0 w.
  destruct supported, frameId as [[|n]|], active, session;
    run_cbv; auto.
Qed.

Lemma on_session_session_state (s : XRSession) (w : World) :
  session_state (fst (on_session s w)) = session_state w
  \/ session_state (fst (on_session s w)) =
       (xrActive (xr w), Some s,
        promises (host w) ++ [(next_promise (host w), K_requestReferenceSpace)],
        S (next_promise (host w))).
Proof.
  open_world0 w. destruct rend; run_cbv; auto.
Qed.

Lemma on_referenceSpace_session_state (r : XRReferenceSpace) (w : World) :
  session_state (fst (on_referenceSpace r w)) =
    (true, currentSession (xr w), promises (host w), next_promise (host w)).
Proof.
  open_world0 w. destruct session; run_cbv; auto.
Qed.

Lemma on_end_session_state (w : World) (m : M unit) :
  (m = on_end_then \/ exists e, m = (on_end_catch e ;; on_end_then)) ->
  exists s,
    session_state (fst (m w)) =
      (false, s, promises (host w), next_promise (host w)).
Proof.
  intros [->|[e ->]]; open_world0 w.
  - destruct rend, controls; run_cbv; eexists; reflexivity.
  - unfold bind at 1, on_end_catch.
    destruct (String.eqb (name e) "InvalidStateError");
      destruct rend, controls; run_cbv; eexists; reflexivity.
Qed.

Lemma on_isSessionSupported_session_state (b : bool) (w : World) :
  session_state (fst (on_isSessionSupported b w)) = session_state w.
Proof.
  open_world0 w. destruct b; run_cbv; try reflexivity.
  destruct (getChild "CardboardButton" barChildren); reflexivity.
Qed.

Lemma reset_session_state (w : World) :
  session_state (fst (reset w)) = session_state w.
Proof.
  destruct (reset_summary w) as (d & _ & _ & Ha & Hs & Hp & Hn & _).
  unfold session_state. now rewrite Ha, Hs, Hp, Hn.
Qed.

Lemma init_session_state (w : World) :
  exists a,
    (a = xrActive (xr w) \/ a = false)
    /\ (session_state (fst (init w)) =
          (a, currentSession (xr w), promises (host w), next_promise (host w))
        \/ session_state (fst (init w)) =
             (a, currentSession (xr w),
              promises (host w) ++ [(next_promise (host w), K_isSessionSupported)],
              S (next_promise (host w)))).
Proof.
  pose proof (reset_session_state w) as R.
  assert (E : init w =
              match reset w with
              | (w', Ok _) =>
                  (init_pipeline ;; init_controls ;; self <- init_probe ;;
                   (if self then completeInitialization
                    else throw (TypeError "self is undefined")) ;;
                   schedule_animate_ ;; init_subscriptions) w'
              | (w', Throw e) => (w', Throw e)
              end) by reflexivity.
  rewrite E. clear E.
  destruct (reset w) as [w1 [[]|e]]; cbn [fst] in R.
  - unfold session_state in R. injection R as Ha Hs Hp Hn.
    rewrite <- Hs, <- Hp, <- Hn. clear.
    exists false. split; [now right|].
    open_world0 w1. destruct controls, nav; run_cbv;
      ((left; reflexivity) || (right; reflexivity)).
  - exists (xrActive (xr w)). split; [now left|]. left. exact R.
Qed.

Lemma lookup_promise_In (p : nat) (k : Cont) (ps : list (nat * Cont)) :
  lookup_promise p ps = Some k -> In (p, k) ps.
Proof.
  unfold lookup_promise. intros H.
  destruct (find (fun e => Nat.eqb p (fst e)) ps) as [[q c]|] eqn:F; [|discriminate].
  apply find_some in F as [Hin Heq]. simpl in *.
  apply Nat.eqb_eq in Heq. subst q. injection H as ->. exact Hin.
Qed.

Lemma lookup_promise_beyond (p n : nat) (ps : list (nat * Cont)) :
  (forall q k, In (q, k) ps -> q < n) -> n <= p -> lookup_promise p ps = None.
Proof.
  intros F Hle. destruct (lookup_promise p ps) as [k|] eqn:L; [|reflexivity].
  apply lookup_promise_In, F in L. lia.
Qed.



Lemma continuation_session_state (k : Cont) (o : Outcome) (m : M unit) (w : World) :
  continuation k o = Some m ->
  match k with
  | K_isSessionSupported => session_state (fst (m w)) = session_state w
  | K_requestSession =>
      session_state (fst (m w)) = session_state w
      \/ exists s,
           session_state (fst (m w)) =
             (xrActive (xr w), Some s,
              promises (host w) ++ [(next_promise (host w), K_requestReferenceSpace)],
              S (next_promise (host w)))
  | K_requestReferenceSpace =>
      session_state (fst (m w)) = session_state w
      \/ session_state (fst (m w)) =
           (true, currentSession (xr w), promises (host w), next_promise (host w))
  | K_end =>
      exists s,
        session_state (fst (m w)) =
          (false, s, promises (host w), next_promise (host w))
  end.
Proof.
  destruct k, o as [[b|s|r|]|e]; simpl; intros H; try discriminate H;
    injection H as <-.
  - apply on_isSessionSupported_session_state.
  - reflexivity.
  - destruct (on_session_session_state s w) as [E|E]; [now left|right; eauto].
  - now left.
  - right. apply on_referenceSpace_session_state.
  - now left.
  - apply on_end_session_state. now left.
  - apply on_end_session_state. right. eauto.
Qed.

Lemma settle_cases (p : nat) (o : Outcome) (w : World) :
  settle p o w = w
  \/ exists k m,
       lookup_promise p (promises (host w)) = Some k
       /\ continuation k o = Some m
       /\ settle p o w = call m (without_promise p w).
Proof.
  unfold settle.
  destruct (lookup_promise p (promises (host w))) as [k|]; [|now left].
  destruct (continuation k o) as [m|] eqn:C; [|now left].
  right. exists k, m. auto.
Qed.

Lemma session_state_components (w : World) a s ps n :
  session_state w = (a, s, ps, n) ->
  xrActive (xr w) = a /\ currentSession (xr w) = s
  /\ promises (host w) = ps /\ next_promise (host w) = n.
Proof. unfold session_state. intros H. injection H as <- <- <- <-. auto. Qed.

Lemma completed_inv_intro (w : World) a s ps n :
  session_state w = (a, s, ps, n) ->
  (a = true -> s <> None) ->
  (forall q k, In (q, k) ps -> q < n) ->
  completed_inv w.
Proof.
  intros H I F. apply session_state_components in H as (<- & <- & <- & <-).
  split; assumption.
Qed.

Lemma in_filter_promises (p q : nat) (k : Cont) (ps : list (nat * Cont)) :
  In (q, k) (filter (fun e => negb (Nat.eqb p (fst e))) ps) -> In (q, k) ps /\ q <> p.
Proof.
  intros H. apply filter_In in H as [Hin Hne]. split; [exact Hin|].
  simpl in Hne. intros ->. rewrite Nat.eqb_refl in Hne. discriminate.
Qed.

(** Settling a promise that is still pending keeps the table fresh, and
    what it does to the flag and the handle is what its chain does. *)
Lemma settle_session_state (p : nat) (o : Outcome) (w : World) :
  settle p o w = w
  \/ exists k,
       In (p, k) (promises (host w))
       /\ let ps := filter (fun e => negb (Nat.eqb p (fst e))) (promises (host w)) in
          let n := next_promise (host w) in
          match k with
          | K_isSessionSupported =>
              session_state (settle p o w) =
                (xrActive (xr w), currentSession (xr w), ps, n)
          | K_requestSession =>
              session_state (settle p o w) =
                (xrActive (xr w), currentSession (xr w), ps, n)
              \/ exists s,
                   session_state (settle p o w) =
                     (xrActive (xr w), Some s,
                      ps ++ [(n, K_requestReferenceSpace)], S n)
          | K_requestReferenceSpace =>
              session_state (settle p o w) =
                (xrActive (xr w), currentSession (xr w), ps, n)
              \/ session_state (settle p o w) =
                   (true, currentSession (xr w), ps, n)
          | K_end =>
              exists s, session_state (settle p o w) = (false, s, ps, n)
          end.
Proof.
  destruct (settle_cases p o w) as [E|(k & m & L & C & E)]; [now left|].
  right. exists k. split; [now apply lookup_promise_In|].
  cbv zeta. rewrite E, session_state_call.
  pose proof (continuation_session_state k o m (without_promise p w) C) as H.
  destruct k; exact H.
Qed.

(** Freshness goals: membership in a table built from older tables by
    appending the newest promise and filtering a settled one out. *)
Ltac fresh_tac F :=
  let q := fresh "q" in
  let k := fresh "k" in
  let Hin := fresh "Hin" in
  intros q k Hin;
  repeat (first
            [ apply in_filter_promises in Hin; destruct Hin as [Hin ?]
            | apply in_app_or in Hin; destruct Hin as [Hin|Hin]
            | destruct Hin as [Hin|[]]; injection Hin as <- <- ]);
  try (apply F in Hin); lia.

Lemma complete_preserves (o : Op) (w : World) :
  completed_inv w -> completed_inv (complete o w).
Proof.
  intros [I F]. unfold fresh_promises in F.
  destruct o as [probe| |session space|ended]; unfold complete.
  - (* init *)
    destruct (init_session_state w) as (a & Ha & E).
    rewrite <- !(session_state_call init) in E.
    assert (Ia : a = true -> currentSession (xr w) <> None)
      by (destruct Ha as [->| ->]; [exact I|discriminate]).
    destruct E as [E|E];
      pose proof (session_state_components _ _ _ _ _ E) as (Ea & Es & Ep & En);
      destruct (settle_session_state (next_promise (host w)) probe (call init w))
        as [E2|(k & Hin & H)].
    + rewrite E2. eapply completed_inv_intro; [exact E|exact Ia|exact F].
    + rewrite Ep in Hin. apply F in Hin. lia.
    + rewrite E2. eapply completed_inv_intro; [exact E|exact Ia|fresh_tac F].
    + rewrite Ep in Hin. apply in_app_or in Hin as [Hin|Hin];
        [apply F in Hin; lia|].
      destruct Hin as [Hin|[]]. injection Hin as <-.
      cbv zeta in H. rewrite Ea, Es, Ep, En in H.
      eapply completed_inv_intro; [exact H|exact Ia|fresh_tac F].
  - (* reset *)
    eapply completed_inv_intro;
      [rewrite session_state_call, reset_session_state; reflexivity|exact I|exact F].
  - (* activate *)
    set (p := next_promise (host w)) in *.
    set (w1 := call handleVrDisplayActivate_ w).
    assert (E : session_state w1 = session_state w
                \/ session_state w1 =
                     (xrActive (xr w), currentSession (xr w),
                      promises (host w) ++ [(p, K_requestSession)], S p))
      by (unfold w1; rewrite session_state_call; apply activate_session_state).
    destruct E as [E|E];
      pose proof (session_state_components _ _ _ _ _ E) as (Ea & Es & Ep & En);
      destruct (settle_session_state p session w1) as [E2|(k & Hin & H)].
    + rewrite E2.
      destruct (settle_session_state (S p) space w1) as [E3|(k3 & Hin3 & _)].
      * rewrite E3. eapply completed_inv_intro; [exact E|exact I|exact F].
      * rewrite Ep in Hin3. apply F in Hin3. lia.
    + rewrite Ep in Hin. apply F in Hin. lia.
    + rewrite E2.
      destruct (settle_session_state (S p) space w1) as [E3|(k3 & Hin3 & _)].
      * rewrite E3. eapply completed_inv_intro; [exact E|exact I|fresh_tac F].
      * rewrite Ep in Hin3. apply in_app_or in Hin3 as [Hin3|Hin3];
          [apply F in Hin3; lia|].
        destruct Hin3 as [Hin3|[]]. injection Hin3 as Hp _. lia.
    + rewrite Ep in Hin. apply in_app_or in Hin as [Hin|Hin];
        [apply F in Hin; lia|].
      destruct Hin as [Hin|[]]. injection Hin as <-.
      cbv zeta in H. rewrite Ea, Es, Ep, En in H.
      set (w2 := settle p session w1) in *.
      destruct H as [H|(s & H)];
        pose proof (session_state_components _ _ _ _ _ H) as (Ea2 & Es2 & Ep2 & En2);
        destruct (settle_session_state (S p) space w2) as [E3|(k3 & Hin3 & H3)].
      * rewrite E3. eapply completed_inv_intro; [exact H|exact I|fresh_tac F].
      * rewrite Ep2 in Hin3. apply in_filter_promises in Hin3 as [Hin3 _].
        apply in_app_or in Hin3 as [Hin3|Hin3]; [apply F in Hin3; lia|].
        destruct Hin3 as [Hin3|[]]. injection Hin3 as Hp _. lia.
      * rewrite E3. eapply completed_inv_intro;
          [exact H|intros _; discriminate|fresh_tac F].
      * cbv zeta in H3. rewrite Ea2, Es2, Ep2, En2 in H3.
        destruct k3.
        -- eapply completed_inv_intro; [exact H3|intros _; discriminate|fresh_tac F].
        -- destruct H3 as [H3|(s' & H3)];
             (eapply completed_inv_intro; [exact H3|intros _; discriminate|fresh_tac F]).
        -- destruct H3 as [H3|H3];
             (eapply completed_inv_intro; [exact H3|intros _; discriminate|fresh_tac F]).
        -- destruct H3 as (s' & H3).
           eapply completed_inv_intro; [exact H3|discriminate|fresh_tac F].
  - (* deactivate *)
    set (p := next_promise (host w)) in *.
    set (w1 := call handleVrDisplayDeactivate_ w).
    assert (E : session_state w1 = session_state w
                \/ session_state w1 =
                     (xrActive (xr w), currentSession (xr w),
                      promises (host w) ++ [(p, K_end)], S p))
      by (unfold w1; rewrite session_state_call; apply deactivate_session_state).
    destruct E as [E|E];
      pose proof (session_state_components _ _ _ _ _ E) as (Ea & Es & Ep & En);
      destruct (settle_session_state p ended w1) as [E2|(k & Hin & H)].
    + rewrite E2. eapply completed_inv_intro; [exact E|exact I|exact F].
    + rewrite Ep in Hin. apply F in Hin. lia.
    + rewrite E2. eapply completed_inv_intro; [exact E|exact I|fresh_tac F].
    + rewrite Ep in Hin. apply in_app_or in Hin as [Hin|Hin];
        [apply F in Hin; lia|].
      destruct Hin as [Hin|[]]. injection Hin as <-.
      cbv zeta in H. rewrite Ep, En in H. destruct H as (s & H).
      eapply completed_inv_intro; [exact H|discriminate|fresh_tac F].
Qed.

Lemma completed_inv_constructed (nav : bool) : completed_inv (constructed nav).
Proof. split; [discriminate|]. intros q k []. Qed.

Lemma reachable_run (inputs : list Input) (w : World) :
  reachable w -> reachable (run inputs w).
Proof.
  revert w. induction inputs as [|i inputs IH]; intros w H; simpl; [exact H|].
  apply IH. now constructor.
Qed.

Lemma supported_world_reachable : reachable supported_world.
Proof.
  assert (E : supported_world =
              run [I_player_event "loadedmetadata"; I_settle 0 (Fulfilled (V_bool true))]
                (constructed true)) by (vm_compute; reflexivity).
  rewrite E. apply reachable_run. constructor.
Qed.

Lemma active_world_reachable : reachable active_world.
Proof.
  assert (E : active_world =
              run [I_window_event "vrdisplayactivate";
                   I_settle 1 (Fulfilled (V_session 7));
                   I_settle 2 (Fulfilled (V_space 3))]
                supported_world) by (vm_compute; reflexivity).
  rewrite E. apply reachable_run, supported_world_reachable.
Qed.

Lemma orphaned_world_reachable : reachable orphaned_world.
Proof.
  assert (E : orphaned_world =
              run [I_window_event "vrdisplayactivate";
                   I_settle 1 (Fulfilled (V_session 7));
                   I_window_event "vrdisplaydeactivate";
                   I_settle 3 (Fulfilled V_undefined);
                   I_settle 2 (Fulfilled (V_space 3))]
                supported_world) by (vm_compute; reflexivity).
  rewrite E. apply reachable_run, supported_world_reachable.
Qed.

(** A session can be running on a plugin whose canvas is out of the
    document: [stranded_world] is reachable, and [reset] throws on it at
    line 320. *)
Lemma stranded_world_reset :
  reachable stranded_world
  /\ initialized_ (xr stranded_world) = true
  /\ xrActive (xr stranded_world) = true
  /\ currentSession (xr stranded_world) = Some 8
  /\ animationFrameId_ (xr stranded_world) = Some 3
  /\ canvas_detached (xr stranded_world) = true
  /\ snd (reset stranded_world) =
       Throw (TypeError "this.renderedCanvas.parentNode is null").
Proof.
  split; [|vm_compute; repeat split; reflexivity].
  assert (E : stranded_world =
              run [I_window_event "vrdisplayactivate";
                   I_window_event "vrdisplayactivate";
                   I_settle 1 (Fulfilled (V_session 7));
                   I_window_event "vrdisplaydeactivate";
                   I_settle 4 (Fulfilled V_undefined);
                   I_settle 3 (Fulfilled (V_space 3));
                   I_dispose;
                   I_settle 2 (Fulfilled (V_session 8));
                   I_settle 5 (Fulfilled (V_space 4))]
                supported_world) by (vm_compute; reflexivity).
  rewrite E. apply reachable_run, supported_world_reachable.
Qed.


(** C3, as stated, fails.  With every operation run to completion:
    [init], a successful activation, and [init] again (the next
    'loadedmetadata') leave [currentSession] non-null and [xrActive] false,
    since [init] clears the flag (line 218) and nothing clears the handle.
    Step by step, the same holds between the two promises of an activation:
    the session's chain stores the handle (line 72), the flag is set only by
    the reference space's chain (line 76). *)
Lemma C3_counterexample :
  let w :=
    complete (Op_init (Fulfilled (V_bool true)))
      (complete (Op_activate (Fulfilled (V_session 7)) (Fulfilled (V_space 3)))
         (complete (Op_init (Fulfilled (V_bool true))) (constructed true))) in
  let v :=
    run [I_window_event "vrdisplayactivate"; I_settle 1 (Fulfilled (V_session 7))]
      supported_world in
  completed w
  /\ currentSession (xr w) = Some 7
  /\ xrActive (xr w) = false
  /\ ~ (currentSession (xr w) <> None <-> xrActive (xr w) = true)
  /\ reachable v
  /\ currentSession (xr v) = Some 7
  /\ xrActive (xr v) = false.
Proof.
  cbv zeta.
  split; [do 3 apply completed_op; apply completed_constructed|].
  split; [vm_compute; reflexivity|]. split; [vm_compute; reflexivity|].
  split.
  - intros [H _].
    assert (F : false = true) by (apply H; vm_compute; discriminate).
    discriminate F.
  - split; [|split; vm_compute; reflexivity].
    apply reachable_run. apply supported_world_reachable.
Qed.

Lemma completed_inv_completed (w : World) : completed w -> completed_inv w.
Proof.
  induction 1 as [nav|o w H IH].
  - apply completed_inv_constructed.
  - apply complete_preserves, IH.
Qed.

(** C3, amended.  In every state reached by [init], [reset], activations
    and deactivations, each run to completion with its promises settled
    (fulfilled or rejected) before the next begins, [xrActive] true implies
    [currentSession] non-null. *)
Theorem C3_xrActive_implies_currentSession
  (w : World) (H : completed w) (Hactive : xrActive (xr w) = true) :
  currentSession (xr w) <> None.
Proof.
  exact (proj1 (completed_inv_completed w H) Hactive).
Qed.

Lemma C3_witness :
  currentSession
    (xr (complete (Op_activate (Fulfilled (V_session 7)) (Fulfilled (V_space 3)))
           (complete (Op_init (Fulfilled (V_bool true))) (constructed true))))
  <> None.
Proof.
  apply (C3_xrActive_implies_currentSession
           (complete (Op_activate (Fulfilled (V_session 7)) (Fulfilled (V_space 3)))
              (complete (Op_init (Fulfilled (V_bool true))) (constructed true)))).
  - do 2 apply completed_op. apply completed_constructed.
  - vm_compute. reflexivity.
Defined.

(** ** Frame scheduler: one loop *)

(** C7 does not hold of the code.  A user leaves the immersive session:
    the deactivate handler cancels the frame and calls [end()]; the session
    fires 'end', whose listener (lines 66-69) dispatches
    'vrdisplaydeactivate' again; the second run of the handler calls [end()]
    on the ended session.  The first promise resolves, the second rejects
    with InvalidStateError, and each runs lines 96-101: two frames are
    requested on the player's clock and neither is cancelled.  Both
    callbacks reschedule themselves: two render loops from then on. *)
Theorem C7_two_render_loops_after_exit :
  let w :=
    run [I_window_event "vrdisplaydeactivate";
         I_session_end 7;
         I_settle 3 (Fulfilled V_undefined);
         I_settle 4 (Rejected InvalidStateError)]
      active_world in
  let w' := run [I_frame PlayerClock 3 true None; I_frame PlayerClock 4 true None] w in
  reachable w
  /\ frames (host active_world) = [(SessionClock 7, 2)]
  /\ frames (host w) = [(PlayerClock, 3); (PlayerClock, 4)]
  /\ frames (host w') = [(PlayerClock, 5); (PlayerClock, 6)].
Proof.
  cbv zeta. split; [|vm_compute; repeat split; reflexivity].
  apply reachable_run, active_world_reachable.
Qed.

(** ** Exceptions *)

(** C8 does not hold of the code.  A 'vrdisplaydeactivate' signal that
    arrives while the plugin is capable and no session exists makes the
    handler read [this.currentSession.end] on null: a TypeError leaves the
    handler, after the scheduled frame has been cancelled.  And [init] on a
    page without [navigator.xr] logs 'web xr not available' and then calls
    [self.completeInitialization()] with [self] undefined: a TypeError
    leaves [init], and the plugin stays uninitialised with no frame
    scheduled and no subscription made. *)
Theorem C8_type_errors_reach_the_host :
  let w := step (I_window_event "vrdisplaydeactivate") supported_world in
  let v := step (I_player_event "loadedmetadata") (constructed false) in
  currentSession (xr supported_world) = None
  /\ snd (handleVrDisplayDeactivate_ supported_world) =
       Throw (TypeError "this.currentSession is null")
  /\ trace w = trace supported_world
               ++ [A_player_caf 1; A_uncaught (TypeError "this.currentSession is null")]
  /\ frames (host w) = []
  /\ snd (init (constructed false)) = Throw (TypeError "self is undefined")
  /\ last (trace v) (A_call "") = A_uncaught (TypeError "self is undefined")
  /\ initialized_ (xr v) = false
  /\ frames (host v) = []
  /\ window_listeners (host v) = [].
Proof. vm_compute. repeat split; reflexivity. Qed.

(** ** The wiring of a reachable plugin *)

(** Everything but [init] and [reset] keeps the wiring. *)

Lemma wiring_call (m : M unit) (w : World) : wiring (call m w) = wiring (fst (m w)).
Proof. unfold call. destruct (m w) as [w' [a|e]]; reflexivity. Qed.

Lemma promise_table_call (m : M unit) (w : World) :
  promise_table (call m w) = promise_table (fst (m w)).
Proof. unfold call. destruct (m w) as [w' [a|e]]; reflexivity. Qed.

Lemma wiring_handleVrDisplayActivate_ (w : World) :
  wiring (fst (handleVrDisplayActivate_ w)) = wiring w.
Proof.
  open_world0 w.
  destruct supported, frameId as [[|n]|], active, session, controls, nav;
    reflexivity.
Qed.

Lemma wiring_handleVrDisplayDeactivate_ (w : World) :
  wiring (fst (handleVrDisplayDeactivate_ w)) = wiring w.
Proof.
  open_world0 w.
  destruct supported, frameId as [[|n]|], active, session; reflexivity.
Qed.

Lemma wiring_on_session (s : XRSession) (w : World) :
  wiring (fst (on_session s w)) = wiring w.
Proof. open_world0 w. destruct rend; reflexivity. Qed.

Lemma wiring_on_referenceSpace (r : XRReferenceSpace) (w : World) :
  wiring (fst (on_referenceSpace r w)) = wiring w.
Proof. open_world0 w. destruct session; reflexivity. Qed.

Lemma wiring_on_end_then (w : World) : wiring (fst (on_end_then w)) = wiring w.
Proof. open_world0 w. destruct rend, controls; reflexivity. Qed.

Lemma wiring_on_end_catch_then (e : JsError) (w : World) :
  wiring (fst ((on_end_catch e ;; on_end_then) w)) = wiring w.
Proof.
  open_world0 w. unfold bind at 1, on_end_catch.
  destruct (String.eqb (name e) "InvalidStateError");
    destruct rend, controls; reflexivity.
Qed.

Lemma wiring_on_isSessionSupported (b : bool) (w : World) :
  wiring (fst (on_isSessionSupported b w)) = wiring w.
Proof.
  open_world0 w. destruct b; run_cbv; try reflexivity.
  destruct (getChild "CardboardButton" barChildren); reflexivity.
Qed.

Lemma wiring_animate_ (enough : bool) (f : option XRFrame) (w : World) :
  wiring (fst (animate_ enough f w)) = wiring w
  /\ promise_table (fst (animate_ enough f w)) = promise_table w.
Proof.
  open_world0 w.
  destruct init_, enough, texture, cam, active, session, controls, f, rend;
    split; reflexivity.
Qed.

Lemma wiring_handleResize_ (w : World) :
  wiring (fst (handleResize_ w)) = wiring w
  /\ promise_table (fst (handleResize_ w)) = promise_table w.
Proof. open_world0 w. destruct rend, cam; split; reflexivity. Qed.

(** ** [reset] and [init] keep the plugin wired or unwire it whole *)

Lemma reset_wired_inv (w : World) : wired_inv w -> wired_inv (fst (reset w)).
Proof.
  intros (F & I & N & C).
  destruct (reset_summary w) as (d & _ & _ & _ & _ & Hp & Hn & _).
  destruct (initialized_ (xr w)) eqn:Hi.
  - assert (L : window_listeners (host (fst (reset w))) =
                unsubscribed (window_listeners (host w))).
    { destruct (canvas_detached (xr w)) eqn:Hc.
      - destruct (reset_detached_eq w Hi Hc) as (cs & bar & E). rewrite E. reflexivity.
      - destruct (reset_eq w Hi Hc) as (cs & bar & E). cbv zeta in E.
        rewrite E. clear. open_world0 w.
        destruct frameId as [[|n]|], active, session; reflexivity. }
    split; [|split; [|split]].
    + unfold fresh_promises. rewrite Hp, Hn. exact F.
    + rewrite L. now do 4 apply filter_incl_trans.
    + rewrite L. now do 4 apply NoDup_filter.
    + rewrite L. intros Hin. exfalso. revert Hin.
      apply not_in_filter_out with (eqb := listener_eqb). reflexivity.
  - assert (E : reset w = (w, Ok tt))
      by (unfold reset, bind, this; rewrite Hi; reflexivity).
    rewrite E. exact (conj F (conj I (conj N C))).
Qed.

Lemma wired_inv_ext (w w' : World) :
  wiring w' = wiring w -> fresh_promises w' -> wired_inv w -> wired_inv w'.
Proof.
  unfold wiring. intros E F' (_ & I & N & C). injection E as El Ec Er.
  split; [exact F'|]. rewrite El. split; [exact I|]. split; [exact N|].
  intros Hin. destruct (C Hin) as [Hc Hr]. split.
  - destruct (controls3d (xr w)); [|contradiction].
    destruct (controls3d (xr w')); [discriminate|discriminate Ec].
  - destruct (renderer (xr w)); [|contradiction].
    destruct (renderer (xr w')); [discriminate|discriminate Er].
Qed.

Lemma fresh_promises_step (w w' : World) :
  promise_table w' = promise_table w
  \/ (exists k, promise_table w' =
                  (promises (host w) ++ [(next_promise (host w), k)],
                   S (next_promise (host w)))) ->
  fresh_promises w -> fresh_promises w'.
Proof.
  unfold promise_table, fresh_promises.
  intros [E|[k E]] F q c Hin; injection E as Ep En; rewrite Ep in Hin; rewrite En.
  - exact (F q c Hin).
  - apply in_app_or in Hin as [Hin|[Hin|[]]].
    + apply F in Hin. lia.
    + injection Hin as <- _. lia.
Qed.

Lemma promise_table_of_session_state (w : World) a s ps n :
  session_state w = (a, s, ps, n) -> promise_table w = (ps, n).
Proof. unfold session_state, promise_table. intros E. now injection E as _ _ -> ->. Qed.

Lemma init_rest_wired_inv (w : World) :
  wired_inv w ->
  wired_inv
    (fst ((init_pipeline ;; init_controls ;; self <- init_probe ;;
           (if self then completeInitialization
            else throw (TypeError "self is undefined")) ;;
           schedule_animate_ ;; init_subscriptions) w)).
Proof.
  intros (F & I & N & _). open_world0 w.
  unfold fresh_promises in F. cbn [host promises next_promise window_listeners] in *.
  destruct controls, nav; run_cbv;
    (split; [|split; [|split; [|intros _; split; discriminate]]]).
  all: try exact I.
  all: try exact N.
  all: try exact F.
  all: try (intros q k Hin; apply in_app_or in Hin as [Hin|[Hin|[]]];
            [apply F in Hin; lia|injection Hin as <- _; lia]).
  all: try (repeat apply add_listener_incl; try exact I;
            unfold window_subscriptions; simpl; tauto).
  all: repeat apply add_listener_NoDup; exact N.
Qed.

Lemma init_wired_inv (w : World) : wired_inv w -> wired_inv (fst (init w)).
Proof.
  intros H. apply reset_wired_inv in H.
  assert (E : init w =
              match reset w with
              | (w', Ok _) =>
                  (init_pipeline ;; init_controls ;; self <- init_probe ;;
                   (if self then completeInitialization
                    else throw (TypeError "self is undefined")) ;;
                   schedule_animate_ ;; init_subscriptions) w'
              | (w', Throw e) => (w', Throw e)
              end) by reflexivity.
  rewrite E. clear E.
  destruct (reset w) as [w1 [[]|e]]; cbn [fst] in *.
  - now apply init_rest_wired_inv.
  - exact H.
Qed.

Lemma call_wired_inv (m : M unit) (w : World) :
  wired_inv (fst (m w)) -> wired_inv (call m w).
Proof.
  intros H. eapply wired_inv_ext; [apply wiring_call| |exact H].
  eapply fresh_promises_step; [left; apply promise_table_call|apply H].
Qed.

Lemma handler_wired_inv (h : Handler) (w : World) :
  wired_inv w -> wired_inv (call (handler_body h) w).
Proof.
  intros H. apply call_wired_inv. destruct h; simpl.
  - now apply init_wired_inv.
  - destruct (wiring_handleResize_ w) as [Ew Ep].
    eapply wired_inv_ext; [exact Ew| |exact H].
    eapply fresh_promises_step; [left; exact Ep|apply H].
  - eapply wired_inv_ext; [apply wiring_handleVrDisplayActivate_| |exact H].
    eapply fresh_promises_step; [|apply H].
    destruct (activate_session_state w) as [E|E];
      apply promise_table_of_session_state in E; [now left|right; eauto].
  - eapply wired_inv_ext; [apply wiring_handleVrDisplayDeactivate_| |exact H].
    eapply fresh_promises_step; [|apply H].
    destruct (deactivate_session_state w) as [E|E];
      apply promise_table_of_session_state in E; [now left|right; eauto].
Qed.

Lemma dispatch_wired_inv (hs : list Handler) (w : World) :
  wired_inv w -> wired_inv (dispatch hs w).
Proof.
  revert w. induction hs as [|h hs IH]; intros w H; [exact H|].
  apply IH. now apply handler_wired_inv.
Qed.

Lemma continuation_wired_inv (k : Cont) (o : Outcome) (m : M unit) (w : World) :
  continuation k o = Some m -> wired_inv w -> wired_inv (fst (m w)).
Proof.
  intros C H.
  assert (T : promise_table (fst (m w)) = promise_table w
              \/ exists k', promise_table (fst (m w)) =
                              (promises (host w) ++ [(next_promise (host w), k')],
                               S (next_promise (host w)))).
  { pose proof (continuation_session_state k o m w C) as S.
    destruct k.
    - left. now apply promise_table_of_session_state in S.
    - destruct S as [S|[s S]]; apply promise_table_of_session_state in S;
        [now left|right; eauto].
    - left. destruct S as [S|S]; now apply promise_table_of_session_state in S.
    - left. destruct S as [s S]. now apply promise_table_of_session_state in S. }
  eapply wired_inv_ext; [|eapply fresh_promises_step; [exact T|apply H]|exact H].
  destruct k, o as [[b|s|r|]|e]; simpl in C; try discriminate C;
    injection C as <-; try reflexivity.
  - apply wiring_on_isSessionSupported.
  - apply wiring_on_session.
  - apply wiring_on_referenceSpace.
  - apply wiring_on_end_then.
  - apply wiring_on_end_catch_then.
Qed.

Lemma without_promise_wired_inv (p : nat) (w : World) :
  wired_inv w -> wired_inv (without_promise p w).
Proof.
  intros H. apply (wired_inv_ext w); [reflexivity| |exact H].
  intros q k Hin. apply in_filter_promises in Hin as [Hin _].
  exact (proj1 H q k Hin).
Qed.

Lemma step_wired_inv (i : Input) (w : World) : wired_inv w -> wired_inv (step i w).
Proof.
  intros H. destruct i as [e|e|s|c h enough f|p o|]; simpl.
  - now apply dispatch_wired_inv.
  - now apply dispatch_wired_inv.
  - induction (filter (Nat.eqb s) (session_end_listeners (host w))) as [|x xs IH]
      in w, H |- *; [exact H|].
    simpl. apply IH. apply call_wired_inv.
    unfold session_end_listener, bind, emit. simpl.
    apply dispatch_wired_inv.
    apply (wired_inv_ext w); [reflexivity|apply H|exact H].
  - unfold fire. destruct (existsb (frame_eqb (c, h)) (frames (host w))); [|exact H].
    apply call_wired_inv.
    destruct (wiring_animate_ enough f (without_frame c h w)) as [Ew Ep].
    eapply wired_inv_ext; [exact Ew| |exact H].
    eapply fresh_promises_step; [left; exact Ep|apply H].
  - destruct (settle_cases p o w) as [E|(k & m & _ & C & E)]; rewrite E; [exact H|].
    apply call_wired_inv. eapply continuation_wired_inv; [exact C|].
    now apply without_promise_wired_inv.
  - apply call_wired_inv. unfold dispose, bind.
    pose proof (reset_wired_inv w H) as R.
    destruct (reset w) as [w1 [[]|e]]; [|exact R].
    unfold emit. simpl in *.
    apply (wired_inv_ext w1); [reflexivity|apply R|exact R].
Qed.

Lemma reachable_wired_inv (w : World) : reachable w -> wired_inv w.
Proof.
  induction 1 as [nav|i w H IH].
  - split; [intros q k []|].
    split; [intros x []|]. split; [constructor|intros []].
  - now apply step_wired_inv.
Qed.


(** ** Session state machine: deactivation of an ended session *)

(** C5.  A deactivation signal delivered to the subscribed handler while
    the plugin is capable and holds a session, the session's [end()]
    rejecting at once with the name 'InvalidStateError' because it has
    already ended.  The handler returns normally having called [end()]; the
    [catch] callback returns without logging and the [then] callback runs to
    its end.  Afterwards [xrActive] is false, [currentSession] is null, the
    session is uninstalled from the renderer, the controls are enabled,
    'xrSessionDeactivated' has been emitted and a frame is pending on the
    player's clock under the handle stored in [animationFrameId_].  The
    trace grows by exactly these four calls: no console output and nothing
    thrown. *)
Theorem C5_already_ended_session_is_swallowed
  (w : World) (s : XRSession) (e : JsError)
  (Hreach : reachable w)
  (Hwired : In ("vrdisplaydeactivate", H_handleVrDisplayDeactivate_)
               (window_listeners (host w)))
  (Hsupported : xrSupported (xr w) = true)
  (Hsession : currentSession (xr w) = Some s)
  (Hname : name e = "InvalidStateError") :
  let p := next_promise (host w) in
  let w1 := step (I_window_event "vrdisplaydeactivate") w in
  let w' := step (I_settle p (Rejected e)) w1 in
  let h := next_handle (host w1) in
  (exists cancelled, trace w1 = trace w ++ cancelled ++ [A_session_end s])
  /\ lookup_promise p (promises (host w1)) = Some K_end
  /\ xrActive (xr w') = false
  /\ currentSession (xr w') = None
  /\ (exists r, renderer (xr w') = Some r /\ xr_session r = None)
  /\ controls3d (xr w') = Some (mkControls true)
  /\ animationFrameId_ (xr w') = Some h
  /\ frames (host w') = frames (host w1) ++ [(PlayerClock, h)]
  /\ trace w' = trace w1 ++ [A_renderer_setSession None; A_controls_enable;
                             A_trigger "xrSessionDeactivated"; A_player_raf h].
Proof.
  cbv zeta.
  destruct (reachable_wired_inv w Hreach) as (F & I & N & C).
  destruct (C Hwired) as [Hc Hr].
  destruct (handleVrDisplayDeactivate_calls_end w s Hsupported Hsession)
    as (Hok & Hp & Hx & Ht).
  assert (E1 : step (I_window_event "vrdisplaydeactivate") w =
               fst (handleVrDisplayDeactivate_ w)).
  { simpl. unfold dispatch_window.
    rewrite (listeners_for_deactivate _ I N Hwired). simpl. unfold call.
    destruct (handleVrDisplayDeactivate_ w) as [w1 r]. simpl in Hok. now subst r. }
  rewrite E1. clear E1.
  set (w1 := fst (handleVrDisplayDeactivate_ w)) in *.
  assert (L : lookup_promise (next_promise (host w)) (promises (host w1)) = Some K_end).
  { rewrite Hp. apply lookup_promise_app_fresh.
    apply lookup_promise_beyond with (n := next_promise (host w)); [exact F|lia]. }
  destruct (controls3d (xr w)) as [c|] eqn:Ec; [|contradiction].
  destruct (renderer (xr w)) as [r|] eqn:Er; [|contradiction].
  rewrite <- Hx in Ec, Er.
  destruct (end_rejection_already_ended
              w1 (next_promise (host w)) e c r L Hname Ec Er)
    as (Ha & Hs & Hrend & Hctl & Hid & Hfr & Htr).
  simpl.
  split; [exact Ht|]. split; [exact L|]. split; [exact Ha|]. split; [exact Hs|].
  split; [eexists; split; [exact Hrend|reflexivity]|].
  split; [exact Hctl|]. split; [exact Hid|]. split; [exact Hfr|exact Htr].
Qed.

Lemma C5_witness :
  let w := active_world in
  let w1 := step (I_window_event "vrdisplaydeactivate") w in
  let w' := step (I_settle 3 (Rejected InvalidStateError)) w1 in
  (exists cancelled, trace w1 = trace w ++ cancelled ++ [A_session_end 7])
  /\ lookup_promise 3 (promises (host w1)) = Some K_end
  /\ xrActive (xr w') = false
  /\ currentSession (xr w') = None
  /\ (exists r, renderer (xr w') = Some r /\ xr_session r = None)
  /\ controls3d (xr w') = Some (mkControls true)
  /\ animationFrameId_ (xr w') = Some 3
  /\ frames (host w') = frames (host w1) ++ [(PlayerClock, 3)]
  /\ trace w' = trace w1 ++ [A_renderer_setSession None; A_controls_enable;
                             A_trigger "xrSessionDeactivated"; A_player_raf 3].
Proof.
  apply (C5_already_ended_session_is_swallowed active_world 7 InvalidStateError active_world_reachable).
  - vm_compute. tauto.
  - reflexivity.
  - reflexivity.
  - reflexivity.
Defined.

(** * Further properties of the plugin *)

(** ** [reset] is idempotent *)

(** A [reset] that returns found its canvas in the document, or none. *)
Lemma reset_ok_canvas (w : World) :
  initialized_ (xr w) = true -> snd (reset w) = Ok tt ->
  canvas_detached (xr w) = false.
Proof.
  intros Hi Hok. destruct (canvas_detached (xr w)) eqn:Hc; [|reflexivity].
  destruct (reset_detached_eq w Hi Hc) as (cs & bar & E).
  rewrite E in Hok. discriminate Hok.
Qed.

Lemma reset_clears_flag (w : World) :
  initialized_ (xr w) = true -> snd (reset w) = Ok tt ->
  initialized_ (xr (fst (reset w))) = false.
Proof.
  intros Hi Hok. pose proof (reset_ok_canvas w Hi Hok) as Hc. revert Hok.
  destruct (reset_eq w Hi Hc) as (cs & bar & E). cbv zeta in E.
  rewrite E. clear E Hc. open_world0 w.
  destruct frameId as [[|n]|]; [| destruct active; [destruct session|] |];
    run_cbv; intros H; try discriminate H; reflexivity.
Qed.

(** X1.  A [reset] that returns normally leaves a plugin on which a
    second [reset] does nothing at all: the guard of lines 279-281 sees the
    flag the first one cleared.  (On a plugin that was never initialised the
    first one already does nothing.) *)
Theorem X1_reset_twice_is_reset (w : World) (H : snd (reset w) = Ok tt) :
  reset (fst (reset w)) = (fst (reset w), Ok tt)
  /\ (initialized_ (xr w) = false -> reset w = (w, Ok tt)).
Proof.
  assert (N : forall v, initialized_ (xr v) = false -> reset v = (v, Ok tt))
    by (intros v Hv; unfold reset, bind, this; rewrite Hv; reflexivity).
  split; [|apply N].
  destruct (initialized_ (xr w)) eqn:Hi.
  - apply N. now apply reset_clears_flag.
  - rewrite (N w Hi). simpl. now apply N.
Qed.

Lemma X1_witness :
  reset (fst (reset active_world)) = (fst (reset active_world), Ok tt)
  /\ (initialized_ (xr active_world) = false -> reset active_world = (active_world, Ok tt)).
Proof.
  apply (X1_reset_twice_is_reset active_world). vm_compute. reflexivity.
Defined.

(** ** The render step *)

(** [animate_] on an initialised plugin with no session active. *)
Lemma animate_desktop_eq (w : World) (enough : bool) (xrFrame : option XRFrame)
  (cam : PerspectiveCamera) (c : OrbitOrientationControls) (r : WebGLRenderer) :
  initialized_ (xr w) = true -> xrActive (xr w) = false ->
  camera (xr w) = Some cam -> controls3d (xr w) = Some c -> renderer (xr w) = Some r ->
  animate_ enough xrFrame w =
    (mkWorld
       (set_animationFrameId_ (Some (next_handle (host w)))
          (set_videoTexture
             (if enough
              then option_map (fun _ => mkVideoTexture true) (videoTexture (xr w))
              else videoTexture (xr w))
             (xr w)))
       (set_next_handle (S (next_handle (host w)))
          (set_frames (frames (host w) ++ [(PlayerClock, next_handle (host w))]) (host w)))
       (trace w ++ [A_call "camera.getWorldDirection";
                    A_player_raf (next_handle (host w));
                    A_controls_update;
                    A_call "renderer.render"]),
     Ok tt).
Proof.
  intros Hi Ha Hc Hctl Hr. open_world0 w. cbn [xr initialized_ xrActive camera controls3d renderer] in *.
  subst. destruct enough, texture; run_cbv; rewrite <- ?app_assoc; reflexivity.
Qed.

(** [animate_] on an initialised plugin with a session active. *)
Lemma animate_immersive_eq (w : World) (enough : bool) (xrFrame : option XRFrame)
  (cam : PerspectiveCamera) (s : XRSession) (r : WebGLRenderer) :
  initialized_ (xr w) = true -> xrActive (xr w) = true ->
  currentSession (xr w) = Some s ->
  camera (xr w) = Some cam -> renderer (xr w) = Some r ->
  animate_ enough xrFrame w =
    (mkWorld
       (set_xrPose
          (match xrFrame with
           | Some f => Some (mkPose f (xrReferenceSpace (xr w)))
           | None => xrPose (xr w)
           end)
          (set_animationFrameId_ (Some (next_handle (host w)))
             (set_videoTexture
                (if enough
                 then option_map (fun _ => mkVideoTexture true) (videoTexture (xr w))
                 else videoTexture (xr w))
                (xr w))))
       (set_next_handle (S (next_handle (host w)))
          (set_frames (frames (host w) ++ [(SessionClock s, next_handle (host w))]) (host w)))
       (trace w ++ [A_call "camera.getWorldDirection";
                    A_session_raf s (next_handle (host w))]
        ++ match xrFrame with
           | Some _ => [A_trigger "xrCameraUpdate"]
           | None => []
           end
        ++ [A_call "renderer.render"]),
     Ok tt).
Proof.
  intros Hi Ha Hs Hc Hr. open_world0 w.
  cbn [xr initialized_ xrActive currentSession camera renderer] in *.
  subst. destruct enough, texture, xrFrame; run_cbv;
    rewrite <- ?app_assoc; reflexivity.
Qed.

(** X2.  The render step with no session active (initialised plugin,
    camera, controls and renderer in place): the next frame is requested on
    the player's clock before the controls are advanced and the scene is
    drawn, its handle is stored, the texture is marked for upload exactly
    when the video has enough data, and the viewer pose is not sampled, even
    when the callback is handed a frame. *)
Theorem X2_render_step_without_session
  (w : World) (enough : bool) (xrFrame : option XRFrame)
  (cam : PerspectiveCamera) (c : OrbitOrientationControls) (r : WebGLRenderer)
  (Hinit : initialized_ (xr w) = true)
  (Hactive : xrActive (xr w) = false)
  (Hcamera : camera (xr w) = Some cam)
  (Hcontrols : controls3d (xr w) = Some c)
  (Hrenderer : renderer (xr w) = Some r) :
  let w' := fst (animate_ enough xrFrame w) in
  let h := next_handle (host w) in
  snd (animate_ enough xrFrame w) = Ok tt
  /\ trace w' = trace w ++ [A_call "camera.getWorldDirection"; A_player_raf h;
                            A_controls_update; A_call "renderer.render"]
  /\ frames (host w') = frames (host w) ++ [(PlayerClock, h)]
  /\ animationFrameId_ (xr w') = Some h
  /\ videoTexture (xr w') =
       (if enough
        then option_map (fun _ => mkVideoTexture true) (videoTexture (xr w))
        else videoTexture (xr w))
  /\ xrPose (xr w') = xrPose (xr w)
  /\ session_state w' = session_state w.
Proof.
  cbv zeta.
  rewrite (animate_desktop_eq w enough xrFrame cam c r) by assumption.
  repeat split.
Qed.

Lemma X2_witness :
  let w := supported_world in
  let w' := fst (animate_ true (Some 5) w) in
  snd (animate_ true (Some 5) w) = Ok tt
  /\ trace w' = trace w ++ [A_call "camera.getWorldDirection"; A_player_raf 2;
                            A_controls_update; A_call "renderer.render"]
  /\ frames (host w') = frames (host w) ++ [(PlayerClock, 2)]
  /\ animationFrameId_ (xr w') = Some 2
  /\ videoTexture (xr w') = option_map (fun _ => mkVideoTexture true) (videoTexture (xr w))
  /\ xrPose (xr w') = xrPose (xr w)
  /\ session_state w' = session_state w.
Proof.
  apply (X2_render_step_without_session supported_world true (Some 5)
           mkPerspectiveCamera (mkControls true) (mkRenderer true None));
    reflexivity.
Defined.

(** X3.  The render step with a session active: the next frame is
    requested on the session's clock, the desktop controls are not touched,
    and the viewer pose is sampled against [xrReferenceSpace] and
    'xrCameraUpdate' emitted exactly when the callback is handed a frame;
    without one the stored pose stays as it was. *)
Theorem X3_render_step_with_session
  (w : World) (enough : bool) (xrFrame : option XRFrame)
  (cam : PerspectiveCamera) (s : XRSession) (r : WebGLRenderer)
  (Hinit : initialized_ (xr w) = true)
  (Hactive : xrActive (xr w) = true)
  (Hsession : currentSession (xr w) = Some s)
  (Hcamera : camera (xr w) = Some cam)
  (Hrenderer : renderer (xr w) = Some r) :
  let w' := fst (animate_ enough xrFrame w) in
  let h := next_handle (host w) in
  snd (animate_ enough xrFrame w) = Ok tt
  /\ trace w' = trace w
                ++ [A_call "camera.getWorldDirection"; A_session_raf s h]
                ++ match xrFrame with
                   | Some _ => [A_trigger "xrCameraUpdate"]
                   | None => []
                   end
                ++ [A_call "renderer.render"]
  /\ frames (host w') = frames (host w) ++ [(SessionClock s, h)]
  /\ animationFrameId_ (xr w') = Some h
  /\ xrPose (xr w') =
       match xrFrame with
       | Some f => Some (mkPose f (xrReferenceSpace (xr w)))
       | None => xrPose (xr w)
       end
  /\ controls3d (xr w') = controls3d (xr w)
  /\ session_state w' = session_state w.
Proof.
  cbv zeta.
  rewrite (animate_immersive_eq w enough xrFrame cam s r) by assumption.
  repeat split.
Qed.

Lemma X3_witness :
  let w := active_world in
  let w' := fst (animate_ false (Some 5) w) in
  snd (animate_ false (Some 5) w) = Ok tt
  /\ trace w' = trace w
                ++ [A_call "camera.getWorldDirection"; A_session_raf 7 3]
                ++ [A_trigger "xrCameraUpdate"]
                ++ [A_call "renderer.render"]
  /\ frames (host w') = frames (host w) ++ [(SessionClock 7, 3)]
  /\ animationFrameId_ (xr w') = Some 3
  /\ xrPose (xr w') = Some (mkPose 5 (xrReferenceSpace (xr w)))
  /\ controls3d (xr w') = controls3d (xr w)
  /\ session_state w' = session_state w.
Proof.
  apply (X3_render_step_with_session active_world false (Some 5)
           mkPerspectiveCamera 7 (mkRenderer true (Some 7)));
    reflexivity.
Defined.

(** X4.  One frame in, one frame out.  When a pending frame fires on an
    initialised plugin whose render step can run (controls in place with no
    session active, or a session in place), the fired frame leaves the
    pending set and exactly one new frame enters it, on the clock of the
    current mode; so a loop with a single pending frame stays one. *)
Theorem X4_fired_frame_is_replaced_by_one
  (w : World) (c : Clock) (h : FrameHandle) (enough : bool)
  (xrFrame : option XRFrame) (cam : PerspectiveCamera) (r : WebGLRenderer)
  (Hpending : In (c, h) (frames (host w)))
  (Hinit : initialized_ (xr w) = true)
  (Hcamera : camera (xr w) = Some cam)
  (Hrenderer : renderer (xr w) = Some r)
  (Hmode : (xrActive (xr w) = false /\ controls3d (xr w) <> None)
           \/ (xrActive (xr w) = true /\ currentSession (xr w) <> None)) :
  let w' := step (I_frame c h enough xrFrame) w in
  frames (host w') =
    filter (fun e => negb (frame_eqb (c, h) e)) (frames (host w))
    ++ [(active_clock (xr w), next_handle (host w))]
  /\ animationFrameId_ (xr w') = Some (next_handle (host w))
  /\ (frames (host w) = [(c, h)] ->
      frames (host w') = [(active_clock (xr w), next_handle (host w))]).
Proof.
  cbv zeta. simpl. unfold fire.
  assert (E : existsb (frame_eqb (c, h)) (frames (host w)) = true).
  { apply existsb_exists. exists (c, h). split; [exact Hpending|apply frame_eqb_refl]. }
  rewrite E. unfold call.
  assert (A : frames (host (without_frame c h w)) =
              filter (fun e => negb (frame_eqb (c, h) e)) (frames (host w)))
    by reflexivity.
  assert (S1 : frames (host w) = [(c, h)] ->
               filter (fun e => negb (frame_eqb (c, h) e)) (frames (host w)) = []).
  { intros ->. unfold filter. now rewrite frame_eqb_refl. }
  destruct Hmode as [[Ha Hc]|[Ha Hs]].
  - destruct (controls3d (xr w)) as [ctl|] eqn:Ec; [|contradiction].
    rewrite (animate_desktop_eq (without_frame c h w) enough xrFrame cam ctl r)
      by assumption.
    unfold active_clock. rewrite Ha. cbn [fst xr host frames animationFrameId_
      set_animationFrameId_ set_next_handle set_frames without_frame next_handle].
    repeat split. intros F. now rewrite (S1 F).
  - destruct (currentSession (xr w)) as [s|] eqn:Es; [|contradiction].
    rewrite (animate_immersive_eq (without_frame c h w) enough xrFrame cam s r)
      by assumption.
    unfold active_clock. rewrite Ha, Es. cbn [fst xr host frames animationFrameId_
      set_xrPose set_animationFrameId_ set_next_handle set_frames without_frame next_handle].
    repeat split. intros F. now rewrite (S1 F).
Qed.

Lemma X4_witness :
  let w := active_world in
  let w' := step (I_frame (SessionClock 7) 2 true (Some 1)) w in
  frames (host w') =
    filter (fun e => negb (frame_eqb (SessionClock 7, 2) e)) (frames (host w))
    ++ [(active_clock (xr w), next_handle (host w))]
  /\ animationFrameId_ (xr w') = Some (next_handle (host w))
  /\ (frames (host w) = [(SessionClock 7, 2)] ->
      frames (host w') = [(active_clock (xr w), next_handle (host w))]).
Proof.
  apply (X4_fired_frame_is_replaced_by_one active_world (SessionClock 7) 2 true (Some 1)
           mkPerspectiveCamera (mkRenderer true (Some 7))).
  - simpl. tauto.
  - reflexivity.
  - reflexivity.
  - reflexivity.
  - right. split; [reflexivity|discriminate].
Defined.

(** ** Leaving a session: every way [end()] can settle *)

(** X5.  Whatever becomes of the [end()] promise, the cleanup of lines
    96-101 runs to its end: [xrActive] false, [currentSession] null, the
    session uninstalled, the controls enabled, 'xrSessionDeactivated'
    emitted and a frame requested on the player's clock.  The error is
    written to the console exactly when the promise rejects with a name
    other than 'InvalidStateError'; nothing is thrown in any case. *)
Theorem X5_end_chain_always_cleans_up
  (w : World) (p : nat) (err : option JsError)
  (c : OrbitOrientationControls) (r : WebGLRenderer)
  (Hpending : lookup_promise p (promises (host w)) = Some K_end)
  (Hcontrols : controls3d (xr w) = Some c)
  (Hrenderer : renderer (xr w) = Some r) :
  let w' := step (I_settle p (end_outcome err)) w in
  let h := next_handle (host w) in
  let logged :=
    match err with
    | Some e => if String.eqb (name e) "InvalidStateError" then []
                else [A_console_log_error e]
    | None => []
    end in
  xrActive (xr w') = false
  /\ currentSession (xr w') = None
  /\ renderer (xr w') = Some (mkRenderer (xr_enabled r) None)
  /\ controls3d (xr w') = Some (mkControls true)
  /\ animationFrameId_ (xr w') = Some h
  /\ frames (host w') = frames (host w) ++ [(PlayerClock, h)]
  /\ lookup_promise p (promises (host w')) = None
  /\ trace w' = trace w ++ logged
                ++ [A_renderer_setSession None; A_controls_enable;
                    A_trigger "xrSessionDeactivated"; A_player_raf h].
Proof.
  cbv zeta.
  assert (Gone : forall ps,
             lookup_promise p (filter (fun e => negb (Nat.eqb p (fst e))) ps) = None).
  { intros ps. unfold lookup_promise.
    destruct (find (fun e => Nat.eqb p (fst e))
                (filter (fun e => negb (Nat.eqb p (fst e))) ps)) as [x|] eqn:F;
      [|reflexivity].
    apply find_some in F as [Hin Hx]. apply filter_In in Hin as [_ Hn].
    rewrite Hx in Hn. discriminate Hn. }
  destruct err as [e|]; cbn [step end_outcome].
  - rewrite (settle_pending p (Rejected e) w K_end (on_end_catch e ;; on_end_then))
      by (assumption || reflexivity).
    unfold without_promise, call. open_world0 w.
    cbn [xr host controls3d renderer promises] in *. subst.
    unfold bind at 1, on_end_catch.
    destruct (String.eqb (name e) "InvalidStateError");
      run_cbv; rewrite <- ?app_assoc; repeat split; try reflexivity; apply Gone.
  - rewrite (settle_pending p (Fulfilled V_undefined) w K_end on_end_then)
      by (assumption || reflexivity).
    unfold without_promise, call. open_world0 w.
    cbn [xr host controls3d renderer promises] in *. subst.
    run_cbv; rewrite <- ?app_assoc; repeat split; try reflexivity; apply Gone.
Qed.

Lemma X5_witness :
  let w := step (I_window_event "vrdisplaydeactivate") active_world in
  let e := mkJsError "NetworkError" in
  let w' := step (I_settle 3 (end_outcome (Some e))) w in
  xrActive (xr w') = false
  /\ currentSession (xr w') = None
  /\ renderer (xr w') = Some (mkRenderer true None)
  /\ controls3d (xr w') = Some (mkControls true)
  /\ animationFrameId_ (xr w') = Some 3
  /\ frames (host w') = frames (host w) ++ [(PlayerClock, 3)]
  /\ lookup_promise 3 (promises (host w')) = None
  /\ trace w' = trace w ++ [A_console_log_error e]
                ++ [A_renderer_setSession None; A_controls_enable;
                    A_trigger "xrSessionDeactivated"; A_player_raf 3].
Proof.
  apply (X5_end_chain_always_cleans_up
           (step (I_window_event "vrdisplaydeactivate") active_world)
           3 (Some (mkJsError "NetworkError"))
           (mkControls false) (mkRenderer true (Some 7)));
    vm_compute; reflexivity.
Defined.

(** ** Entering a session *)

(** Settling the promise made last. *)
Lemma settle_newest (p : nat) (o : Outcome) (w : World) (k : Cont) (m : M unit)
  (ps : list (nat * Cont)) :
  promises (host w) = ps ++ [(p, k)] ->
  lookup_promise p ps = None ->
  continuation k o = Some m ->
  settle p o w = call m (mkWorld (xr w) (set_promises ps (host w)) (trace w)).
Proof.
  intros Hp Hl Hc.
  rewrite (settle_pending p o w k m);
    [ | rewrite Hp; now apply lookup_promise_app_fresh | exact Hc ].
  unfold without_promise. rewrite Hp, filter_app_fresh_promise by exact Hl.
  reflexivity.
Qed.








(** ** [reset] and [init], field by field *)

Lemma reset_player_restores (w : World) :
  reset_player w =
    (mkWorld (xr w)
       (set_controlBar_children
          (swept_controlBar (player_children (host w)) (controlBar_children (host w)))
          (set_player_children (restored_children (player_children (host w))) (host w)))
       (trace w),
     Ok tt).
Proof.
  open_world0 w. run_cbv.
  destruct (getChild "BigPlayButton" children); run_cbv;
    match goal with
    | |- context [getChild "BigVrPlayButton" ?l] =>
        destruct (getChild "BigVrPlayButton" l)
    end; run_cbv;
    match goal with
    | |- context [getChild "CardboardButton" ?l] =>
        destruct (getChild "CardboardButton" l)
    end; reflexivity.
Qed.

(** [reset] on an initialised plugin, from the canvas on. *)
Lemma reset_blocks (w : World) (Hi : initialized_ (xr w) = true) :
  reset w =
    (reset_surface ;; cancel_if_scheduled ;; assign_initialized_ false)
      (fst (reset_player (fst (reset_listeners (fst (reset_controls w)))))).
Proof.
  unfold reset. unfold bind at 1. unfold this. rewrite Hi. cbn [negb].
  erewrite bind_ok by apply reset_controls_eq.
  erewrite bind_ok by apply reset_listeners_eq.
  erewrite bind_ok by apply reset_player_restores.
  rewrite reset_player_restores, reset_listeners_eq, reset_controls_eq. reflexivity.
Qed.

(** A [reset] of an initialised plugin that returns normally. *)
Lemma reset_effect (w : World)
  (Hi : initialized_ (xr w) = true) (Hok : snd (reset w) = Ok tt) :
  let w' := fst (reset w) in
  xr w' = set_initialized_ false
            (detached (set_canvasPlayerControls None (set_controls3d None (xr w))))
  /\ frames (host w') =
       match animationFrameId_ (xr w) with
       | Some (S n) =>
           filter (fun e => negb (frame_eqb (active_clock (xr w), S n) e))
             (frames (host w))
       | _ => frames (host w)
       end
  /\ window_listeners (host w') = unsubscribed (window_listeners (host w))
  /\ player_listeners (host w') = player_listeners (host w)
  /\ player_children (host w') = restored_children (player_children (host w))
  /\ controlBar_children (host w') =
       swept_controlBar (player_children (host w)) (controlBar_children (host w))
  /\ session_end_listeners (host w') = session_end_listeners (host w)
  /\ promises (host w') = promises (host w)
  /\ next_promise (host w') = next_promise (host w)
  /\ next_handle (host w') = next_handle (host w)
  /\ navigator_xr (host w') = navigator_xr (host w).
Proof.
  cbv zeta. revert Hok. rewrite (reset_blocks w Hi).
  rewrite reset_player_restores, reset_listeners_eq, reset_controls_eq.
  open_world0 w. unfold active_clock, detached.
  destruct canvas as [[[|]]|];
    (destruct frameId as [[|n]|]; [| destruct active; [destruct session|] |]);
    run_cbv; intros Hok; try discriminate Hok; repeat split; reflexivity.
Qed.

(** An [init] that completes, in terms of the state its [reset] leaves. *)
Lemma init_effect (w : World)
  (Hnav : navigator_xr (host w) = true) (Hreset : snd (reset w) = Ok tt) :
  let w0 := fst (reset w) in
  let w' := fst (init w) in
  snd (init w) = Ok tt
  /\ initialized_ (xr w') = true
  /\ xrSupported (xr w') = false
  /\ xrActive (xr w') = false
  /\ currentSession (xr w') = currentSession (xr w0)
  /\ animationFrameId_ (xr w') = Some (next_handle (host w0))
  /\ controls3d (xr w') =
       match controls3d (xr w0) with
       | Some c => Some c
       | None => Some (mkControls true)
       end
  /\ renderer (xr w') = Some (mkRenderer true None)
  /\ camera (xr w') = Some mkPerspectiveCamera
  /\ frames (host w') = frames (host w0) ++ [(PlayerClock, next_handle (host w0))]
  /\ next_handle (host w') = S (next_handle (host w0))
  /\ window_listeners (host w') =
       add_listener ("vrdisplaydeactivate", H_handleVrDisplayDeactivate_)
         (add_listener ("vrdisplayactivate", H_handleVrDisplayActivate_)
            (add_listener ("resize", H_handleResize_)
               (add_listener ("vrdisplaypresentchange", H_handleResize_)
                  (window_listeners (host w0)))))
  /\ player_listeners (host w') =
       player_listeners (host w0) ++ [("fullscreenchange", H_handleResize_)]
  /\ player_children (host w') = swapped_children (player_children (host w0))
  /\ controlBar_children (host w') = controlBar_children (host w0)
  /\ promises (host w') =
       promises (host w0) ++ [(next_promise (host w0), K_isSessionSupported)]
  /\ next_promise (host w') = S (next_promise (host w0))
  /\ navigator_xr (host w') = true
  /\ renderedCanvas (xr w') = Some (mkCanvas true).
Proof.
  cbv zeta.
  assert (E : init w =
              match reset w with
              | (w', Ok _) =>
                  (init_pipeline ;; init_controls ;; self <- init_probe ;;
                   (if self then completeInitialization
                    else throw (TypeError "self is undefined")) ;;
                   schedule_animate_ ;; init_subscriptions) w'
              | (w', Throw e) => (w', Throw e)
              end) by reflexivity.
  rewrite E. clear E.
  destruct (reset_summary w) as (_ & _ & _ & _ & _ & _ & _ & _ & Hn).
  rewrite <- Hn in Hnav. clear Hn.
  destruct (reset w) as [w0 r0]. cbn [fst snd] in *. subst r0.
  open_world0 w0. cbn [host navigator_xr] in Hnav. subst.
  destruct controls; run_cbv; repeat split; reflexivity.
Qed.

(** An [init] returns only if its [reset] did and [navigator.xr] is there. *)
Lemma init_completes (w : World) :
  snd (init w) = Ok tt -> snd (reset w) = Ok tt /\ navigator_xr (host w) = true.
Proof.
  intros H.
  assert (E : init w =
              match reset w with
              | (w', Ok _) =>
                  (init_pipeline ;; init_controls ;; self <- init_probe ;;
                   (if self then completeInitialization
                    else throw (TypeError "self is undefined")) ;;
                   schedule_animate_ ;; init_subscriptions) w'
              | (w', Throw e) => (w', Throw e)
              end) by reflexivity.
  rewrite E in H. clear E.
  destruct (reset_summary w) as (_ & _ & _ & _ & _ & _ & _ & _ & Hn).
  destruct (reset w) as [w0 [[]|e]]; cbn [fst snd] in *; [|discriminate H].
  split; [reflexivity|]. rewrite <- Hn. clear Hn. revert H.
  open_world0 w0. destruct controls, nav; run_cbv; intros H;
    try discriminate H; reflexivity.
Qed.

(** [reset] returns when its canvas can be removed and the frame can be
    cancelled. *)
Lemma reset_returns (w : World) :
  canvas_detached (xr w) = false ->
  (xrActive (xr w) = true -> currentSession (xr w) <> None) ->
  snd (reset w) = Ok tt.
Proof.
  intros Hc H. destruct (initialized_ (xr w)) eqn:Hi.
  - destruct (reset_eq w Hi Hc) as (cs & bar & E). cbv zeta in E. rewrite E.
    clear E Hc.
    open_world0 w. cbn [xr xrActive currentSession] in H.
    destruct frameId as [[|n]|]; [| destruct active; [destruct session|] |];
      run_cbv; try reflexivity.
    exfalso. now apply H.
  - unfold reset, bind, this. rewrite Hi. reflexivity.
Qed.

(** ** Loading another media source *)



Lemma run_app (xs ys : list Input) (w : World) :
  run (xs ++ ys) w = run ys (run xs w).
Proof. unfold run. apply fold_left_app. Qed.

Lemma media_loaded_S (n : nat) :
  media_loaded (S n) = step (I_player_event "loadedmetadata") (media_loaded n).
Proof.
  unfold media_loaded.
  change (repeat (I_player_event "loadedmetadata") (S n))
    with (I_player_event "loadedmetadata" :: repeat (I_player_event "loadedmetadata") n).
  rewrite repeat_cons, run_app. reflexivity.
Qed.

Lemma listeners_for_loadedmetadata (n : nat) :
  listeners_for "loadedmetadata"
    (("loadedmetadata", H_init) :: repeat ("fullscreenchange", H_handleResize_) n)
  = [H_init].
Proof.
  unfold listeners_for.
  assert (R : filter (fun l : string * Handler => String.eqb "loadedmetadata" (fst l))
                (repeat ("fullscreenchange", H_handleResize_) n) = []).
  { induction n as [|n IH]; [reflexivity|].
    change (repeat ("fullscreenchange", H_handleResize_) (S n))
      with (("fullscreenchange", H_handleResize_)
              :: repeat ("fullscreenchange", H_handleResize_) n).
    unfold filter in *. fold (filter (fun l : string * Handler =>
                                        String.eqb "loadedmetadata" (fst l))) in *.
    change (String.eqb "loadedmetadata" (fst ("fullscreenchange", H_handleResize_)))
      with false. exact IH. }
  unfold filter in *. fold (filter (fun l : string * Handler =>
                                      String.eqb "loadedmetadata" (fst l))) in *.
  change (String.eqb "loadedmetadata" (fst ("loadedmetadata", H_init))) with true.
  cbv iota. rewrite R. reflexivity.
Qed.

Lemma listeners_for_fullscreenchange (n : nat) :
  listeners_for "fullscreenchange"
    (("loadedmetadata", H_init) :: repeat ("fullscreenchange", H_handleResize_) n)
  = repeat H_handleResize_ n.
Proof.
  unfold listeners_for.
  unfold filter. fold (filter (fun l : string * Handler =>
                                 String.eqb "fullscreenchange" (fst l))).
  change (String.eqb "fullscreenchange" (fst ("loadedmetadata", H_init))) with false.
  cbv iota.
  induction n as [|n IH]; [reflexivity|].
  change (repeat ("fullscreenchange", H_handleResize_) (S n))
    with (("fullscreenchange", H_handleResize_)
            :: repeat ("fullscreenchange", H_handleResize_) n).
  unfold filter. fold (filter (fun l : string * Handler =>
                                 String.eqb "fullscreenchange" (fst l))).
  change (String.eqb "fullscreenchange" (fst ("fullscreenchange", H_handleResize_)))
    with true.
  cbv iota. cbn [map snd]. rewrite IH. reflexivity.
Qed.

(** The plugin after [n] media loads. *)
Lemma media_loaded_state (n : nat) :
  let w := media_loaded n in
  navigator_xr (host w) = true
  /\ xrActive (xr w) = false
  /\ player_listeners (host w) =
       ("loadedmetadata", H_init) :: repeat ("fullscreenchange", H_handleResize_) n
  /\ next_handle (host w) = S n
  /\ canvas_detached (xr w) = false
  /\ match n with
     | 0 => initialized_ (xr w) = false /\ frames (host w) = []
            /\ window_listeners (host w) = []
     | S _ => initialized_ (xr w) = true /\ frames (host w) = [(PlayerClock, n)]
              /\ window_listeners (host w) = window_subscriptions
              /\ animationFrameId_ (xr w) = Some n
     end.
Proof.
  induction n as [|n IH]; cbv zeta in *.
  - vm_compute. repeat split; reflexivity.
  - destruct IH as (Hnav & Hact & Hpl & Hnh & Hcv & Hrest).
    rewrite media_loaded_S. set (w := media_loaded n) in *.
    assert (Hok : snd (reset w) = Ok tt)
      by (apply reset_returns; [exact Hcv|rewrite Hact; discriminate]).
    assert (E : step (I_player_event "loadedmetadata") w = fst (init w)).
    { cbn [step]. rewrite Hpl, listeners_for_loadedmetadata.
      unfold dispatch, fold_left, handler_body, call.
      destruct (init_effect w Hnav Hok) as (Hi & _).
      destruct (init w) as [w' r']. cbn [snd] in Hi. now subst r'. }
    rewrite E. clear E.
    destruct (init_effect w Hnav Hok)
      as (_ & Hini & _ & Hact' & _ & Hid & _ & _ & _ & Hfr & Hnh' & Hwl & Hpl' & _
          & _ & _ & _ & Hnav' & Hcv').
    assert (Hcd : canvas_detached (xr (fst (init w))) = false)
      by (unfold canvas_detached; now rewrite Hcv').
    destruct n as [|m].
    + destruct Hrest as (Hu & Hf & Hw).
      assert (R : reset w = (w, Ok tt))
        by (unfold reset, bind, this; rewrite Hu; reflexivity).
      rewrite R in *. cbn [fst] in *.
      rewrite Hfr, Hnh', Hwl, Hpl', Hid, Hf, Hw, Hpl, Hnh.
      repeat split; try assumption; reflexivity.
    + destruct Hrest as (Hi' & Hf & Hw & Hidn).
      destruct (reset_effect w Hi' Hok)
        as (_ & Rfr & Rwl & Rpl & _ & _ & _ & _ & _ & Rnh & _).
      rewrite Hidn in Rfr. unfold active_clock in Rfr. rewrite Hact, Hf in Rfr.
      rewrite Hfr, Hnh', Hwl, Hpl', Hid, Rfr, Rwl, Rpl, Rnh, Hw, Hpl, Hnh.
      assert (F : filter (fun e => negb (frame_eqb (PlayerClock, S m) e))
                    [(PlayerClock, S m)] = [])
        by (unfold filter; now rewrite frame_eqb_refl).
      rewrite F.
      repeat split; try assumption; try reflexivity.
      change (repeat ("fullscreenchange", H_handleResize_) (S (S m)))
        with (("fullscreenchange", H_handleResize_)
                :: repeat ("fullscreenchange", H_handleResize_) (S m)).
      rewrite repeat_cons. reflexivity.
Qed.

(** X9.  Every media load subscribes [handleResize_] to the player's
    'fullscreenchange' once more (line 255) and [reset] never unsubscribes
    it: after [n] loads and nothing else the player holds [n] such
    subscriptions, so one 'fullscreenchange' runs [handleResize_] [n]
    times.  The window subscriptions and the frame loop do not pile up: the
    four window listeners are there once and one frame is pending. *)
Theorem X9_fullscreenchange_subscriptions_pile_up (n : nat) :
  let w := media_loaded n in
  player_listeners (host w) =
    ("loadedmetadata", H_init) :: repeat ("fullscreenchange", H_handleResize_) n
  /\ listeners_for "fullscreenchange" (player_listeners (host w)) =
       repeat H_handleResize_ n
  /\ match n with
     | 0 => frames (host w) = [] /\ window_listeners (host w) = []
     | S _ => frames (host w) = [(PlayerClock, n)]
              /\ window_listeners (host w) = window_subscriptions
     end.
Proof.
  cbv zeta. destruct (media_loaded_state n) as (_ & _ & Hpl & _ & _ & Hrest).
  split; [exact Hpl|]. split; [rewrite Hpl; apply listeners_for_fullscreenchange|].
  destruct n; tauto.
Qed.

(** ** The capability probe *)

Lemma on_isSessionSupported_eq (b : bool) (w : World) :
  on_isSessionSupported b w =
    if b then
      (mkWorld (set_xrSupported true (xr w))
         (if getChild "CardboardButton" (controlBar_children (host w))
          then host w
          else set_controlBar_children
                 (controlBar_children (host w) ++ ["CardboardButton"]) (host w))
         (trace w ++ [A_console_log "webxr session supported"]),
       Ok tt)
    else
      (mkWorld (xr w) (host w)
         (trace w ++ [A_console_log "web xr device not found, using orbit controls"]),
       Ok tt).
Proof.
  open_world0 w. destruct b; run_cbv; [|reflexivity].
  destruct (getChild "CardboardButton" barChildren); reflexivity.
Qed.

(** X10.  The capability flag between an [init] and the answer of its
    probe.  A completing [init] leaves [xrSupported] false with the probe
    pending; when the probe settles, the flag is true exactly when the
    answer was a fulfilment with [true], and only then is the cardboard
    button added to the control bar, unless one is there.  A rejected probe
    has no handler in the plugin. *)
Theorem X10_probe_decides_capability (w : World) (r : JsError + bool)
  (Hdone : snd (init w) = Ok tt)
  (Hfresh : fresh_promises w) :
  let w1 := fst (init w) in
  let p := next_promise (host w) in
  let w2 := step (I_settle p (probe_outcome r)) w1 in
  let bar := controlBar_children (host w1) in
  lookup_promise p (promises (host w1)) = Some K_isSessionSupported
  /\ xrSupported (xr w1) = false
  /\ xrSupported (xr w2) = probe_says_yes r
  /\ controlBar_children (host w2) =
       (if probe_says_yes r && negb (getChild "CardboardButton" bar)
        then bar ++ ["CardboardButton"] else bar)
  /\ trace w2 = trace w1 ++
       [match r with
        | inl e => A_unhandled_rejection e
        | inr true => A_console_log "webxr session supported"
        | inr false => A_console_log "web xr device not found, using orbit controls"
        end]
  /\ promises (host w2) = promises (host w)
  /\ initialized_ (xr w2) = true.
Proof.
  cbv zeta. destruct (init_completes w Hdone) as [Hok Hnav].
  destruct (init_effect w Hnav Hok)
    as (_ & Hini & Hsup & _ & _ & _ & _ & _ & _ & _ & _ & _ & _ & _ & _ & Hpr & _).
  destruct (reset_summary w) as (d & _ & _ & _ & _ & Rp & Rn & _).
  rewrite Rp, Rn in Hpr.
  assert (L0 : lookup_promise (next_promise (host w)) (promises (host w)) = None)
    by (apply lookup_promise_beyond with (n := next_promise (host w));
        [exact Hfresh|lia]).
  set (w1 := fst (init w)) in *. clearbody w1.
  split; [rewrite Hpr; now apply lookup_promise_app_fresh|].
  split; [exact Hsup|].
  cbn [step].
  destruct r as [e|[|]]; cbn [probe_outcome probe_says_yes andb].
  - rewrite (settle_newest _ (Rejected e) w1 K_isSessionSupported
               (emit (A_unhandled_rejection e))
               (promises (host w)) Hpr L0 eq_refl).
    unfold call, emit. cbn [fst snd xr host trace].
    destruct w1 as [x1 h1 t1]. cbn [xr host trace] in *.
    destruct h1; cbn in *. repeat split; assumption.
  - rewrite (settle_newest _ (Fulfilled (V_bool true)) w1 K_isSessionSupported
               (on_isSessionSupported true)
               (promises (host w)) Hpr L0 eq_refl).
    unfold call. rewrite on_isSessionSupported_eq.
    destruct w1 as [x1 h1 t1]. cbn [xr host trace] in *.
    destruct h1, x1; cbn in *.
    destruct (getChild "CardboardButton" controlBar_children0);
      cbn; repeat split; assumption.
  - rewrite (settle_newest _ (Fulfilled (V_bool false)) w1 K_isSessionSupported
               (on_isSessionSupported false)
               (promises (host w)) Hpr L0 eq_refl).
    unfold call. rewrite on_isSessionSupported_eq.
    destruct w1 as [x1 h1 t1]. cbn [xr host trace] in *.
    destruct h1, x1; cbn in *. repeat split; assumption.
Qed.

Lemma X10_witness :
  xrSupported
    (xr (step (I_settle 3 (probe_outcome (inr false))) (fst (init active_world))))
  = false.
Proof.
  refine (proj1 (proj2 (proj2 (X10_probe_decides_capability active_world (inr false)
                                 _ _)))).
  - vm_compute. reflexivity.
  - intros q k H. vm_compute in H. destruct H.
Defined.

(** ** The subscriptions and what they rely on *)

Lemma init_unfold (w : World) :
  init w = match reset w with
           | (w', Ok _) => init_body w'
           | (w', Throw e) => (w', Throw e)
           end.
Proof. reflexivity. Qed.

(** Everything but [init], [reset] and the probe's callback keeps the
    fixtures. *)

Lemma fixtures_call (m : M unit) (w : World) :
  fixtures (call m w) = fixtures (fst (m w)).
Proof. unfold call. destruct (m w) as [w' [a|e]]; reflexivity. Qed.

Lemma fixtures_handleVrDisplayActivate_ (w : World) :
  fixtures (fst (handleVrDisplayActivate_ w)) = fixtures w.
Proof.
  open_world0 w.
  destruct supported, frameId as [[|n]|], active, session, controls, nav;
    reflexivity.
Qed.

Lemma fixtures_handleVrDisplayDeactivate_ (w : World) :
  fixtures (fst (handleVrDisplayDeactivate_ w)) = fixtures w.
Proof.
  open_world0 w.
  destruct supported, frameId as [[|n]|], active, session; reflexivity.
Qed.

Lemma fixtures_on_session (s : XRSession) (w : World) :
  fixtures (fst (on_session s w)) = fixtures w.
Proof. open_world0 w. destruct rend; reflexivity. Qed.

Lemma fixtures_on_referenceSpace (r : XRReferenceSpace) (w : World) :
  fixtures (fst (on_referenceSpace r w)) = fixtures w.
Proof. open_world0 w. destruct session; reflexivity. Qed.

Lemma fixtures_on_end_then (w : World) : fixtures (fst (on_end_then w)) = fixtures w.
Proof. open_world0 w. destruct rend, controls; reflexivity. Qed.

Lemma fixtures_on_end_catch_then (e : JsError) (w : World) :
  fixtures (fst ((on_end_catch e ;; on_end_then) w)) = fixtures w.
Proof.
  open_world0 w. unfold bind at 1, on_end_catch.
  destruct (String.eqb (name e) "InvalidStateError");
    destruct rend, controls; reflexivity.
Qed.

Lemma fixtures_animate_ (enough : bool) (f : option XRFrame) (w : World) :
  fixtures (fst (animate_ enough f w)) = fixtures w.
Proof.
  open_world0 w.
  destruct init_, enough, texture, cam, active, session, controls, f, rend;
    reflexivity.
Qed.

Lemma fixtures_handleResize_ (w : World) :
  fixtures (fst (handleResize_ w)) = fixtures w.
Proof. open_world0 w. destruct rend, cam; reflexivity. Qed.

(** The probe's callback keeps all of them but the control bar. *)
Lemma fixtures_on_isSessionSupported (b : bool) (w : World) :
  let w' := fst (on_isSessionSupported b w) in
  initialized_ (xr w') = initialized_ (xr w)
  /\ window_listeners (host w') = window_listeners (host w)
  /\ player_listeners (host w') = player_listeners (host w)
  /\ renderer (xr w') = renderer (xr w)
  /\ camera (xr w') = camera (xr w)
  /\ player_children (host w') = player_children (host w).
Proof.
  cbv zeta. rewrite on_isSessionSupported_eq. open_world0 w.
  destruct b; [destruct (getChild "CardboardButton" _)|]; repeat split; reflexivity.
Qed.

(** [reset] on an initialised plugin, whether it returns or throws. *)
Lemma reset_fixtures (w : World) (Hi : initialized_ (xr w) = true) :
  let w' := fst (reset w) in
  window_listeners (host w') = unsubscribed (window_listeners (host w))
  /\ player_listeners (host w') = player_listeners (host w)
  /\ renderer (xr w') = renderer (xr w)
  /\ camera (xr w') = camera (xr w)
  /\ player_children (host w') = restored_children (player_children (host w))
  /\ controlBar_children (host w') =
       swept_controlBar (player_children (host w)) (controlBar_children (host w)).
Proof.
  cbv zeta. rewrite (reset_blocks w Hi).
  rewrite reset_player_restores, reset_listeners_eq, reset_controls_eq.
  open_world0 w.
  destruct canvas as [[[|]]|];
    (destruct frameId as [[|n]|]; [| destruct active; [destruct session|] |]);
    run_cbv; repeat split; reflexivity.
Qed.

Lemma reset_uninitialized (w : World) :
  initialized_ (xr w) = false -> reset w = (w, Ok tt).
Proof. intros Hi. unfold reset, bind, this. rewrite Hi. reflexivity. Qed.

(** [init] past its [reset]. *)
Lemma init_body_fixtures (w : World) :
  let w' := fst (init_body w) in
  let nav := navigator_xr (host w) in
  initialized_ (xr w') = (nav || initialized_ (xr w))
  /\ window_listeners (host w') =
       (if nav then
          add_listener ("vrdisplaydeactivate", H_handleVrDisplayDeactivate_)
            (add_listener ("vrdisplayactivate", H_handleVrDisplayActivate_)
               (add_listener ("resize", H_handleResize_)
                  (add_listener ("vrdisplaypresentchange", H_handleResize_)
                     (window_listeners (host w)))))
        else window_listeners (host w))
  /\ player_listeners (host w') =
       (if nav then player_listeners (host w) ++ [("fullscreenchange", H_handleResize_)]
        else player_listeners (host w))
  /\ is_set (renderer (xr w')) = true
  /\ is_set (camera (xr w')) = true
  /\ player_children (host w') = swapped_children (player_children (host w))
  /\ controlBar_children (host w') = controlBar_children (host w).
Proof.
  cbv zeta. open_world0 w.
  destruct controls, nav; run_cbv; repeat split; reflexivity.
Qed.

(** All four window subscriptions are removed by [reset]. *)
Lemma unsubscribed_all (ls : list (string * Handler)) :
  incl ls window_subscriptions -> unsubscribed ls = [].
Proof.
  intros I.
  destruct (unsubscribed ls) as [|x xs] eqn:E; [reflexivity|exfalso].
  assert (Hx : In x (unsubscribed ls)) by (rewrite E; now left).
  unfold unsubscribed in Hx.
  apply filter_In in Hx as [Hx H4]. apply filter_In in Hx as [Hx H3].
  apply filter_In in Hx as [Hx H2]. apply filter_In in Hx as [Hx H1].
  apply I in Hx. unfold window_subscriptions in Hx.
  destruct Hx as [<-|[<-|[<-|[<-|[]]]]];
    [discriminate H2|discriminate H1|discriminate H3|discriminate H4].
Qed.

Lemma fitted_inv_ext (w w' : World) :
  fixtures w' = fixtures w -> fitted_inv w -> fitted_inv w'.
Proof.
  unfold fixtures. intros E (A & B & C). injection E as Ei Ew Ep Er Ec _ _.
  split; [rewrite Ei, Ew; exact A|]. split; [rewrite Ep; exact B|].
  intros [e S]. rewrite Ew, Ep in S. destruct (C (ex_intro _ e S)) as [Hr Hc]. split.
  - destruct (renderer (xr w)); [|contradiction].
    destruct (renderer (xr w')); [discriminate|discriminate Er].
  - destruct (camera (xr w)); [|contradiction].
    destruct (camera (xr w')); [discriminate|discriminate Ec].
Qed.

Lemma reset_fitted_inv (w : World) :
  wired_inv w -> fitted_inv w -> fitted_inv (fst (reset w)).
Proof.
  intros (_ & I & _ & _) F.
  destruct (initialized_ (xr w)) eqn:Hi.
  - destruct F as (A & B & C).
    destruct (reset_fixtures w Hi) as (Hw & Hp & Hr & Hc & _).
    rewrite (unsubscribed_all _ I) in Hw.
    split; [intros _; exact Hw|]. split; [rewrite Hp; exact B|].
    intros [e S]. rewrite Hw, Hp in S. rewrite Hr, Hc. apply C.
    exists e. apply in_or_app. now right.
  - rewrite (reset_uninitialized w Hi). exact F.
Qed.

Lemma init_body_fitted_inv (w : World) :
  initialized_ (xr w) = false -> fitted_inv w -> fitted_inv (fst (init_body w)).
Proof.
  intros Hi (A & B & _).
  destruct (init_body_fixtures w) as (Ei & Ew & Ep & Er & Ec & _).
  rewrite Hi in Ei.
  split; [|split].
  - rewrite Ei, Ew. destruct (navigator_xr (host w)); [discriminate|]. intros _. now apply A.
  - rewrite Ep. destruct (navigator_xr (host w)); [|exact B].
    apply incl_app; [exact B|]. intros x [<-|[]]. right. now left.
  - intros _. split.
    + destruct (renderer (xr (fst (init_body w)))); [discriminate|discriminate Er].
    + destruct (camera (xr (fst (init_body w)))); [discriminate|discriminate Ec].
Qed.

Lemma init_fitted_inv (w : World) :
  wired_inv w -> fitted_inv w -> fitted_inv (fst (init w)).
Proof.
  intros W F. pose proof (reset_fitted_inv w W F) as R.
  assert (Hflag : snd (reset w) = Ok tt -> initialized_ (xr (fst (reset w))) = false).
  { destruct (initialized_ (xr w)) eqn:Hi; [now apply reset_clears_flag|].
    rewrite (reset_uninitialized w Hi). intros _. exact Hi. }
  rewrite init_unfold.
  destruct (reset w) as [w1 [[]|e]]; cbn [fst snd] in *; [|exact R].
  apply init_body_fitted_inv; [now apply Hflag|exact R].
Qed.

Lemma call_fitted_inv (m : M unit) (w : World) :
  fitted_inv (fst (m w)) -> fitted_inv (call m w).
Proof. apply fitted_inv_ext, fixtures_call. Qed.

Lemma handler_fitted_inv (h : Handler) (w : World) :
  wired_inv w -> fitted_inv w -> fitted_inv (call (handler_body h) w).
Proof.
  intros W F. apply call_fitted_inv. destruct h; cbn [handler_body].
  - now apply init_fitted_inv.
  - exact (fitted_inv_ext w _ (fixtures_handleResize_ w) F).
  - exact (fitted_inv_ext w _ (fixtures_handleVrDisplayActivate_ w) F).
  - exact (fitted_inv_ext w _ (fixtures_handleVrDisplayDeactivate_ w) F).
Qed.

Lemma dispatch_fitted_inv (hs : list Handler) (w : World) :
  wired_inv w -> fitted_inv w -> fitted_inv (dispatch hs w).
Proof.
  revert w. induction hs as [|h hs IH]; intros w W F; [exact F|].
  apply IH; [now apply handler_wired_inv|now apply handler_fitted_inv].
Qed.

Lemma continuation_fitted_inv (k : Cont) (o : Outcome) (m : M unit) (w : World) :
  continuation k o = Some m -> fitted_inv w -> fitted_inv (fst (m w)).
Proof.
  intros C F.
  destruct k, o as [[b|s|r|]|e]; cbn [continuation] in C; try discriminate C;
    injection C as <-.
  - destruct (fixtures_on_isSessionSupported b w) as (Ei & Ew & Ep & Er & Ec & _).
    destruct F as (A & B & D).
    split; [rewrite Ei, Ew; exact A|]. split; [rewrite Ep; exact B|].
    intros [e S]. rewrite Ew, Ep in S. rewrite Er, Ec. apply D. now exists e.
  - apply (fitted_inv_ext w); [reflexivity|exact F].
  - exact (fitted_inv_ext w _ (fixtures_on_session s w) F).
  - apply (fitted_inv_ext w); [reflexivity|exact F].
  - exact (fitted_inv_ext w _ (fixtures_on_referenceSpace r w) F).
  - apply (fitted_inv_ext w); [reflexivity|exact F].
  - exact (fitted_inv_ext w _ (fixtures_on_end_then w) F).
  - exact (fitted_inv_ext w _ (fixtures_on_end_catch_then e w) F).
Qed.

Lemma step_fitted_inv (i : Input) (w : World) :
  wired_inv w -> fitted_inv w -> fitted_inv (step i w).
Proof.
  intros W F. destruct i as [e|e|s|c h enough f|p o|]; cbn [step].
  - now apply dispatch_fitted_inv.
  - now apply dispatch_fitted_inv.
  - induction (filter (Nat.eqb s) (session_end_listeners (host w))) as [|x xs IH]
      in w, W, F |- *; [exact F|].
    cbn [fold_left].
    assert (E : call session_end_listener w =
                dispatch_window "vrdisplaydeactivate"
                  (mkWorld (xr w) (host w) (trace w ++ [A_console_log "session ended"])))
      by reflexivity.
    rewrite E. clear E.
    assert (W1 : wired_inv (mkWorld (xr w) (host w)
                              (trace w ++ [A_console_log "session ended"])))
      by (apply (wired_inv_ext w); [reflexivity|apply W|exact W]).
    assert (F1 : fitted_inv (mkWorld (xr w) (host w)
                               (trace w ++ [A_console_log "session ended"])))
      by (apply (fitted_inv_ext w); [reflexivity|exact F]).
    apply IH; [now apply dispatch_wired_inv|now apply dispatch_fitted_inv].
  - unfold fire. destruct (existsb (frame_eqb (c, h)) (frames (host w))); [|exact F].
    apply call_fitted_inv.
    apply (fitted_inv_ext (without_frame c h w)); [apply fixtures_animate_|].
    apply (fitted_inv_ext w); [reflexivity|exact F].
  - destruct (settle_cases p o w) as [E|(k & m & _ & C & E)]; rewrite E; [exact F|].
    apply call_fitted_inv. eapply continuation_fitted_inv; [exact C|].
    apply (fitted_inv_ext w); [reflexivity|exact F].
  - apply call_fitted_inv. unfold dispose, bind.
    pose proof (reset_fitted_inv w W F) as R.
    destruct (reset w) as [w1 [[]|e]]; [|exact R].
    apply (fitted_inv_ext w1); [reflexivity|exact R].
Qed.

Lemma reachable_fitted_inv (w : World) : reachable w -> fitted_inv w.
Proof.
  induction 1 as [nav|i w H IH].
  - split; [reflexivity|]. split; [intros x [<-|[]]; now left|].
    intros [e [S|[]]]. discriminate S.
  - apply step_fitted_inv; [now apply reachable_wired_inv|exact IH].
Qed.

Lemma window_subscriptions_one_per_event (e : string) :
  List.length (filter (fun l : string * Handler => String.eqb e (fst l))
                 window_subscriptions) <= 1.
Proof.
  unfold window_subscriptions, filter. cbn [fst].
  destruct (String.eqb_spec e "vrdisplaypresentchange") as [->|_];
    [cbv; lia|].
  destruct (String.eqb_spec e "resize") as [->|_]; [cbv; lia|].
  destruct (String.eqb_spec e "vrdisplayactivate") as [->|_]; [cbv; lia|].
  destruct (String.eqb e "vrdisplaydeactivate"); cbn [List.length]; lia.
Qed.

(** X11.  In every state the host can drive the plugin to, a window event
    has at most one listener of the plugin: however often [init] runs, its
    four [addEventListener] calls (lines 256-259) never stack up, the
    [reset] at its start having removed what was subscribed. *)
Theorem X11_window_events_have_one_listener (w : World) (e : string) :
  reachable w ->
  List.length (listeners_for e (window_listeners (host w))) <= 1.
Proof.
  intros R. destruct (reachable_wired_inv w R) as (_ & I & N & _).
  unfold listeners_for. rewrite length_map.
  transitivity (List.length (filter (fun l : string * Handler => String.eqb e (fst l))
                               window_subscriptions));
    [|apply window_subscriptions_one_per_event].
  apply NoDup_incl_length; [now apply NoDup_filter|].
  intros x Hx. apply filter_In in Hx as [Hx Hp]. apply filter_In. split; [|exact Hp].
  now apply I.
Qed.

Lemma X11_witness :
  List.length (listeners_for "resize" (window_listeners (host active_world))) <= 1.
Proof. apply X11_window_events_have_one_listener, active_world_reachable. Defined.

(** X12.  In every reachable state in which the plugin is not initialised
    (before the first 'loadedmetadata', after a [reset] or a [dispose], after
    an [init] that failed) no window listener of the plugin is subscribed,
    so no window event reaches it. *)
Theorem X12_uninitialized_plugin_hears_no_window_event (w : World) (e : string) :
  reachable w -> initialized_ (xr w) = false ->
  window_listeners (host w) = [] /\ step (I_window_event e) w = w.
Proof.
  intros R Hi. destruct (reachable_fitted_inv w R) as (A & _).
  specialize (A Hi). split; [exact A|].
  cbn [step]. unfold dispatch_window. rewrite A. reflexivity.
Qed.

Lemma X12_witness :
  let w := run [I_player_event "loadedmetadata"; I_dispose] (constructed true) in
  window_listeners (host w) = [] /\ step (I_window_event "vrdisplayactivate") w = w.
Proof.
  apply X12_uninitialized_plugin_hears_no_window_event.
  - apply reachable_run. constructor.
  - vm_compute. reflexivity.
Defined.



(** ** The player's buttons *)

Lemma getChild_app (n : string) (a b : list string) :
  getChild n (a ++ b) = getChild n a || getChild n b.
Proof. unfold getChild. apply existsb_app. Qed.

Lemma getChild_one (n m : string) : getChild n [m] = String.eqb n m.
Proof. unfold getChild, existsb. apply orb_false_r. Qed.

Lemma getChild_removed (n m : string) (cs : list string) :
  getChild n (filter (fun c => negb (String.eqb m c)) cs) =
    if String.eqb n m then false else getChild n cs.
Proof.
  unfold getChild. induction cs as [|c cs IH].
  - destruct (String.eqb n m); reflexivity.
  - unfold filter. fold (filter (fun c => negb (String.eqb m c)) cs).
    unfold existsb at 2. fold (existsb (String.eqb n) cs).
    destruct (String.eqb_spec m c) as [->|Hmc]; cbn [negb].
    + rewrite IH. destruct (String.eqb n c); reflexivity.
    + unfold existsb. fold (existsb (String.eqb n) (filter (fun c => negb (String.eqb m c)) cs)).
      rewrite IH.
      destruct (String.eqb_spec n m) as [->|Hnm]; [|reflexivity].
      destruct (String.eqb_spec m c) as [->|_]; [contradiction|reflexivity].
Qed.

Lemma getChild_restored (n : string) (cs : list string) :
  getChild n (restored_children cs) =
    if String.eqb n "BigVrPlayButton" then false
    else getChild n cs || String.eqb n "BigPlayButton".
Proof.
  unfold restored_children.
  set (cs1 := if negb (getChild "BigPlayButton" cs) then cs ++ ["BigPlayButton"] else cs).
  assert (H1 : getChild n cs1 = getChild n cs || String.eqb n "BigPlayButton").
  { unfold cs1. destruct (getChild "BigPlayButton" cs) eqn:G; cbn [negb].
    - destruct (String.eqb_spec n "BigPlayButton") as [->|_];
        [rewrite G; reflexivity|now rewrite orb_false_r].
    - now rewrite getChild_app, getChild_one. }
  destruct (getChild "BigVrPlayButton" cs1) eqn:G.
  - rewrite getChild_removed, H1. reflexivity.
  - rewrite H1. destruct (String.eqb_spec n "BigVrPlayButton") as [->|_]; [|reflexivity].
    rewrite <- H1. exact G.
Qed.

Lemma getChild_swapped (n : string) (cs : list string) :
  getChild n (swapped_children cs) =
    (if String.eqb n "BigPlayButton" then false else getChild n cs)
    || String.eqb n "BigVrPlayButton".
Proof.
  unfold swapped_children. now rewrite getChild_app, getChild_removed, getChild_one.
Qed.

(** X14.  [init] and [reset] swap the big play button for the VR one and
    back.  After an [init] that completes the player has a child named
    'BigVrPlayButton' and none named 'BigPlayButton' (lines 196-197); after
    the [reset] of the plugin so initialised it is the other way round
    (lines 298-305); whether the player has a child of any other name is
    left as it was by both. *)
Theorem X14_big_play_button_round_trip (w : World) (n : string)
  (Hdone : snd (init w) = Ok tt) :
  let before := getChild n (player_children (host w)) in
  let after_init := getChild n (player_children (host (fst (init w)))) in
  let after_reset := getChild n (player_children (host (fst (reset (fst (init w)))))) in
  after_init =
    (if String.eqb n "BigVrPlayButton" then true
     else if String.eqb n "BigPlayButton" then false else before)
  /\ after_reset =
    (if String.eqb n "BigVrPlayButton" then false
     else if String.eqb n "BigPlayButton" then true else before).
Proof.
  cbv zeta. destruct (init_completes w Hdone) as [Hok Hnav].
  destruct (init_effect w Hnav Hok)
    as (_ & Hini & _ & _ & _ & _ & _ & _ & _ & _ & _ & _ & _ & Hch & _).
  destruct (reset_fixtures (fst (init w)) Hini) as (_ & _ & _ & _ & Hch' & _).
  rewrite Hch', getChild_restored, Hch, getChild_swapped.
  assert (H0 : String.eqb n "BigVrPlayButton" = false ->
               String.eqb n "BigPlayButton" = false ->
               getChild n (player_children (host (fst (reset w)))) =
               getChild n (player_children (host w))).
  { intros E1 E2. destruct (initialized_ (xr w)) eqn:Hi.
    - destruct (reset_fixtures w Hi) as (_ & _ & _ & _ & H & _).
      rewrite H, getChild_restored, E1, E2. apply orb_false_r.
    - now rewrite (reset_uninitialized w Hi). }
  destruct (String.eqb_spec n "BigVrPlayButton") as [->|_].
  - split; [apply orb_true_r|reflexivity].
  - destruct (String.eqb_spec n "BigPlayButton") as [->|_].
    + split; reflexivity.
    + rewrite H0 by reflexivity. rewrite !orb_false_r. split; reflexivity.
Qed.

Lemma X14_witness :
  getChild "BigPlayButton" (player_children (host (fst (init active_world)))) = false
  /\ getChild "BigPlayButton"
       (player_children (host (fst (reset (fst (init active_world)))))) = true.
Proof.
  apply (X14_big_play_button_round_trip active_world "BigPlayButton").
  vm_compute. reflexivity.
Defined.

(** ** The cardboard button *)

Lemma keeps_bar_trans (w w1 w2 : World) :
  keeps_bar w w1 -> keeps_bar w1 w2 -> keeps_bar w w2.
Proof. intros [_ B1] [A2 B2]. split; [exact A2|now rewrite B2]. Qed.

Lemma keeps_bar_fixtures (w w' : World) :
  fixtures w' = fixtures w ->
  getChild "CardboardButton" (player_children (host w)) = false ->
  keeps_bar w w'.
Proof.
  unfold fixtures. intros E P. injection E as _ _ _ _ _ Ec Eb.
  split; [now rewrite Ec|exact Eb].
Qed.

Lemma reset_keeps_bar (w : World) :
  getChild "CardboardButton" (player_children (host w)) = false ->
  keeps_bar w (fst (reset w)).
Proof.
  intros P. destruct (initialized_ (xr w)) eqn:Hi.
  - destruct (reset_fixtures w Hi) as (_ & _ & _ & _ & Hc & Hb).
    assert (G : getChild "CardboardButton"
                  (restored_children (player_children (host w))) = false)
      by (rewrite getChild_restored, P; reflexivity).
    split; [now rewrite Hc|].
    rewrite Hb. unfold swept_controlBar. now rewrite G.
  - rewrite (reset_uninitialized w Hi). split; [exact P|reflexivity].
Qed.

Lemma init_body_keeps_bar (w : World) :
  getChild "CardboardButton" (player_children (host w)) = false ->
  keeps_bar w (fst (init_body w)).
Proof.
  intros P. destruct (init_body_fixtures w) as (_ & _ & _ & _ & _ & Hc & Hb).
  split; [|exact Hb]. rewrite Hc, getChild_swapped, P. reflexivity.
Qed.

Lemma init_keeps_bar (w : World) :
  getChild "CardboardButton" (player_children (host w)) = false ->
  keeps_bar w (fst (init w)).
Proof.
  intros P. pose proof (reset_keeps_bar w P) as R. rewrite init_unfold.
  destruct (reset w) as [w1 [[]|e]]; cbn [fst] in *; [|exact R].
  apply (keeps_bar_trans w w1); [exact R|]. apply init_body_keeps_bar, R.
Qed.

Lemma call_keeps_bar (m : M unit) (w0 w : World) :
  keeps_bar w0 (fst (m w)) -> keeps_bar w0 (call m w).
Proof.
  intros [A B]. pose proof (fixtures_call m w) as E. unfold fixtures in E.
  injection E as _ _ _ _ _ Ec Eb. split; [now rewrite Ec|now rewrite Eb].
Qed.

Lemma handler_keeps_bar (h : Handler) (w : World) :
  getChild "CardboardButton" (player_children (host w)) = false ->
  keeps_bar w (call (handler_body h) w).
Proof.
  intros P. apply call_keeps_bar. destruct h; cbn [handler_body].
  - now apply init_keeps_bar.
  - exact (keeps_bar_fixtures w _ (fixtures_handleResize_ w) P).
  - exact (keeps_bar_fixtures w _ (fixtures_handleVrDisplayActivate_ w) P).
  - exact (keeps_bar_fixtures w _ (fixtures_handleVrDisplayDeactivate_ w) P).
Qed.

Lemma dispatch_keeps_bar (hs : list Handler) (w : World) :
  getChild "CardboardButton" (player_children (host w)) = false ->
  keeps_bar w (dispatch hs w).
Proof.
  revert w. induction hs as [|h hs IH]; intros w P; [split; [exact P|reflexivity]|].
  pose proof (handler_keeps_bar h w P) as H1.
  apply (keeps_bar_trans w (call (handler_body h) w)); [exact H1|].
  apply IH, H1.
Qed.

Lemma step_bar (i : Input) (w : World) :
  getChild "CardboardButton" (player_children (host w)) = false ->
  getChild "CardboardButton" (player_children (host (step i w))) = false
  /\ bar_grows w (step i w).
Proof.
  intros P.
  assert (K : forall w', keeps_bar w w' ->
                getChild "CardboardButton" (player_children (host w')) = false
                /\ bar_grows w w')
    by (intros w' [A B]; split; [exact A|now left]).
  destruct i as [e|e|s|c h enough f|p o|]; cbn [step].
  - now apply K, dispatch_keeps_bar.
  - now apply K, dispatch_keeps_bar.
  - apply K. clear K.
    assert (G : forall (xs : list XRSession) w1, keeps_bar w w1 ->
                  keeps_bar w (fold_left (fun w _ => call session_end_listener w) xs w1)).
    { induction xs as [|x xs IH]; intros w1 H1; [exact H1|].
      cbn [fold_left]. apply IH.
      assert (E : call session_end_listener w1 =
                  dispatch_window "vrdisplaydeactivate"
                    (mkWorld (xr w1) (host w1)
                       (trace w1 ++ [A_console_log "session ended"])))
        by reflexivity.
      rewrite E. apply (keeps_bar_trans w w1); [exact H1|].
      destruct H1 as [A1 _].
      exact (dispatch_keeps_bar _
               (mkWorld (xr w1) (host w1) (trace w1 ++ [A_console_log "session ended"]))
               A1). }
    apply G. split; [exact P|reflexivity].
  - apply K. unfold fire.
    destruct (existsb (frame_eqb (c, h)) (frames (host w)));
      [|split; [exact P|reflexivity]].
    apply call_keeps_bar.
    exact (keeps_bar_fixtures w _ (fixtures_animate_ enough f (without_frame c h w)) P).
  - destruct (settle_cases p o w) as [E|(k & m & _ & C & E)]; rewrite E;
      [apply K; split; [exact P|reflexivity]|].
    destruct k, o as [[b|s|r|]|e]; cbn [continuation] in C; try discriminate C;
      injection C as <-.
    2-8: apply K, call_keeps_bar.
    + pose proof (fixtures_call (on_isSessionSupported b) (without_promise p w)) as Ec.
      unfold fixtures in Ec. injection Ec as _ _ _ _ _ Ec Eb.
      unfold bar_grows. rewrite Ec, Eb, on_isSessionSupported_eq.
      destruct b; cbn [fst host player_children controlBar_children];
        [|split; [exact P|now left]].
      change (controlBar_children (host (without_promise p w)))
        with (controlBar_children (host w)).
      destruct (getChild "CardboardButton" (controlBar_children (host w))) eqn:G.
      * split; [exact P|now left].
      * split; [exact P|right]. split; [reflexivity|].
        destruct w as [x [] t]. reflexivity.
    + split; [exact P|reflexivity].
    + exact (keeps_bar_fixtures w _ (fixtures_on_session s (without_promise p w)) P).
    + split; [exact P|reflexivity].
    + exact (keeps_bar_fixtures w _ (fixtures_on_referenceSpace r (without_promise p w)) P).
    + split; [exact P|reflexivity].
    + exact (keeps_bar_fixtures w _ (fixtures_on_end_then (without_promise p w)) P).
    + exact (keeps_bar_fixtures w _ (fixtures_on_end_catch_then e (without_promise p w)) P).
  - apply K, call_keeps_bar. unfold dispose, bind.
    pose proof (reset_keeps_bar w P) as R.
    destruct (reset w) as [w1 [[]|e]]; exact R.
Qed.

(** X15.  The cardboard button is added to the control bar at most once
    and never taken out again.  [reset] removes it from the control bar
    only if the player itself has a child named 'CardboardButton' (lines
    307-310), and the plugin only ever gives the player its two big play
    buttons: starting from a player without such a child, after any
    sequence of inputs the control bar is what it was, or what it was plus
    one cardboard button. *)
Theorem X15_cardboard_button_is_never_removed (w : World) (inputs : list Input) :
  getChild "CardboardButton" (player_children (host w)) = false ->
  bar_grows w (run inputs w)
  /\ getChild "CardboardButton" (player_children (host (run inputs w))) = false.
Proof.
  revert w. induction inputs as [|i inputs IH]; intros w P.
  - split; [now left|exact P].
  - change (run (i :: inputs) w) with (run inputs (step i w)).
    destruct (step_bar i w P) as [P1 G1].
    destruct (IH (step i w) P1) as [G2 P2]. split; [|exact P2].
    unfold bar_grows in *.
    destruct G1 as [E1|[N1 E1]], G2 as [E2|[N2 E2]].
    + left. now rewrite E2.
    + right. rewrite <- E1. split; [exact N2|exact E2].
    + right. split; [exact N1|now rewrite E2].
    + exfalso. rewrite E1, getChild_app, getChild_one in N2.
      rewrite orb_true_r in N2. discriminate N2.
Qed.

Lemma X15_witness :
  bar_grows active_world
    (run [I_player_event "loadedmetadata"; I_dispose] active_world)
  /\ getChild "CardboardButton"
       (player_children
          (host (run [I_player_event "loadedmetadata"; I_dispose] active_world)))
     = false.
Proof.
  apply X15_cardboard_button_is_never_removed. vm_compute. reflexivity.
Defined.

(** ** The constructor's index of the big play button *)

Lemma or_zero_id (x : Z) : or_zero x = x.
Proof. unfold or_zero. destruct (Z.eqb_spec x 0); congruence. Qed.

Lemma getChild_cons (n c : string) (cs : list string) :
  getChild n (c :: cs) = String.eqb n c || getChild n cs.
Proof. reflexivity. Qed.

Lemma indexOf_from_spec (n : string) (cs : list string) (i : Z) :
  if getChild n cs
  then (i <= indexOf_from n cs i < i + Z.of_nat (List.length cs))%Z
       /\ nth_error cs (Z.to_nat (indexOf_from n cs i - i)) = Some n
  else indexOf_from n cs i = (-1)%Z.
Proof.
  revert i. induction cs as [|c cs IH]; intros i; [reflexivity|].
  rewrite getChild_cons. cbn [indexOf_from List.length].
  destruct (String.eqb_spec n c) as [->|Hn]; cbn [orb].
  - split; [lia|]. now rewrite Z.sub_diag.
  - specialize (IH (i + 1)%Z). destruct (getChild n cs); [|exact IH].
    destruct IH as [Hr Hn']. split; [lia|].
    replace (Z.to_nat (indexOf_from n cs (i + 1) - i))
      with (S (Z.to_nat (indexOf_from n cs (i + 1) - (i + 1)))) by lia.
    exact Hn'.
Qed.

(** X16.  The index the constructor stores at line 36,
    [children.indexOf(getChild('BigPlayButton')) || 0].  The fallback never
    changes the value: [indexOf] answers [-1] for a missing child and [-1] is
    truthy.  So a player without a big play button gets the index [-1], not
    [0], and a player with one gets the position of that button. *)
Theorem X16_play_button_index (cs : list string) :
  bigPlayButtonIndex_ cs = indexOf "BigPlayButton" cs
  /\ if getChild "BigPlayButton" cs
     then (0 <= bigPlayButtonIndex_ cs < Z.of_nat (List.length cs))%Z
          /\ nth_error cs (Z.to_nat (bigPlayButtonIndex_ cs)) = Some "BigPlayButton"
     else bigPlayButtonIndex_ cs = (-1)%Z.
Proof.
  unfold bigPlayButtonIndex_. rewrite or_zero_id. split; [reflexivity|].
  unfold indexOf. pose proof (indexOf_from_spec "BigPlayButton" cs 0) as H.
  destruct (getChild "BigPlayButton" cs); [|exact H].
  rewrite Z.sub_0_r in H. exact H.
Qed.

(** ** When [reset] throws *)


(** What a [reset] that throws has done. *)
Lemma reset_thrown (w : World) (e : Exn) :
  snd (reset w) = Throw e ->
  initialized_ (xr w) = true
  /\ e = (if canvas_detached (xr w)
          then TypeError "this.renderedCanvas.parentNode is null"
          else TypeError "this.currentSession is null")
  /\ initialized_ (xr (fst (reset w))) = true
  /\ (renderedCanvas (xr w) <> None ->
      canvas_detached (xr (fst (reset w))) = true).
Proof.
  destruct (initialized_ (xr w)) eqn:Hi;
    [|rewrite (reset_uninitialized w Hi); intros H; discriminate H].
  rewrite (reset_blocks w Hi).
  rewrite reset_player_restores, reset_listeners_eq, reset_controls_eq.
  open_world0 w. cbn [xr initialized_] in Hi. subst.
  destruct canvas as [[[|]]|];
    (destruct frameId as [[|n]|]; [| destruct active; [destruct session|] |]);
    run_cbv; intros He; try discriminate He; injection He as <-;
    repeat split; try reflexivity.
  intros N. now contradiction N.
Qed.

(** When [reset] throws, by the frame and the mode of a plugin whose canvas
    can be removed. *)
Lemma reset_outcome (w : World) :
  initialized_ (xr w) = true -> canvas_detached (xr w) = false ->
  snd (reset w) =
    match animationFrameId_ (xr w), xrActive (xr w), currentSession (xr w) with
    | Some (S _), true, None => Throw (TypeError "this.currentSession is null")
    | _, _, _ => Ok tt
    end.
Proof.
  intros Hi Hc. destruct (reset_eq w Hi Hc) as (cs & bar & E). cbv zeta in E.
  rewrite E. clear. open_world0 w.
  destruct frameId as [[|n]|], active, session; reflexivity.
Qed.

(** X17.  [reset] throws in exactly two situations, both on an initialised
    plugin: its canvas is out of the document, so that line 320 dereferences
    a null [parentNode]; or a frame handle is stored, [xrActive] is set and
    there is no session to cancel the frame on (lines 323-325 through
    112-114).  In either case the flag is left set although the window
    listeners are gone, and [dispose] stops before [super.dispose()].  A
    plugin with a canvas is left with that canvas out of the document, so
    that its next [reset] throws at line 320.  The situation is reachable: a
    session ended while its reference space was still awaited. *)
Theorem X17_reset_throws_exactly_when (w : World) :
  ((exists e, snd (reset w) = Throw e) <->
   (initialized_ (xr w) = true
    /\ (canvas_detached (xr w) = true
        \/ ((exists n, animationFrameId_ (xr w) = Some (S n))
            /\ xrActive (xr w) = true
            /\ currentSession (xr w) = None))))
  /\ (forall e, snd (reset w) = Throw e ->
      e = (if canvas_detached (xr w)
           then TypeError "this.renderedCanvas.parentNode is null"
           else TypeError "this.currentSession is null")
      /\ initialized_ (xr (fst (reset w))) = true
      /\ window_listeners (host (fst (reset w))) =
           unsubscribed (window_listeners (host w))
      /\ dispose w = reset w
      /\ (renderedCanvas (xr w) <> None ->
          snd (reset (fst (reset w))) =
            Throw (TypeError "this.renderedCanvas.parentNode is null")))
  /\ (exists w0, reachable w0 /\ exists e, snd (reset w0) = Throw e).
Proof.
  split; [|split].
  - destruct (initialized_ (xr w)) eqn:Hi;
      [destruct (canvas_detached (xr w)) eqn:Hc|].
    + destruct (reset_detached_eq w Hi Hc) as (cs & bar & E). rewrite E. cbn [snd].
      split; [intros _; split; [reflexivity|now left]|intros _; eauto].
    + rewrite (reset_outcome w Hi Hc).
      destruct (animationFrameId_ (xr w)) as [[|n]|], (xrActive (xr w)),
        (currentSession (xr w)); split;
        try (intros [e H]; discriminate H);
        try (intros (_ & [H|([m H1] & H2 & H3)]); discriminate);
        try (intros _; eauto 7).
    + rewrite (reset_uninitialized w Hi). cbn [snd]. split.
      * intros [e H]. discriminate H.
      * intros (H & _). discriminate H.
  - intros e He. destruct (reset_thrown w e He) as (Hi & Ee & Hi' & Hcv).
    destruct (reset_fixtures w Hi) as (Hw & _).
    assert (D : dispose w = reset w).
    { unfold dispose, bind. destruct (reset w) as [w1 [[]|e1]];
        [discriminate He|reflexivity]. }
    split; [exact Ee|]. split; [exact Hi'|]. split; [exact Hw|]. split; [exact D|].
    intros N. specialize (Hcv N).
    destruct (reset_detached_eq (fst (reset w)) Hi' Hcv) as (cs & bar & E).
    rewrite E. reflexivity.
  - exists orphaned_world. split; [apply orphaned_world_reachable|].
    exists (TypeError "this.currentSession is null"). vm_compute. reflexivity.
Qed.

Lemma X17_witness :
  TypeError "this.currentSession is null" = TypeError "this.currentSession is null"
  /\ initialized_ (xr (fst (reset orphaned_world))) = true
  /\ window_listeners (host (fst (reset orphaned_world))) =
       unsubscribed (window_listeners (host orphaned_world))
  /\ dispose orphaned_world = reset orphaned_world
  /\ (renderedCanvas (xr orphaned_world) <> None ->
      snd (reset (fst (reset orphaned_world))) =
        Throw (TypeError "this.renderedCanvas.parentNode is null")).
Proof.
  apply (proj1 (proj2 (X17_reset_throws_exactly_when orphaned_world))).
  vm_compute. reflexivity.
Defined.
